(** * E2E-EKS-GitOps: the ML platform's monitoring, configuration and
    pipeline logic, and the GitOps controller-health predicate

    A shallow embedding of the Python sources:
    - [ml-platform/src/monitoring/model_monitor.py]      (module [model_monitor])
    - [ml-platform/src/monitoring/monitoring_service.py] (module [monitoring_service])
    - [ml-platform/src/utils/monitoring.py]              (module [utils_monitoring])
    - [ml-platform/src/utils/config_manager.py]          (module [config_manager])
    - [ml-platform/src/pipelines/training_pipeline.py]   (module [training_pipeline])
    - [ml-platform/src/pipelines/inference_pipeline.py]  (module [inference_pipeline])
    - [ml-platform/src/monitoring/run_drift_check.py]    (module [run_drift_check])
    - [ml-platform/src/monitoring/drift_detector.py]     (module [drift_detector])
    - [gitops/tests/test_gitops_controller_health.py]    (module [gitops_health])

    Conventions.  A Python float that the code computes with (the drift
    score, the degradation percentage, the split fractions) is a binary64
    number, one of Rocq's primitive floats, with IEEE rounding, NaN and the
    infinities; a number that is only carried along or compared with a
    constant (a drift share, a probability, a latency, a time reading) is
    read by its value, a rational ([Q]).  Python ints are [Z]; [str] is
    [string]; a dict with a fixed set of optional keys is a record of
    [option] fields; a dict used as a map is a [gmap], or an
    insertion-ordered association list where iteration order is observable;
    [raise] is the [Raise] outcome of [result]. *)

From stdpp Require Import gmap strings list fin_maps.
From Stdlib Require Import QArith Qabs Qround Qminmax Qfield Lqa.
From Stdlib Require Import Ascii DecimalString Permutation.
From Stdlib Require Import Floats Uint63.

Set Warnings "-register-all,-inexact-float".

(* ===================================================================== *)
(** * Part I.  The model                                                  *)
(* ===================================================================== *)

(** ** Python helpers *)

Module py.

(** [s.endswith(suffix)] *)
Definition endswith (s suffix : string) : bool :=
  let n := String.length s in
  let m := String.length suffix in
  if (m <=? n)%nat then String.eqb (String.substring (n - m) m s) suffix
  else false.

(** [s.startswith(prefix)] *)
Definition startswith (s pre : string) : bool := String.prefix pre s.

(** [str(n)] / [f"{n}"] for an int. *)
Definition str_int (n : Z) : string := NilZero.string_of_int (Z.to_int n).

(** [float(n)] for a count [n]. *)
Definition of_nat (n : nat) : Q := inject_Z (Z.of_nat n).

(** [x > y] on numbers. *)
Definition gt (x y : Q) : bool := negb (Qle_bool x y).

(** [x < y] on numbers. *)
Definition lt (x y : Q) : bool := negb (Qle_bool y x).

(** Exceptions.  [HTTPException] is FastAPI's, a subclass of [Exception];
    every other exception a callee may raise is an [Error] with the name of
    its class and its message. *)
Inductive exn : Type :=
  | HTTPException (status_code : nat) (detail : string)
  | Error (cls msg : string).

Inductive result (A : Type) : Type :=
  | Return (a : A)
  | Raise (e : exn).
Arguments Return {A} a.
Arguments Raise {A} e.

Definition bind {A B} (m : result A) (k : A -> result B) : result B :=
  match m with
  | Return a => k a
  | Raise e => Raise e
  end.

(** [try: body  except Exception as e: handler(e)]: every exception of the
    body, an [HTTPException] included, reaches the handler. *)
Definition try_except {A} (body : result A) (handler : exn -> result A)
  : result A :=
  match body with
  | Return a => Return a
  | Raise e => handler e
  end.

(** Truthiness of an [Optional[str]] and of an [Optional[List]]. *)
Definition truthy_str (s : option string) : bool :=
  match s with
  | Some (String _ _) => true
  | _ => false
  end.

Definition truthy_list {A} (l : option (list A)) : bool :=
  match l with
  | Some (_ :: _) => true
  | _ => false
  end.

(** [l[-n:]] for a positive [n]: the last [n] elements, all of [l] when it
    is shorter. *)
Definition last_n {A} (n : nat) (l : list A) : list A :=
  skipn (length l - n) l.

(** The status line FastAPI answers with: 200 for a returned body, the
    code of a raised [HTTPException], 500 for any other exception. *)
Definition http_status {A} (r : result A) : nat :=
  match r with
  | Return _ => 200
  | Raise (HTTPException code _) => code
  | Raise (Error _ _) => 500
  end.

(** A [dict] with [str] keys, in insertion order. *)
Definition dict (V : Type) : Type := list (string * V).

Definition keys {V} (d : dict V) : list string := map fst d.

(** [k in d] *)
Definition contains {V} (k : string) (d : dict V) : bool :=
  bool_decide (k ∈ keys d).

(** [d[k]], a [KeyError] when [k] is not a key. *)
Fixpoint getitem {V} (k : string) (d : dict V) : result V :=
  match d with
  | [] => Raise (Error "KeyError" k)
  | (k', v) :: d' => if bool_decide (k' = k) then Return v else getitem k d'
  end.

(** [d[k] = v]: an existing key keeps its place, a new one goes last. *)
Fixpoint setitem {V} (k : string) (v : V) (d : dict V) : dict V :=
  match d with
  | [] => [(k, v)]
  | (k', v') :: d' =>
      if bool_decide (k' = k) then (k, v) :: d' else (k', v') :: setitem k v d'
  end.

(** [del d[k]], a [KeyError] when [k] is not a key. *)
Fixpoint delitem {V} (k : string) (d : dict V) : result (dict V) :=
  match d with
  | [] => Raise (Error "KeyError" k)
  | (k', v') :: d' =>
      if bool_decide (k' = k) then Return d'
      else match delitem k d' with
           | Return d'' => Return ((k', v') :: d'')
           | Raise e => Raise e
           end
  end.

(** [s.replace(':', '_')] *)
Fixpoint replace_colon (s : string) : string :=
  match s with
  | EmptyString => EmptyString
  | String c s' =>
      String (if Ascii.eqb c ":"%char then "_"%char else c) (replace_colon s')
  end.

(** *** Binary64 numbers

    A Python [float] is an IEEE 754 binary64 value, here one of Rocq's
    primitive floats: arithmetic rounds as the machine does, comparisons are
    IEEE's (every comparison with NaN is false, the two zeros are equal). *)

(** [x > y], [x < y], [x <= y], [x >= y], [x == y] on floats. *)
Definition fgt (x y : float) : bool := PrimFloat.ltb y x.
Definition flt (x y : float) : bool := PrimFloat.ltb x y.
Definition fle (x y : float) : bool := PrimFloat.leb x y.
Definition fge (x y : float) : bool := PrimFloat.leb y x.
Definition feq (x y : float) : bool := PrimFloat.eqb x y.

(** [x / y] on Python floats: a [ZeroDivisionError] when [y] is a zero. *)
Definition fdiv (x y : float) : result float :=
  if feq y 0 then Raise (Error "ZeroDivisionError" "float division by zero")
  else Return (PrimFloat.div x y).

(** [float(n)] for a size [n]; sizes are below 2^63, as every [len] is. *)
Definition float_of_nat (n : nat) : float :=
  PrimFloat.of_uint63 (Uint63.of_Z (Z.of_nat n)).

(** The number m * 2^e. *)
Definition scaled (m : Z) (e : Z) : Q :=
  match e with
  | Z0 => inject_Z m
  | Zpos p => inject_Z (m * Z.pow_pos 2 p)
  | Zneg p => Qmake m (Pos.pow 2 p)
  end.

(** [math.ceil(x)]: a [ValueError] for NaN, an [OverflowError] for an
    infinity. *)
Definition ceil (x : float) : result Z :=
  match Prim2SF x with
  | S754_nan =>
      Raise (Error "ValueError" "cannot convert float NaN to integer")
  | S754_infinity _ =>
      Raise (Error "OverflowError"
               "cannot convert float infinity to integer")
  | S754_zero _ => Return 0%Z
  | S754_finite s m e =>
      Return (Qceiling (scaled (if s then Zneg m else Zpos m) e))
  end.

(** A float as the rational that orders like it against every finite
    number: a finite float is its exact value; NaN, for which every
    comparison is false, stands as 0 where only [>] against positive
    constants is asked; the infinities stand beyond every binary64 value. *)
Definition as_Q (x : float) : Q :=
  match Prim2SF x with
  | S754_zero _ | S754_nan => 0
  | S754_infinity s =>
      inject_Z (if s then - Z.pow_pos 2 1024 else Z.pow_pos 2 1024)
  | S754_finite s m e => scaled (if s then Zneg m else Zpos m) e
  end.

(** A float is a zero or NaN. *)
Definition zero_or_nan (x : float) : Prop :=
  match Prim2SF x with
  | S754_zero _ | S754_nan => True
  | _ => False
  end.

End py.

#[global] Instance result_bind : MBind py.result := fun _ _ k m => py.bind m k.
#[global] Instance result_ret : MRet py.result := fun _ a => py.Return a.
#[global] Instance result_fmap : FMap py.result :=
  fun _ _ f m => py.bind m (fun a => py.Return (f a)).

(** A pandas data frame, as far as the code looks at it: its column names with
    their dtypes, and its number of rows. *)
Record dataframe : Type := {
  df_columns : list (string * string);
  df_len : nat
}.

Definition column_names (df : dataframe) : list string := map fst (df_columns df).

Definition has_column (df : dataframe) (c : string) : bool :=
  bool_decide (c ∈ column_names df).

(** ** monitoring/model_monitor.py *)

Module model_monitor.

(** The dict returned by [DriftDetector.detect_data_drift]. *)
Record drift_results : Type := {
  dataset_drift : option bool;
  drift_share : option Q;
  drifted_columns : list string
}.

(** The dict returned by [_check_model_performance]: the two quality scores
    as the engine reports them, and the degradation percentage, a number the
    health policy compares and the results carry on. *)
Record perf_results : Type := {
  current_score : option float;
  reference_score : option float;
  performance_degradation : option Q
}.

(** The [results] dict of [run_monitoring]. *)
Record monitoring_results : Type := {
  timestamp : string;
  model_type : string;
  samples_analyzed : nat;
  data_drift : option drift_results;
  model_performance : option perf_results;
  health_status : option string;
  report_path : option string
}.

(** What the Evidently engine computes for the monitor: the parsed drift
    report of [DriftDetector.detect_data_drift], and the reference and
    current quality score (F1 or R2, by model type) that
    [_check_model_performance] reads off the quality report.  Either may
    raise. *)
Class Evidently : Type := {
  detect_data_drift :
    dataframe -> dataframe -> option (list string) -> py.result drift_results;
  quality_scores :
    string -> dataframe -> dataframe ->
    py.result (option float * option float)
}.

Record ModelMonitor : Type := {
  reference_data : dataframe;
  mm_model_type : string;
  target_column : string;
  prediction_column : string;
  drift_threshold : Q;
  feature_columns : list string;
  numerical_features : list string;
  categorical_features : list string;
  _monitoring_history : list monitoring_results
}.

(** [reference_data[c].dtype]: a [KeyError] for an unknown column; for a
    name that several columns bear, [reference_data[c]] is a frame of those
    columns, which has no [dtype]. *)
Definition dtype_of (df : dataframe) (c : string) : py.result string :=
  match filter (fun p => fst p = c) (df_columns df) with
  | [] => py.Raise (py.Error "KeyError" c)
  | [(_, dt)] => py.Return dt
  | _ :: _ :: _ =>
      py.Raise (py.Error "AttributeError"
                  "'DataFrame' object has no attribute 'dtype'")
  end.

Fixpoint select_by_dtype (df : dataframe) (dtypes : list string)
    (cols : list string) : py.result (list string) :=
  match cols with
  | [] => py.Return []
  | c :: cols' =>
      dt ← dtype_of df c;
      rest ← select_by_dtype df dtypes cols';
      py.Return (if bool_decide (dt ∈ dtypes) then c :: rest else rest)
  end.

Definition __init__ (reference_data0 : dataframe) (model_type0 : string)
    (target_column0 prediction_column0 : string)
    (feature_columns0 : option (list string)) (drift_threshold0 : Q)
  : py.result ModelMonitor :=
  let feature_columns1 :=
    if py.truthy_list feature_columns0 then default [] feature_columns0
    else filter (fun c => c ≠ target_column0 ∧ c ≠ prediction_column0)
           (column_names reference_data0) in
  numerical ← select_by_dtype reference_data0 ["int64"; "float64"]
                 feature_columns1;
  categorical ← select_by_dtype reference_data0 ["object"]
                   feature_columns1;
  py.Return {|
    reference_data := reference_data0;
    mm_model_type := model_type0;
    target_column := target_column0;
    prediction_column := prediction_column0;
    drift_threshold := drift_threshold0;
    feature_columns := feature_columns1;
    numerical_features := numerical;
    categorical_features := categorical;
    _monitoring_history := []
  |}.

(** [_calc_degradation], on binary64 scores.  The division is by a number
    that is not a zero, so it does not raise. *)
Definition _calc_degradation (ref curr : float) : float :=
  if py.feq ref 0 then 0%float
  else PrimFloat.mul (PrimFloat.div (PrimFloat.sub ref curr) ref) 100.

Definition _check_model_performance `{Evidently} (self : ModelMonitor)
    (current_data : dataframe) : py.result perf_results :=
  scores ← quality_scores (mm_model_type self) (reference_data self)
              current_data;
  let '(reference, current) := scores in
  py.Return {|
    current_score := current;
    reference_score := reference;
    performance_degradation :=
      Some (py.as_Q (_calc_degradation (default 0%float reference)
                       (default 0%float current)))
  |}.

Definition _determine_health (results : monitoring_results) : string :=
  let drift := data_drift results in
  let perf := model_performance results in
  let after_drift :=
    let degradation := default 0 (perf ≫= performance_degradation) in
    if py.gt degradation 20 then "critical"
    else if py.gt degradation 10 then "warning"
    else "healthy" in
  if default false (drift ≫= dataset_drift) then
    let drift_share0 := default 0 (drift ≫= drift_share) in
    if py.gt drift_share0 (5 # 10) then "critical"
    else if py.gt drift_share0 (3 # 10) then "warning"
    else after_drift
  else after_drift.

Definition set_health (results : monitoring_results) (h : string)
  : monitoring_results :=
  {| timestamp := timestamp results;
     model_type := model_type results;
     samples_analyzed := samples_analyzed results;
     data_drift := data_drift results;
     model_performance := model_performance results;
     health_status := Some h;
     report_path := report_path results |}.

Definition append_history (self : ModelMonitor) (r : monitoring_results)
  : ModelMonitor :=
  {| reference_data := reference_data self;
     mm_model_type := mm_model_type self;
     target_column := target_column self;
     prediction_column := prediction_column self;
     drift_threshold := drift_threshold self;
     feature_columns := feature_columns self;
     numerical_features := numerical_features self;
     categorical_features := categorical_features self;
     _monitoring_history := _monitoring_history self ++ [r] |}.

(** [run_monitoring]: [now] is the reading of [datetime.utcnow()].  The
    monitor object is mutated in place; the new monitor is returned next to
    the results. *)
Definition run_monitoring `{Evidently} (self : ModelMonitor) (now : string)
    (current_data : dataframe) (include_performance : bool)
  : py.result (monitoring_results * ModelMonitor) :=
  drift_results0 ← detect_data_drift (reference_data self) current_data
                      (Some (feature_columns self));
  perf ← (if include_performance
              && has_column current_data (target_column self)
           then Some <$> _check_model_performance self current_data
           else py.Return None);
  let results := {|
    timestamp := now;
    model_type := mm_model_type self;
    samples_analyzed := df_len current_data;
    data_drift := Some drift_results0;
    model_performance := perf;
    health_status := None;
    report_path := None |} in
  let results := set_health results (_determine_health results) in
  py.Return (results, append_history self results).

Definition get_monitoring_history (self : ModelMonitor)
  : list monitoring_results := _monitoring_history self.

(** A client calling [run_monitoring] once per entry of [calls] (the clock
    reading, the current data, the flag), collecting the results. *)
Fixpoint run_all `{Evidently} (self : ModelMonitor)
    (calls : list (string * dataframe * bool))
  : py.result (list monitoring_results * ModelMonitor) :=
  match calls with
  | [] => py.Return ([], self)
  | (now, current_data, include_performance) :: calls' =>
      step ← run_monitoring self now current_data include_performance;
      rest ← run_all (snd step) calls';
      py.Return (fst step :: fst rest, snd rest)
  end.

(** The health policy as the specification words it: five rules read in
    order, the first whose condition holds decides. *)
Definition first_match (rules : list (bool * string)) (otherwise : string)
  : string :=
  match list_find (fun r => fst r = true) rules with
  | Some (_, (_, verdict)) => verdict
  | None => otherwise
  end.

Definition health_policy (drift : bool) (share degradation : Q) : string :=
  first_match
    [ (drift && py.gt share (5 # 10), "critical");
      (drift && py.gt share (3 # 10), "warning");
      (py.gt degradation 20, "critical");
      (py.gt degradation 10, "warning") ]
    "healthy".

(** What [_determine_health] reads off a results dict. *)
Definition drift_of (r : monitoring_results) : bool :=
  default false (data_drift r ≫= dataset_drift).
Definition share_of (r : monitoring_results) : Q :=
  default 0 (data_drift r ≫= drift_share).
Definition degradation_of (r : monitoring_results) : Q :=
  default 0 (model_performance r ≫= performance_degradation).

(** A synthetic result carrying only the keys the policy reads. *)
Definition synthetic (drift : bool) (share : Q) (degradation : option Q)
  : monitoring_results :=
  {| timestamp := ""; model_type := "classification"; samples_analyzed := 0;
     data_drift := Some {| dataset_drift := Some drift;
                           drift_share := Some share;
                           drifted_columns := [] |};
     model_performance :=
       match degradation with
       | Some d => Some {| current_score := None; reference_score := None;
                           performance_degradation := Some d |}
       | None => None
       end;
     health_status := None; report_path := None |}.

(** The file system as [export_metrics_json] uses it: creating the parent
    directory and dumping a results dict as JSON to a path, which may raise. *)
Class Files : Type := {
  write_json : string -> monitoring_results -> py.result unit
}.

(** [export_metrics_json]: [latest] is [self._monitoring_history[-1]]. *)
Definition export_metrics_json `{Files} (self : ModelMonitor)
    (output_path : string) : py.result string :=
  match last (_monitoring_history self) with
  | None => py.Raise (py.Error "ValueError" "No monitoring data available")
  | Some latest =>
      _ ← write_json output_path latest;
      py.Return output_path
  end.

(** A reference frame with a numeric and a categorical feature, and a
    monitor over it, for examples. *)
Definition demo_reference : dataframe :=
  {| df_columns := [("x", "float64"); ("y", "object"); ("target", "int64");
                    ("prediction", "int64")];
     df_len := 3 |}.

Definition demo_monitor : ModelMonitor :=
  {| reference_data := demo_reference;
     mm_model_type := "classification";
     target_column := "target";
     prediction_column := "prediction";
     drift_threshold := 5 # 100;
     feature_columns := ["x"; "y"];
     numerical_features := ["x"];
     categorical_features := ["y"];
     _monitoring_history := [] |}.

End model_monitor.

(** ** monitoring/monitoring_service.py *)

Module monitoring_service.

(** A [MetricsExporter]: the labels it publishes under. *)
Record MetricsExporter : Type := {
  exp_model_name : string;
  exp_model_version : string
}.

(** One inline record of [current_data] (a JSON object). *)
Definition json_record : Type := list (string * string).

(** What the service calls outside this repository's logic: pandas readers,
    the Prometheus client behind the exporter, the Evidently engine, and
    [str(e)] of a caught exception.  Each call may raise. *)
Class Platform : Type := {
  engine :: model_monitor.Evidently;
  read_csv : string -> py.result dataframe;
  read_parquet : string -> py.result dataframe;
  DataFrame : list json_record -> py.result dataframe;
  new_exporter : string -> string -> py.result MetricsExporter;
  update_from_monitoring_results :
    MetricsExporter -> model_monitor.monitoring_results -> py.result unit;
  update_drift_metrics :
    MetricsExporter -> model_monitor.drift_results -> py.result unit;
  str_exn : py.exn -> string
}.

Record RegisterModelRequest : Type := {
  reg_model_name : string;
  reg_model_version : string;
  reg_model_type : string;
  reg_target_column : string;
  reg_prediction_column : string;
  reg_feature_columns : option (list string);
  reference_data_path : string
}.

Record MonitoringRequest : Type := {
  mon_model_name : string;
  current_data_path : option string;
  current_data : option (list json_record);
  include_performance : bool;
  generate_report : bool
}.

Record DriftCheckRequest : Type := {
  dc_model_name : string;
  dc_current_data : list json_record;
  dc_columns : option (list string)
}.

(** The three module-level dicts. *)
Record state : Type := {
  monitors : py.dict model_monitor.ModelMonitor;
  exporters : py.dict MetricsExporter;
  reference_datasets : py.dict dataframe
}.

Definition initial : state :=
  {| monitors := []; exporters := []; reference_datasets := [] |}.

Definition _find_model_key (monitors0 : py.dict model_monitor.ModelMonitor)
    (model_name : string) : option string :=
  if py.contains model_name monitors0 then Some model_name
  else find (fun key => py.startswith key (model_name +:+ ":"))
         (py.keys monitors0).

Definition not_found {A} (model_name : string) : py.result A :=
  py.Raise (py.HTTPException 404 ("Model not found: " +:+ model_name)).

Definition internal_error `{Platform} {A} (e : py.exn) : py.result A :=
  py.Raise (py.HTTPException 500 (str_exn e)).

Record RegisterResponse : Type := {
  rr_status : string;
  rr_model_key : string;
  rr_reference_samples : nat;
  rr_features : list string
}.

(** POST /models/register *)
Definition register_model `{Platform} (st : state)
    (request : RegisterModelRequest) : py.result RegisterResponse * state :=
  let body : py.result (RegisterResponse * state) :=
    let path := reference_data_path request in
    reference_data ←
      (if py.endswith path ".csv" then read_csv path
       else if py.endswith path ".parquet" then read_parquet path
       else py.Raise (py.HTTPException 400 "Unsupported file format"));
    monitor ← model_monitor.__init__ reference_data (reg_model_type request)
                (reg_target_column request) (reg_prediction_column request)
                (reg_feature_columns request) (5 # 100);
    exporter ← new_exporter (reg_model_name request)
                 (reg_model_version request);
    let model_key :=
      reg_model_name request +:+ ":" +:+ reg_model_version request in
    py.Return
      ({| rr_status := "registered";
          rr_model_key := model_key;
          rr_reference_samples := df_len reference_data;
          rr_features := model_monitor.feature_columns monitor |},
       {| monitors := py.setitem model_key monitor (monitors st);
          exporters := py.setitem model_key exporter (exporters st);
          reference_datasets :=
            py.setitem model_key reference_data (reference_datasets st) |})
  in
  match py.try_except body internal_error with
  | py.Return (response, st') => (py.Return response, st')
  | py.Raise e => (py.Raise e, st)
  end.

Definition with_monitor (st : state) (model_key : string)
    (monitor : model_monitor.ModelMonitor) : state :=
  {| monitors := py.setitem model_key monitor (monitors st);
     exporters := exporters st;
     reference_datasets := reference_datasets st |}.

Definition with_report_path (results : model_monitor.monitoring_results)
    (path : string) : model_monitor.monitoring_results :=
  {| model_monitor.timestamp := model_monitor.timestamp results;
     model_monitor.model_type := model_monitor.model_type results;
     model_monitor.samples_analyzed := model_monitor.samples_analyzed results;
     model_monitor.data_drift := model_monitor.data_drift results;
     model_monitor.model_performance :=
       model_monitor.model_performance results;
     model_monitor.health_status := model_monitor.health_status results;
     model_monitor.report_path := Some path |}.

(** [results["report_path"] = ...] writes into the dict that the monitor has
    just appended to its history: the last entry of the history is that same
    object. *)
Definition amend_last (monitor : model_monitor.ModelMonitor)
    (results : model_monitor.monitoring_results) : model_monitor.ModelMonitor :=
  {| model_monitor.reference_data := model_monitor.reference_data monitor;
     model_monitor.mm_model_type := model_monitor.mm_model_type monitor;
     model_monitor.target_column := model_monitor.target_column monitor;
     model_monitor.prediction_column := model_monitor.prediction_column monitor;
     model_monitor.drift_threshold := model_monitor.drift_threshold monitor;
     model_monitor.feature_columns := model_monitor.feature_columns monitor;
     model_monitor.numerical_features :=
       model_monitor.numerical_features monitor;
     model_monitor.categorical_features :=
       model_monitor.categorical_features monitor;
     model_monitor._monitoring_history :=
       removelast (model_monitor._monitoring_history monitor) ++ [results] |}.

(** The [# Load current data] step of [run_monitoring]. *)
Definition load_current_data `{Platform} (request : MonitoringRequest)
  : py.result dataframe :=
  if py.truthy_str (current_data_path request) then
    let path := default "" (current_data_path request) in
    if py.endswith path ".csv" then read_csv path else read_parquet path
  else if py.truthy_list (current_data request) then
    DataFrame (default [] (current_data request))
  else py.Raise (py.HTTPException 400 "No current data provided").

(** POST /monitoring/run.  [now] is [datetime.utcnow().isoformat()] as read
    by the monitor, [stamp] the [strftime] reading used in the report path.
    The monitor is mutated in place by [monitor.run_monitoring], so its new
    history stays in the store even when a later step of the [try] raises. *)
Definition run_monitoring `{Platform} (st : state)
    (request : MonitoringRequest) (now stamp : string)
  : py.result model_monitor.monitoring_results * state :=
  match _find_model_key (monitors st) (mon_model_name request) with
  | None | Some EmptyString => (not_found (mon_model_name request), st)
  | Some model_key =>
      match py.getitem model_key (monitors st),
            py.getitem model_key (exporters st) with
      | py.Raise e, _ | py.Return _, py.Raise e => (py.Raise e, st)
      | py.Return monitor, py.Return exporter =>
          match load_current_data request with
          | py.Raise e => (internal_error e, st)
          | py.Return current_data0 =>
              match model_monitor.run_monitoring monitor now current_data0
                      (include_performance request) with
              | py.Raise e => (internal_error e, st)
              | py.Return (results, monitor') =>
                  let st' := with_monitor st model_key monitor' in
                  match update_from_monitoring_results exporter results with
                  | py.Raise e => (internal_error e, st')
                  | py.Return _ =>
                      if generate_report request then
                        let model_key_safe := py.replace_colon model_key in
                        let report_path0 :=
                          "/tmp/reports/" +:+ model_key_safe +:+ "_"
                            +:+ stamp +:+ ".html" in
                        let results' := with_report_path results report_path0 in
                        (py.Return results',
                         with_monitor st model_key
                           (amend_last monitor' results'))
                      else (py.Return results, st')
                  end
              end
          end
      end
  end.

(** POST /drift/check *)
Definition check_drift `{Platform} (st : state) (request : DriftCheckRequest)
  : py.result model_monitor.drift_results * state :=
  match _find_model_key (monitors st) (dc_model_name request) with
  | None | Some EmptyString => (not_found (dc_model_name request), st)
  | Some model_key =>
      match py.getitem model_key (monitors st),
            py.getitem model_key (exporters st) with
      | py.Raise e, _ | py.Return _, py.Raise e => (py.Raise e, st)
      | py.Return monitor, py.Return exporter =>
          let body :=
            current_data0 ← DataFrame (dc_current_data request);
            results ← model_monitor.detect_data_drift
                        (model_monitor.reference_data monitor) current_data0
                        (dc_columns request);
            _ ← update_drift_metrics exporter results;
            py.Return results in
          (py.try_except body internal_error, st)
      end
  end.

(** GET /models/{model_name}/history *)
Definition get_monitoring_history (st : state) (model_name : string)
  : py.result (string * list model_monitor.monitoring_results) * state :=
  match _find_model_key (monitors st) model_name with
  | None | Some EmptyString => (not_found model_name, st)
  | Some model_key =>
      (monitor ← py.getitem model_key (monitors st);
       py.Return (model_key, model_monitor.get_monitoring_history monitor),
       st)
  end.

(** DELETE /models/{model_name}: the three [del] statements run in order,
    so a [KeyError] in a later one leaves the earlier deletions done. *)
Definition unregister_model (st : state) (model_name : string)
  : py.result (string * string) * state :=
  match _find_model_key (monitors st) model_name with
  | None | Some EmptyString => (not_found model_name, st)
  | Some model_key =>
      match py.delitem model_key (monitors st) with
      | py.Raise e => (py.Raise e, st)
      | py.Return monitors' =>
          let st1 := {| monitors := monitors'; exporters := exporters st;
                        reference_datasets := reference_datasets st |} in
          match py.delitem model_key (exporters st) with
          | py.Raise e => (py.Raise e, st1)
          | py.Return exporters' =>
              let st2 := {| monitors := monitors'; exporters := exporters';
                            reference_datasets := reference_datasets st |} in
              match py.delitem model_key (reference_datasets st) with
              | py.Raise e => (py.Raise e, st2)
              | py.Return datasets' =>
                  (py.Return ("unregistered", model_key),
                   {| monitors := monitors'; exporters := exporters';
                      reference_datasets := datasets' |})
              end
          end
      end
  end.

(** The specification's wording of a versioned match: the stored key reads
    [name], then [:], then anything. *)
Definition names (key model_name : string) : Prop :=
  exists rest, key = model_name +:+ ":" +:+ rest.

(** A platform to run the service on in examples: files load as a frame of
    three rows with two features, the engine reports no drift. *)
Definition demo_frame : dataframe :=
  {| df_columns := [("x", "float64"); ("y", "object"); ("target", "int64");
                    ("prediction", "int64")];
     df_len := 3 |}.

Definition demo_engine : model_monitor.Evidently :=
  {| model_monitor.detect_data_drift := fun _ _ _ =>
       py.Return {| model_monitor.dataset_drift := Some false;
                    model_monitor.drift_share := Some 0;
                    model_monitor.drifted_columns := [] |};
     model_monitor.quality_scores := fun _ _ _ =>
       py.Return (Some 0.9%float, Some 0.9%float) |}.

Definition demo_platform : Platform :=
  {| engine := demo_engine;
     read_csv := fun _ => py.Return demo_frame;
     read_parquet := fun _ => py.Return demo_frame;
     DataFrame := fun rows =>
       py.Return {| df_columns := df_columns demo_frame;
                    df_len := length rows |};
     new_exporter := fun n v =>
       py.Return {| exp_model_name := n; exp_model_version := v |};
     update_from_monitoring_results := fun _ _ => py.Return tt;
     update_drift_metrics := fun _ _ => py.Return tt;
     str_exn := fun e =>
       match e with
       | py.HTTPException _ detail => detail
       | py.Error _ msg => msg
       end |}.

Definition demo_register (name version path : string)
  : RegisterModelRequest :=
  {| reg_model_name := name; reg_model_version := version;
     reg_model_type := "classification"; reg_target_column := "target";
     reg_prediction_column := "prediction"; reg_feature_columns := None;
     reference_data_path := path |}.

(** The store after registering versions 1.0 and 2.0 of a model [churn]. *)
Definition demo_state : state :=
  let st1 := snd (@register_model demo_platform initial
                    (demo_register "churn" "1.0" "reference.csv")) in
  snd (@register_model demo_platform st1
         (demo_register "churn" "2.0" "reference.parquet")).

(** A monitoring request that names a model and supplies no data. *)
Definition demo_no_data (name : string) : MonitoringRequest :=
  {| mon_model_name := name; current_data_path := None;
     current_data := None; include_performance := true;
     generate_report := false |}.

Record HealthResponse : Type := {
  hr_status : string;
  hr_timestamp : string;
  registered_models : list string
}.

(** GET /health *)
Definition health_check (st : state) (now : string) : HealthResponse :=
  {| hr_status := "healthy"; hr_timestamp := now;
     registered_models := py.keys (monitors st) |}.

Record ModelInfo : Type := {
  mi_model_key : string;
  mi_model_type : string;
  mi_features_count : nat;
  mi_reference_samples : nat
}.

(** The comprehension of [list_models] over the given keys. *)
Fixpoint model_infos (st : state) (model_keys : list string)
  : py.result (list ModelInfo) :=
  match model_keys with
  | [] => py.Return []
  | key :: model_keys' =>
      monitor ← py.getitem key (monitors st);
      reference ← py.getitem key (reference_datasets st);
      rest ← model_infos st model_keys';
      py.Return
        ({| mi_model_key := key;
            mi_model_type := model_monitor.mm_model_type monitor;
            mi_features_count :=
              length (model_monitor.feature_columns monitor);
            mi_reference_samples := df_len reference |} :: rest)
  end.

(** GET /models *)
Definition list_models (st : state) : py.result (list ModelInfo) :=
  model_infos st (py.keys (monitors st)).

(** A request to one of the endpoints that work on the store. *)
Inductive request : Type :=
  | Register (r : RegisterModelRequest)
  | Run (r : MonitoringRequest) (now stamp : string)
  | Check (r : DriftCheckRequest)
  | History (model_name : string)
  | Unregister (model_name : string).

(** The store after a request has been answered. *)
Definition handle `{Platform} (st : state) (req : request) : state :=
  match req with
  | Register r => snd (register_model st r)
  | Run r now stamp => snd (run_monitoring st r now stamp)
  | Check r => snd (check_drift st r)
  | History model_name => snd (get_monitoring_history st model_name)
  | Unregister model_name => snd (unregister_model st model_name)
  end.

(** The store of a process that has answered the requests, in order. *)
Definition serve `{Platform} (requests : list request) : state :=
  fold_left handle requests initial.

(** The three dicts hold the same keys, each once, each of the form
    [name:version]. *)
Definition in_step (st : state) : Prop :=
  py.keys (exporters st) = py.keys (monitors st)
  /\ py.keys (reference_datasets st) = py.keys (monitors st)
  /\ NoDup (py.keys (monitors st))
  /\ forall key, key ∈ py.keys (monitors st) ->
                 exists name version, key = name +:+ ":" +:+ version.

(** The handler returned a body or raised an [HTTPException]: no other
    exception escapes to the framework. *)
Definition answered {A} (r : py.result A) : Prop :=
  match r with
  | py.Raise (py.Error _ _) => False
  | _ => True
  end.

End monitoring_service.

(** ** gitops/tests/test_gitops_controller_health.py *)

Module gitops_health.

(** The Kubernetes client's records, with the fields the predicate reads.
    [spec] is read without a [None] test: the API server returns every
    deployment with its spec. *)
Record V1DeploymentCondition : Type := {
  cond_type : string;
  cond_status : string;
  cond_reason : option string
}.

Record V1DeploymentStatus : Type := {
  ready_replicas : option Z;
  available_replicas : option Z;
  conditions : option (list V1DeploymentCondition)
}.

Record V1DeploymentSpec : Type := {
  replicas : option Z
}.

Record V1Deployment : Type := {
  spec : V1DeploymentSpec;
  status : option V1DeploymentStatus
}.

(** [x or d] on an [Optional[int]]: [None] and [0] are both falsy. *)
Definition or_int (x : option Z) (d : Z) : Z :=
  match x with
  | Some n => if (n =? 0)%Z then d else n
  | None => d
  end.

(** [f"{condition.reason}"] *)
Definition fmt_reason (r : option string) : string := default "None" r.

(** The [for condition in status.conditions] loop. *)
Fixpoint check_conditions (cs : list V1DeploymentCondition) : bool * string :=
  match cs with
  | [] => (true, "Healthy")
  | condition :: cs' =>
      if String.eqb (cond_type condition) "Available"
         && negb (String.eqb (cond_status condition) "True")
      then (false, "Deployment not available: "
                     +:+ fmt_reason (cond_reason condition))
      else if String.eqb (cond_type condition) "Progressing"
              && negb (String.eqb (cond_status condition) "True")
      then (false, "Deployment not progressing: "
                     +:+ fmt_reason (cond_reason condition))
      else check_conditions cs'
  end.

Definition check_deployment_health (deployment : option V1Deployment)
  : bool * string :=
  match deployment with
  | None => (false, "Deployment not found")
  | Some d =>
      match status d with
      | None => (false, "Deployment status is None")
      | Some st =>
          let desired_replicas := or_int (replicas (spec d)) 1 in
          let ready_replicas0 := or_int (ready_replicas st) 0 in
          let available_replicas0 := or_int (available_replicas st) 0 in
          if (ready_replicas0 <? desired_replicas)%Z then
            (false, "Not all replicas ready: " +:+ py.str_int ready_replicas0
                      +:+ "/" +:+ py.str_int desired_replicas)
          else if (available_replicas0 <? desired_replicas)%Z then
            (false, "Not all replicas available: "
                      +:+ py.str_int available_replicas0
                      +:+ "/" +:+ py.str_int desired_replicas)
          else if py.truthy_list (conditions st) then
            check_conditions (default [] (conditions st))
          else (true, "Healthy")
      end
  end.

(** *** The predicate as the specification words it *)

(** Two readings of the desired replica count: 1 when unset, and 1 when
    unset or zero. *)
Definition desired_if_unset (x : option Z) : Z := default 1%Z x.
Definition desired_if_unset_or_zero (x : option Z) : Z :=
  match x with
  | None | Some 0%Z => 1%Z
  | Some n => n
  end.

Definition watched (c : V1DeploymentCondition) : Prop :=
  cond_type c = "Available" \/ cond_type c = "Progressing".

(** The failure conditions, in the order the specification lists them; a
    failed condition carries its position in the reported list. *)
Inductive violation : Type :=
  | Absent
  | StatusUnreported
  | ReplicasNotReady (ready desired : Z)
  | ReplicasNotAvailable (available desired : Z)
  | ConditionFailed (index : nat) (c : V1DeploymentCondition).

Definition violates (desired : option Z -> Z)
    (deployment : option V1Deployment) (v : violation) : Prop :=
  match v with
  | Absent => deployment = None
  | StatusUnreported => exists d, deployment = Some d /\ status d = None
  | ReplicasNotReady r n =>
      exists d st, deployment = Some d /\ status d = Some st
        /\ r = default 0%Z (ready_replicas st)
        /\ n = desired (replicas (spec d)) /\ (r < n)%Z
  | ReplicasNotAvailable a n =>
      exists d st, deployment = Some d /\ status d = Some st
        /\ a = default 0%Z (available_replicas st)
        /\ n = desired (replicas (spec d)) /\ (a < n)%Z
  | ConditionFailed i c =>
      exists d st, deployment = Some d /\ status d = Some st
        /\ default [] (conditions st) !! i = Some c
        /\ watched c /\ cond_status c <> "True"
  end.

Definition rank (v : violation) : nat :=
  match v with
  | Absent => 0
  | StatusUnreported => 1
  | ReplicasNotReady _ _ => 2
  | ReplicasNotAvailable _ _ => 3
  | ConditionFailed i _ => 4 + i
  end.

Definition reason_text (v : violation) : string :=
  match v with
  | Absent => "Deployment not found"
  | StatusUnreported => "Deployment status is None"
  | ReplicasNotReady r n =>
      "Not all replicas ready: " +:+ py.str_int r +:+ "/" +:+ py.str_int n
  | ReplicasNotAvailable a n =>
      "Not all replicas available: " +:+ py.str_int a
        +:+ "/" +:+ py.str_int n
  | ConditionFailed _ c =>
      (if String.eqb (cond_type c) "Available"
       then "Deployment not available: "
       else "Deployment not progressing: ") +:+ fmt_reason (cond_reason c)
  end.

(** A deployment scaled to zero replicas, none of them ready. *)
Definition scaled_to_zero : V1Deployment :=
  {| spec := {| replicas := Some 0%Z |};
     status := Some {| ready_replicas := None; available_replicas := None;
                       conditions := None |} |}.

(** One replica wanted, ready and available, but not progressing. *)
Definition stalled : V1Deployment :=
  {| spec := {| replicas := None |};
     status := Some {|
       ready_replicas := Some 1%Z; available_replicas := Some 1%Z;
       conditions := Some [
         {| cond_type := "Available"; cond_status := "True";
            cond_reason := Some "MinimumReplicasAvailable" |};
         {| cond_type := "Progressing"; cond_status := "False";
            cond_reason := Some "ProgressDeadlineExceeded" |} ] |} |}.

(** *** The cluster client and the property tests *)

Definition FLUX_NAMESPACE : string := "flux-system".
Definition ARGOCD_NAMESPACE : string := "argocd".

Definition FLUX_CONTROLLERS : list string :=
  ["source-controller"; "kustomize-controller"; "helm-controller";
   "notification-controller"].

Definition ARGOCD_CONTROLLERS : list string :=
  ["argocd-server"; "argocd-repo-server"; "argocd-application-controller";
   "argocd-dex-server"; "argocd-redis"].

(** An answer of the API server: the object, or an [ApiException] with its
    HTTP status. *)
Inductive api_reply (A : Type) : Type :=
  | Found (a : A)
  | ApiException (api_status : nat).
Arguments Found {A} a.
Arguments ApiException {A} api_status.

(** The cluster behind the client: whether the in-cluster and the
    kubeconfig configuration load, and what the API server answers.  A listed
    deployment comes with its [metadata.name]. *)
Class Cluster : Type := {
  load_incluster_config : bool;
  load_kube_config : bool;
  read_namespaced_deployment : string -> string -> api_reply V1Deployment;
  read_namespace : string -> api_reply unit;
  list_namespaced_deployment :
    string -> api_reply (list (string * V1Deployment))
}.

Definition api_error {A} (api_status : nat) : py.result A :=
  py.Raise (py.Error "ApiException" (py.str_int (Z.of_nat api_status))).

(** [KubernetesClientWrapper()] *)
Definition __init__ `{Cluster} : py.result unit :=
  if load_incluster_config then py.Return tt
  else if load_kube_config then py.Return tt
  else py.Raise
         (py.Error "RuntimeError"
            ("Could not configure Kubernetes client. "
             +:+ "Ensure you have a valid kubeconfig or are running in-cluster.")).

Definition get_deployment `{Cluster} (name namespace : string)
  : py.result (option V1Deployment) :=
  match read_namespaced_deployment name namespace with
  | Found d => py.Return (Some d)
  | ApiException s => if (s =? 404)%nat then py.Return None else api_error s
  end.

Definition get_namespace `{Cluster} (name : string)
  : py.result (option unit) :=
  match read_namespace name with
  | Found ns => py.Return (Some ns)
  | ApiException s => if (s =? 404)%nat then py.Return None else api_error s
  end.

Definition list_deployments `{Cluster} (namespace : string)
  : py.result (list (string * V1Deployment)) :=
  match list_namespaced_deployment namespace with
  | Found items => py.Return items
  | ApiException s => if (s =? 404)%nat then py.Return [] else api_error s
  end.

Definition check_namespace_exists `{Cluster} (namespace : string)
  : py.result bool :=
  ns ← get_namespace namespace;
  py.Return (bool_decide (is_Some ns)).

(** An entry of [unhealthy_controllers]. *)
Record unhealthy : Type := {
  u_name : string;
  u_reason : string;
  u_ready_replicas : Z;
  u_desired_replicas : Z
}.

(** How a test ends: it passes, an [assert] fails (with what its message
    reports), or an exception escapes. *)
Inductive test_outcome : Type :=
  | Passed
  | NamespaceMissing (namespace : string)
  | MissingControllers (namespace : string) (missing : list string)
  | UnhealthyControllers (namespace : string) (found : list unhealthy)
  | NoDeployments (namespace : string)
  | ReplicaMismatch (name : string) (ready desired : Z)
  | TooFewReplicas (name : string) (ready min_replicas : Z)
  | TestError (e : py.exn).

(** [deployment.status.ready_replicas]: an [AttributeError] when the status
    is [None]. *)
Definition status_ready_replicas (d : V1Deployment) : py.result (option Z) :=
  match status d with
  | Some st => py.Return (ready_replicas st)
  | None => py.Raise (py.Error "AttributeError"
                        "'NoneType' object has no attribute 'ready_replicas'")
  end.

(** The loop of [test_gitops_controller_health_property] over the expected
    controllers, on the pair (unhealthy_controllers, missing_controllers). *)
Fixpoint check_controllers `{Cluster} (namespace : string)
    (expected_controllers : list string)
    (unhealthy_controllers : list unhealthy)
    (missing_controllers : list string)
  : py.result (list unhealthy * list string) :=
  match expected_controllers with
  | [] => py.Return (unhealthy_controllers, missing_controllers)
  | controller_name :: rest =>
      deployment ← get_deployment controller_name namespace;
      match deployment with
      | None =>
          check_controllers namespace rest unhealthy_controllers
            (missing_controllers ++ [controller_name])
      | Some d =>
          let '(is_healthy, reason) := check_deployment_health (Some d) in
          if is_healthy
          then check_controllers namespace rest unhealthy_controllers
                 missing_controllers
          else
            ready ← status_ready_replicas d;
            check_controllers namespace rest
              (unhealthy_controllers
               ++ [{| u_name := controller_name; u_reason := reason;
                      u_ready_replicas := or_int ready 0;
                      u_desired_replicas := or_int (replicas (spec d)) 1 |}])
              missing_controllers
      end
  end.

Definition expected_controllers_of (namespace : string) : list string :=
  if String.eqb namespace FLUX_NAMESPACE then FLUX_CONTROLLERS
  else ARGOCD_CONTROLLERS.

Definition outcome_of (r : py.result test_outcome) : test_outcome :=
  match r with
  | py.Return o => o
  | py.Raise e => TestError e
  end.

(** [test_gitops_controller_health_property] for a drawn configuration
    whose namespace is [namespace]. *)
Definition test_gitops_controller_health_property `{Cluster}
    (namespace : string) : test_outcome :=
  outcome_of
    (_ ← __init__;
     present ← check_namespace_exists namespace;
     if negb present then py.Return (NamespaceMissing namespace)
     else
       lists ← check_controllers namespace
                 (expected_controllers_of namespace) [] [];
       let '(unhealthy_controllers, missing_controllers) := lists in
       match missing_controllers, unhealthy_controllers with
       | _ :: _, _ =>
           py.Return (MissingControllers namespace missing_controllers)
       | [], _ :: _ =>
           py.Return (UnhealthyControllers namespace unhealthy_controllers)
       | [], [] => py.Return Passed
       end).

(** The loop of [test_controller_replica_consistency] over the listed
    deployments. *)
Fixpoint check_replicas (deployments : list (string * V1Deployment))
    (min_replicas : Z) : py.result test_outcome :=
  match deployments with
  | [] => py.Return Passed
  | (name, d) :: rest =>
      ready ← status_ready_replicas d;
      let ready_replicas0 := or_int ready 0 in
      let desired_replicas := or_int (replicas (spec d)) 1 in
      if negb (ready_replicas0 =? desired_replicas)%Z
      then py.Return (ReplicaMismatch name ready_replicas0 desired_replicas)
      else if (1 <? min_replicas)%Z
              && negb (min_replicas <=? ready_replicas0)%Z
      then py.Return (TooFewReplicas name ready_replicas0 min_replicas)
      else check_replicas rest min_replicas
  end.

(** [test_controller_replica_consistency] for one drawn pair. *)
Definition test_controller_replica_consistency `{Cluster}
    (namespace : string) (min_replicas : Z) : test_outcome :=
  outcome_of
    (_ ← __init__;
     deployments ← list_deployments namespace;
     match deployments with
     | [] => py.Return (NoDeployments namespace)
     | _ :: _ => check_replicas deployments min_replicas
     end).

(** The values hypothesis draws [min_replicas] from. *)
Definition drawn_min_replicas : list Z := [1; 2; 3]%Z.

(** The API server answered 404. *)
Definition is_404 {A} (r : api_reply A) : bool :=
  match r with
  | ApiException s => (s =? 404)%nat
  | Found _ => false
  end.

(** The controller was found and judged healthy. *)
Definition found_healthy `{Cluster} (namespace name : string) : Prop :=
  exists d, read_namespaced_deployment name namespace = Found d
            /\ fst (check_deployment_health (Some d)) = true.

(** A cluster for examples: Flux is installed with one healthy replica per
    controller. *)
Definition one_replica : V1Deployment :=
  {| spec := {| replicas := Some 1%Z |};
     status := Some {| ready_replicas := Some 1%Z;
                       available_replicas := Some 1%Z;
                       conditions := None |} |}.

Definition demo_cluster : Cluster :=
  {| load_incluster_config := false;
     load_kube_config := true;
     read_namespaced_deployment := fun name namespace =>
       if String.eqb namespace FLUX_NAMESPACE
          && bool_decide (name ∈ FLUX_CONTROLLERS)
       then Found one_replica else ApiException 404;
     read_namespace := fun name =>
       if String.eqb name FLUX_NAMESPACE then Found tt
       else ApiException 404;
     list_namespaced_deployment := fun namespace =>
       if String.eqb namespace FLUX_NAMESPACE
       then Found (map (fun name => (name, one_replica)) FLUX_CONTROLLERS)
       else ApiException 404 |}.

End gitops_health.

(** ** utils/config_manager.py *)

Module config_manager.

(** A YAML value: a configuration dict is a [gmap] from keys to values. *)
Inductive value : Type :=
  | VNone
  | VBool (b : bool)
  | VInt (n : Z)
  | VFloat (q : Q)
  | VStr (s : string)
  | VList (l : list value)
  | VDict (d : gmap string value).

Record DataConfig : Type := {
  source : string;
  format : string;
  target_column : string;
  test_size : Q;
  validation_size : Q;
  s3_bucket : option string;
  s3_prefix : option string
}.

Record ModelConfig : Type := {
  type : string;
  algorithm : string;
  hyperparameters : gmap string value
}.

Record PreprocessingConfig : Type := {
  numeric_strategy : string;
  categorical_strategy : string;
  handle_outliers : bool;
  feature_selection_enabled : bool;
  feature_selection_method : string;
  feature_selection_k : Z
}.

Record MLflowConfig : Type := {
  tracking_uri : option string;
  experiment_name : string;
  run_name_prefix : string;
  artifact_location : option string;
  registry_uri : option string
}.

Record ValidationConfig : Type := {
  enabled : bool;
  create_suite : bool;
  suite_name : option string;
  fail_on_validation_error : bool
}.

Record InferenceConfig : Type := {
  batch_size : Z;
  confidence_threshold : Q;
  return_probabilities : bool;
  monitoring_enabled : bool
}.

Record MLOpsConfig : Type := {
  environment : string;
  aws_region : string;
  data : DataConfig;
  model : ModelConfig;
  preprocessing : PreprocessingConfig;
  mlflow : MLflowConfig;
  validation : ValidationConfig;
  inference : InferenceConfig
}.

(** The dataclasses' defaults: [MLOpsConfig()]. *)
Definition default_config : MLOpsConfig :=
  {| environment := "dev";
     aws_region := "us-west-2";
     data := {| source := "local"; format := "csv";
                target_column := "target"; test_size := 2 # 10;
                validation_size := 1 # 10; s3_bucket := None;
                s3_prefix := None |};
     model := {| type := "classification"; algorithm := "random_forest";
                 hyperparameters :=
                   {[ "n_estimators" := VInt 100; "max_depth" := VInt 10;
                      "random_state" := VInt 42 ]} |};
     preprocessing := {| numeric_strategy := "standard";
                         categorical_strategy := "onehot";
                         handle_outliers := true;
                         feature_selection_enabled := true;
                         feature_selection_method := "k_best";
                         feature_selection_k := 10 |};
     mlflow := {| tracking_uri := None;
                  experiment_name := "default_experiment";
                  run_name_prefix := "run"; artifact_location := None;
                  registry_uri := None |};
     validation := {| enabled := true; create_suite := true;
                      suite_name := None;
                      fail_on_validation_error := false |};
     inference := {| batch_size := 1000; confidence_threshold := 8 # 10;
                     return_probabilities := true;
                     monitoring_enabled := true |} |}.

Definition with_model_type (config : MLOpsConfig) (t : string) : MLOpsConfig :=
  {| environment := environment config; aws_region := aws_region config;
     data := data config;
     model := {| type := t; algorithm := algorithm (model config);
                 hyperparameters := hyperparameters (model config) |};
     preprocessing := preprocessing config; mlflow := mlflow config;
     validation := validation config; inference := inference config |}.

(** The entries of [errors]; each is logged as one message. *)
Inductive config_error : Type :=
  | InvalidModelType (t : string)
  | InvalidAlgorithm (a : string)
  | InvalidDataFormat (f : string)
  | InvalidTestSize (x : Q)
  | InvalidValidationSize (x : Q)
  | InvalidNumericStrategy (s : string)
  | InvalidCategoricalStrategy (s : string).

Definition valid_algorithms : list string :=
  ["random_forest"; "xgboost"; "linear_regression"; "logistic_regression"].

(** [x in l] for strings. *)
Definition str_in (x : string) (l : list string) : bool :=
  existsb (String.eqb x) l.

(** The list [errors] at the end of [validate_config]. *)
Definition validation_errors (config : MLOpsConfig) : list config_error :=
  (if str_in (type (model config)) ["classification"; "regression"]
   then [] else [InvalidModelType (type (model config))])
  ++ (if str_in (algorithm (model config)) valid_algorithms
      then [] else [InvalidAlgorithm (algorithm (model config))])
  ++ (if str_in (format (data config)) ["csv"; "parquet"; "json"]
      then [] else [InvalidDataFormat (format (data config))])
  ++ (if py.lt 0 (test_size (data config))
         && py.lt (test_size (data config)) 1
      then [] else [InvalidTestSize (test_size (data config))])
  ++ (if py.lt 0 (validation_size (data config))
         && py.lt (validation_size (data config)) 1
      then [] else [InvalidValidationSize (validation_size (data config))])
  ++ (if str_in (numeric_strategy (preprocessing config))
           ["standard"; "minmax"; "robust"]
      then []
      else [InvalidNumericStrategy (numeric_strategy (preprocessing config))])
  ++ (if str_in (categorical_strategy (preprocessing config))
           ["onehot"; "ordinal"; "label"]
      then []
      else [InvalidCategoricalStrategy
              (categorical_strategy (preprocessing config))]).

Definition validate_config (config : MLOpsConfig) : bool :=
  match validation_errors config with
  | [] => true
  | _ :: _ => false
  end.

(** [_deep_merge]: [result] starts as a copy of [base]; the loop goes over
    the items of [override] (keys are unique, so the order does not matter)
    and recurses where both sides hold a dict. *)
Fixpoint merge_value (base override : value) {struct override} : value :=
  match base, override with
  | VDict b, VDict o =>
      VDict (map_fold
               (fun key v result =>
                  match result !! key, v with
                  | Some (VDict rb), VDict _ =>
                      <[key := merge_value (VDict rb) v]> result
                  | _, _ => <[key := v]> result
                  end) b o)
  | _, _ => override
  end.

Definition _deep_merge (base override : gmap string value)
  : gmap string value :=
  map_fold
    (fun key v result =>
       match result !! key, v with
       | Some (VDict rb), VDict _ => <[key := merge_value (VDict rb) v]> result
       | _, _ => <[key := v]> result
       end) base override.

(** The value the merged dict holds at a key that [override] sets to [v],
    given what [base] holds there. *)
Definition merged_at (b : option value) (v : value) : value :=
  match b, v with
  | Some (VDict rb), VDict ov => VDict (_deep_merge rb ov)
  | _, _ => v
  end.

(** [isinstance(v, dict)] *)
Definition is_dict (v : value) : bool :=
  match v with
  | VDict _ => true
  | _ => false
  end.

(** A base file and an environment override, for examples. *)
Definition demo_base : gmap string value :=
  {[ "environment" := VStr "dev";
     "data" := VDict {[ "format" := VStr "csv"; "test_size" := VFloat (2 # 10) ]};
     "model" := VStr "placeholder" ]}.

Definition demo_override : gmap string value :=
  {[ "aws_region" := VStr "eu-west-1";
     "data" := VDict {[ "format" := VStr "parquet" ]};
     "model" := VDict {[ "type" := VStr "regression" ]} ]}.

(** [v is None] *)
Definition is_none (v : value) : bool :=
  match v with
  | VNone => true
  | _ => false
  end.

(** [_remove_none_values]: the comprehension keeps the items whose value is
    not [None] and recurses into each kept value. *)
Fixpoint _remove_none_values (d : value) : value :=
  match d with
  | VDict m =>
      VDict (map_fold
               (fun k v result =>
                  if is_none v then result
                  else <[k := _remove_none_values v]> result) ∅ m)
  | _ => d
  end.

(** [_remove_none_values] on a dict, as a dict. *)
Definition remove_none_items (m : gmap string value) : gmap string value :=
  map_fold
    (fun k v result =>
       if is_none v then result else <[k := _remove_none_values v]> result)
    ∅ m.

(** What the manager reads from outside: environment variables, and YAML
    files by path ([None] when the path does not exist; opening or parsing
    may raise; an empty document loads as [None]). *)
Class Environment : Type := {
  getenv : string -> option string;
  yaml_file :
    string -> option (py.result (option (gmap string value)))
}.

Record ConfigManager : Type := {
  config_dir : string;
  cm_environment : string
}.

(** [environment or os.getenv("MLOPS_ENV", "dev")] *)
Definition __init__ `{Environment} (config_dir0 : string)
    (environment0 : option string) : ConfigManager :=
  {| config_dir := config_dir0;
     cm_environment :=
       if py.truthy_str environment0 then default "" environment0
       else default "dev" (getenv "MLOPS_ENV") |}.

(** [self.config_dir / filename] *)
Definition path_of (self : ConfigManager) (filename : string) : string :=
  config_dir self +:+ "/" +:+ filename.

Definition _load_config_file `{Environment} (self : ConfigManager)
    (filename : string) : gmap string value :=
  match yaml_file (path_of self filename) with
  | None => ∅
  | Some (py.Return loaded) => default ∅ loaded
  | Some (py.Raise _) => ∅
  end.

(** [os.getenv(name)] as a YAML value. *)
Definition env_value `{Environment} (name : string) : value :=
  match getenv name with
  | Some s => VStr s
  | None => VNone
  end.

Definition env_secrets `{Environment} : gmap string value :=
  {[ "mlflow" :=
       VDict {[ "tracking_uri" := env_value "MLFLOW_TRACKING_URI";
                "registry_uri" := env_value "MLFLOW_REGISTRY_URI" ]};
     "data" :=
       VDict {[ "s3_bucket" := env_value "S3_BUCKET";
                "s3_prefix" := env_value "S3_PREFIX" ]};
     "aws_region" := env_value "AWS_REGION" ]}.

(** What the secrets file contributes: nothing when it is missing or cannot
    be read. *)
Definition file_secrets `{Environment} (self : ConfigManager)
  : gmap string value :=
  match yaml_file
          (path_of self ("secrets." +:+ cm_environment self +:+ ".yaml")) with
  | Some (py.Return loaded) => default ∅ loaded
  | _ => ∅
  end.

Definition _load_secrets `{Environment} (self : ConfigManager)
  : gmap string value :=
  let secrets := remove_none_items env_secrets in
  match yaml_file
          (path_of self ("secrets." +:+ cm_environment self +:+ ".yaml")) with
  | Some (py.Return loaded) => _deep_merge secrets (default ∅ loaded)
  | Some (py.Raise _) => secrets
  | None => secrets
  end.

(** The dict [merged_config] that [load_config] hands to
    [_dict_to_config]. *)
Definition merged_config `{Environment} (self : ConfigManager)
    (config_name : string) : gmap string value :=
  let base_config := _load_config_file self (config_name +:+ ".yaml") in
  let env_name :=
    config_name +:+ "." +:+ cm_environment self +:+ ".yaml" in
  let env_config :=
    match yaml_file (path_of self env_name) with
    | Some _ => _load_config_file self env_name
    | None => ∅
    end in
  let merged := _deep_merge base_config env_config in
  let secrets := _load_secrets self in
  if bool_decide (secrets = ∅) then merged else _deep_merge merged secrets.

(** An environment for examples: a base file, a [prod] override, no secrets
    file, and the region and the tracking URI set in the process
    environment. *)
Definition demo_environment : Environment :=
  {| getenv := fun name =>
       if String.eqb name "AWS_REGION" then Some "eu-central-1"
       else if String.eqb name "MLFLOW_TRACKING_URI"
       then Some "http://mlflow:5000"
       else if String.eqb name "MLOPS_ENV" then Some "prod"
       else None;
     yaml_file := fun path =>
       if String.eqb path "config/config.yaml"
       then Some (py.Return
                    (Some {[ "aws_region" := VStr "us-west-2";
                             "mlflow" := VStr "unset" ]}))
       else if String.eqb path "config/config.prod.yaml"
       then Some (py.Return (Some {[ "aws_region" := VStr "us-east-1" ]}))
       else None |}.

End config_manager.

(** ** utils/monitoring.py: the lightweight baseline monitor *)

Module utils_monitoring.

(** What pandas and numpy compute for the monitor: the per-column mean and
    standard deviation of a frame of numeric columns (a Series of floats, in
    column order, a label as often as columns bear it; the deviation of a
    one-row frame is NaN), and the mean, standard deviation and ten-bin
    histogram of a prediction array. *)
Class Numeric : Type := {
  frame : Type;
  mean : frame -> list (string * float);
  std : frame -> list (string * float);
  np_mean : list Q -> Q;
  np_std : list Q -> Q;
  np_histogram : list Q -> list Z
}.

(** [series.to_dict()]: of the entries under one label, the last stays. *)
Definition to_dict (series : list (string * float)) : gmap string float :=
  list_to_map (reverse series).

(** [series[label]] as [float(...)] takes it: the number of the one entry
    that bears the label; where several do, the selection is a Series again
    and so is all that is computed from it, which [float] refuses. *)
Definition item (series : list (string * float)) (label : string)
  : py.result float :=
  match filter (fun p => fst p = label) series with
  | [] => py.Raise (py.Error "KeyError" label)
  | [(_, x)] => py.Return x
  | _ :: _ :: _ =>
      py.Raise (py.Error "TypeError"
                  "cannot convert the series to <class 'float'>")
  end.

Record baseline : Type := {
  feature_means : gmap string float;
  feature_stds : gmap string float;
  prediction_mean : Q;
  prediction_std : Q;
  prediction_distribution : list Z;
  baseline_timestamp : string
}.

Record prediction_record : Type := {
  timestamp : string;
  num_samples : nat;
  rec_prediction_mean : Q;
  rec_prediction_std : Q;
  latency_ms : Q;
  rec_feature_means : gmap string float
}.

Record ModelMonitor : Type := {
  model_name : string;
  baseline_stats : option baseline;
  prediction_history : list prediction_record;
  drift_threshold : float
}.

Definition __init__ (model_name0 : string) : ModelMonitor :=
  {| model_name := model_name0;
     baseline_stats := None;
     prediction_history := [];
     drift_threshold := 0.1%float |}.

Definition set_baseline `{Numeric} (self : ModelMonitor) (now : string)
    (data : frame) (predictions : list Q) : ModelMonitor :=
  {| model_name := model_name self;
     baseline_stats := Some {|
       feature_means := to_dict (mean data);
       feature_stds := to_dict (std data);
       prediction_mean := np_mean predictions;
       prediction_std := np_std predictions;
       prediction_distribution := np_histogram predictions;
       baseline_timestamp := now |};
     prediction_history := prediction_history self;
     drift_threshold := drift_threshold self |}.

Definition with_history (self : ModelMonitor)
    (history : list prediction_record) : ModelMonitor :=
  {| model_name := model_name self;
     baseline_stats := baseline_stats self;
     prediction_history := history;
     drift_threshold := drift_threshold self |}.

(** The [record] dict built by [log_prediction]. *)
Definition make_record `{Numeric} (now : string) (input_data : frame)
    (predictions : list Q) (latency : Q) : prediction_record :=
  {| timestamp := now;
     num_samples := length predictions;
     rec_prediction_mean := np_mean predictions;
     rec_prediction_std := np_std predictions;
     latency_ms := latency;
     rec_feature_means := to_dict (mean input_data) |}.

(** The append and the trim of [log_prediction]. *)
Definition append_capped (history : list prediction_record)
    (record : prediction_record) : list prediction_record :=
  let history := history ++ [record] in
  if (1000 <? length history)%nat then py.last_n 1000 history else history.

Definition log_prediction `{Numeric} (self : ModelMonitor) (now : string)
    (input_data : frame) (predictions : list Q) (latency : Q)
  : ModelMonitor :=
  with_history self
    (append_capped (prediction_history self)
       (make_record now input_data predictions latency)).

Definition reset_history (self : ModelMonitor) : ModelMonitor :=
  with_history self [].

(** The dict returned by [detect_drift]; the keys [message],
    [drifted_features] and [drift_scores] are present in one of its two
    shapes only. *)
Record drift_report : Type := {
  drift_detected : bool;
  message : option string;
  drifted_features : option (list string);
  drift_scores : option (gmap string float)
}.

(** The divisor of the normalized score for a feature:
    [baseline_std == 0] is the comparison of floats, true of both zeros and
    false of NaN. *)
Definition divisor (b : baseline) (feature : string) : float :=
  let baseline_std := default 1%float (feature_stds b !! feature) in
  if py.feq baseline_std 0 then 1%float else baseline_std.

(** [abs(current_mean - baseline_mean) / baseline_std], in binary64. *)
Definition score (b : baseline) (feature : string) (current_mean : float)
    (baseline_mean : float) : float :=
  PrimFloat.div (PrimFloat.abs (PrimFloat.sub current_mean baseline_mean))
    (divisor b feature).

(** One turn of the [for feature in current_means.index] loop, on the
    triple (drift_detected, drifted_features, drift_scores). *)
Definition drift_step (b : baseline) (threshold : float)
    (current_means : list (string * float))
    (acc : bool * list string * gmap string float) (feature : string)
  : py.result (bool * list string * gmap string float) :=
  let '(detected, features, scores) := acc in
  match feature_means b !! feature with
  | Some baseline_mean =>
      current_mean ← item current_means feature;
      let drift_score := score b feature current_mean baseline_mean in
      let scores := <[feature := drift_score]> scores in
      if py.fgt drift_score threshold
      then py.Return (true, features ++ [feature], scores)
      else py.Return (detected, features, scores)
  | None => py.Return acc
  end.

(** The loop over the labels of [current_means.index]. *)
Fixpoint drift_loop (b : baseline) (threshold : float)
    (current_means : list (string * float)) (index : list string)
    (acc : bool * list string * gmap string float)
  : py.result (bool * list string * gmap string float) :=
  match index with
  | [] => py.Return acc
  | feature :: index' =>
      acc' ← drift_step b threshold current_means acc feature;
      drift_loop b threshold current_means index' acc'
  end.

Definition detect_drift `{Numeric} (self : ModelMonitor)
    (current_data : frame) : py.result drift_report :=
  match baseline_stats self with
  | None =>
      py.Return
        {| drift_detected := false; message := Some "No baseline set";
           drifted_features := None; drift_scores := None |}
  | Some b =>
      let current_means := mean current_data in
      out ← drift_loop b (drift_threshold self) current_means
               (map fst current_means) (false, [], ∅);
      let '(detected, features, scores) := out in
      py.Return
        {| drift_detected := detected; message := None;
           drifted_features := Some features; drift_scores := Some scores |}
  end.

(** The state-changing calls a client makes on a monitor. *)
Inductive call `{Numeric} : Type :=
  | SetBaseline (now : string) (data : frame) (predictions : list Q)
  | LogPrediction (now : string) (input_data : frame)
      (predictions : list Q) (latency : Q)
  | ResetHistory.

Definition apply_call `{Numeric} (self : ModelMonitor) (c : call)
  : ModelMonitor :=
  match c with
  | SetBaseline now data predictions => set_baseline self now data predictions
  | LogPrediction now input_data predictions latency =>
      log_prediction self now input_data predictions latency
  | ResetHistory => reset_history self
  end.

Definition after_calls `{Numeric} (model_name0 : string) (calls : list call)
  : ModelMonitor :=
  fold_left apply_call calls (__init__ model_name0).

(** A client logging one prediction batch per entry of [logs], and the
    records these calls build. *)
Definition logged `{Numeric} (self : ModelMonitor)
    (logs : list (string * frame * list Q * Q)) : ModelMonitor :=
  fold_left
    (fun m '(now, input_data, predictions, latency) =>
       log_prediction m now input_data predictions latency) logs self.

Definition records `{Numeric} (logs : list (string * frame * list Q * Q))
  : list prediction_record :=
  map (fun '(now, input_data, predictions, latency) =>
         make_record now input_data predictions latency) logs.

(** The score under the specification's wording, the baseline deviation
    floored to 1.0. *)
Definition floored_score (b : baseline) (feature : string)
    (current_mean baseline_mean : float) : float :=
  let baseline_std := default 1%float (feature_stds b !! feature) in
  PrimFloat.div (PrimFloat.abs (PrimFloat.sub current_mean baseline_mean))
    (if py.flt baseline_std 1 then 1%float else baseline_std).

(** A numeric backend for examples: a frame is its own series of column
    means, every deviation is one half, and the prediction mean is the
    rational mean. *)
Definition demo_numeric : Numeric :=
  {| frame := list (string * float);
     mean := fun f => f;
     std := fun f => map (fun p => (fst p, 0.5%float)) f;
     np_mean := fun l =>
       fold_right Qplus 0 l / inject_Z (Z.of_nat (length l));
     np_std := fun _ => 0;
     np_histogram := fun _ => [] |}.

(** An entry of the current means is flagged when the baseline knows the
    feature and the score exceeds the threshold. *)
Definition flagged (b : baseline) (threshold : float)
    (entry : string * float) : Prop :=
  exists baseline_mean,
    feature_means b !! entry.1 = Some baseline_mean
    /\ py.fgt (score b entry.1 entry.2 baseline_mean) threshold = true.

(** A monitor with a baseline over the features [x] and [y], and a current
    frame over [x] and an unknown [z]. *)
Definition demo_monitor : ModelMonitor :=
  @after_calls demo_numeric "demo"
    [@SetBaseline demo_numeric "t0" [("x", 0%float); ("y", 5%float)]
       [1; 2]].

Definition demo_baseline : baseline :=
  {| feature_means := {[ "x" := 0%float; "y" := 5%float ]};
     feature_stds := {[ "x" := 0.5%float; "y" := 0.5%float ]};
     prediction_mean := (0 + (1 + (2 + 0))) / inject_Z 2;
     prediction_std := 0;
     prediction_distribution := [];
     baseline_timestamp := "t0" |}.

Definition demo_current : list (string * float) :=
  [("x", 0.08%float); ("z", 3%float)].

(** What numpy computes over the latencies for [get_performance_stats]. *)
Class Latencies : Type := {
  np_percentile : list Q -> Z -> Q;
  np_max : list Q -> Q;
  np_min : list Q -> Q
}.

(** The dict returned by [get_performance_stats], in its two shapes. *)
Inductive performance_stats : Type :=
  | NoHistory (message0 : string)
  | Stats (total_predictions total_requests : nat)
      (avg_latency_ms p50_latency_ms p95_latency_ms p99_latency_ms
         max_latency_ms min_latency_ms : Q).

Definition get_performance_stats `{Numeric} `{Latencies}
    (self : ModelMonitor) : performance_stats :=
  match prediction_history self with
  | [] => NoHistory "No prediction history available"
  | _ :: _ =>
      let latencies := map latency_ms (prediction_history self) in
      let total_samples := list_sum (map num_samples (prediction_history self)) in
      Stats total_samples (length (prediction_history self))
        (np_mean latencies) (np_percentile latencies 50)
        (np_percentile latencies 95) (np_percentile latencies 99)
        (np_max latencies) (np_min latencies)
  end.

(** The dict keys [total_predictions] and [total_requests], when present. *)
Definition totals (s : performance_stats) : option (nat * nat) :=
  match s with
  | NoHistory _ => None
  | Stats total_predictions total_requests _ _ _ _ _ _ =>
      Some (total_predictions, total_requests)
  end.

Definition demo_latencies : Latencies :=
  {| np_percentile := fun l _ => hd 0 l;
     np_max := fun l => fold_right Qmax 0 l;
     np_min := fun l => fold_right Qmin 0 l |}.

End utils_monitoring.

(** ** pipelines/training_pipeline.py *)

Module training_pipeline.

(** The keys of the configuration that [split_data] reads; the fractions
    are floats. *)
Record data_config : Type := {
  test_size : option float;
  validation_size : option float
}.

Record pipeline_config : Type := {
  data : data_config;
  model_type : string
}.

(** scikit-learn's choice of rows for a split: the order in which the
    samples are dealt out, a shuffle of the input drawn with
    [random_state=42], class by class when stratifying; the first [n_test]
    of it form the test part.  A stratified draw may be refused (a class
    with a single member, fewer test rows than classes); a plain one never
    is. *)
Class Shuffle (row : Type) : Type := {
  order : bool -> nat -> list row -> option (list row);
  order_perm : forall stratify n_test rows dealt,
    order stratify n_test rows = Some dealt -> Permutation dealt rows;
  order_plain : forall n_test rows, is_Some (order false n_test rows)
}.

(** [ceil(test_size * n_samples)]: the product is a binary64 product. *)
Definition n_test_of (test_size : float) (n_samples : nat) : py.result Z :=
  py.ceil (PrimFloat.mul test_size (py.float_of_nat n_samples)).

(** [sklearn.model_selection.train_test_split(X, y, test_size=...,
    random_state=42, stratify=...)] on the rows of [X] paired with [y]:
    a float [test_size] with [test_size <= 0 or test_size >= 1] and an empty
    train part are [ValueError]s; the test part has
    [ceil(test_size * n)] rows, the train part the others.  Returns
    (train, test). *)
Definition train_test_split {row} `{Shuffle row} (rows : list row)
    (test_size : float) (stratify : bool) : py.result (list row * list row) :=
  if py.fle test_size 0 || py.fge test_size 1 then
    py.Raise (py.Error "ValueError" "test_size out of range")
  else
    n_test ← n_test_of test_size (length rows);
    let n_train := (Z.of_nat (length rows) - n_test)%Z in
    if (n_train =? 0)%Z then
      py.Raise (py.Error "ValueError" "the resulting train set will be empty")
    else
      match order stratify (Z.to_nat n_test) rows with
      | None => py.Raise (py.Error "ValueError" "stratified split refused")
      | Some dealt =>
          py.Return (skipn (Z.to_nat n_test) dealt,
                     firstn (Z.to_nat n_test) dealt)
      end.

(** [val_size / (1 - test_size)], in binary64. *)
Definition val_size_adjusted (val_size test_size : float) : py.result float :=
  py.fdiv val_size (PrimFloat.sub 1 test_size).

(** [split_data]: returns (train, val, test). *)
Definition split_data {row} `{Shuffle row} (config : pipeline_config)
    (rows : list row) : py.result (list row * list row * list row) :=
  let test_size0 := default 0.2%float (test_size (data config)) in
  let val_size := default 0.1%float (validation_size (data config)) in
  let stratify := String.eqb (model_type config) "classification" in
  first ← train_test_split rows test_size0 stratify;
  adjusted ← val_size_adjusted val_size test_size0;
  second ← train_test_split (fst first) adjusted stratify;
  py.Return (fst second, snd second, snd first).

(** The checks of [train_test_split] that do not depend on the shuffle: the
    fraction is inside (0, 1), the ceiling exists, and rows are left to
    train on. *)
Definition accepts (test_size : float) (n_samples : nat) : bool :=
  negb (py.fle test_size 0 || py.fge test_size 1)
  && match n_test_of test_size n_samples with
     | py.Return n_test => negb (Z.of_nat n_samples - n_test =? 0)%Z
     | py.Raise _ => false
     end.

(** The number of test rows a split of [n_samples] rows takes. *)
Definition taken (test_size : float) (n_samples : nat) : nat :=
  match n_test_of test_size n_samples with
  | py.Return n_test => Nat.min (Z.to_nat n_test) n_samples
  | py.Raise _ => 0
  end.

(** A shuffle that deals the rows in their given order, for examples. *)
Definition in_order (row : Type) : Shuffle row :=
  {| order := fun _ _ rows => Some rows;
     order_perm := fun _ _ rows dealt (E : Some rows = Some dealt) =>
       match E in _ = o return
             match o with Some d => Permutation d rows | None => True end
       with eq_refl => Permutation_refl rows end;
     order_plain := fun _ rows => ex_intro _ rows eq_refl |}.

Definition regression_config (t v : float) : pipeline_config :=
  {| data := {| test_size := Some t; validation_size := Some v |};
     model_type := "regression" |}.

End training_pipeline.

(** ** pipelines/inference_pipeline.py *)

Module inference_pipeline.

(** The dict [self.inference_stats]. *)
Record inference_stats : Type := {
  total_predictions : Z;
  total_inference_time : Q;
  error_count : Z
}.


(** The statistics set by [__init__] and by [reset_stats]. *)
Definition zero_stats : inference_stats :=
  {| total_predictions := 0; total_inference_time := 0; error_count := 0 |}.

(** What a call does to the counters.  [predict] adds [len(predictions)]
    and the elapsed time when it succeeds, counts one error when its [try]
    block raises, and changes nothing when no model is loaded. *)
Inductive event : Type :=
  | PredictReturned (num_predictions : nat) (inference_time : Q)
  | PredictRaised
  | PredictNoModel
  | ResetStats.

Definition step (stats : inference_stats) (e : event) : inference_stats :=
  match e with
  | PredictReturned n dt =>
      {| total_predictions := total_predictions stats + Z.of_nat n;
         total_inference_time := total_inference_time stats + dt;
         error_count := error_count stats |}
  | PredictRaised =>
      {| total_predictions := total_predictions stats;
         total_inference_time := total_inference_time stats;
         error_count := error_count stats + 1 |}
  | PredictNoModel => stats
  | ResetStats => zero_stats
  end.

Definition after (events : list event) : inference_stats :=
  fold_left step events zero_stats.


(** The objects behind the pipeline that come from scikit-learn and pandas:
    rows of a frame, feature arrays, a fitted model (with [predict_proba]
    only when the estimator has it), a fitted feature pipeline with its
    optional selector, the readers of batch files, the copy of the data
    with the prediction and probability columns added (which fails when a
    column does not fit the frame), and the writers.  Every call may
    raise. *)
Class Runtime : Type := {
  row : Type;
  array : Type;
  table : Type;
  values : list row -> array;
  load_csv : string -> py.result (list row);
  load_parquet : string -> py.result (list row);
  with_predictions :
    list row -> list Z -> list (list Q) -> py.result table;
  to_csv : string -> table -> py.result unit;
  to_parquet : string -> table -> py.result unit
}.

Record Estimator `{Runtime} : Type := {
  m_predict : array -> py.result (list Z);
  m_predict_proba : option (array -> py.result (list (list Q)))
}.

Record FeatureEngineer `{Runtime} : Type := {
  transform : list row -> py.result array;
  feature_selector : option (array -> py.result array)
}.

Record InferencePipeline `{Runtime} : Type := {
  model : option Estimator;
  feature_engineer : option FeatureEngineer;
  model_metadata : list (string * string);
  stats : inference_stats
}.

Definition with_stats `{Runtime} (self : InferencePipeline)
    (stats0 : inference_stats) : InferencePipeline :=
  {| model := model self; feature_engineer := feature_engineer self;
     model_metadata := model_metadata self; stats := stats0 |}.

Definition preprocess_data `{Runtime} (self : InferencePipeline)
    (data : list row) : py.result array :=
  match feature_engineer self with
  | None => py.Return (values data)
  | Some engineer =>
      X_transformed ← transform engineer data;
      match feature_selector engineer with
      | Some select => select X_transformed
      | None => py.Return X_transformed
      end
  end.

(** The keys that [predict] adds for a confidence threshold. *)
Record confidence : Type := {
  confident_predictions : list Z;
  confidence_flags : list bool;
  confident_count : nat
}.

(** The keys that [predict] adds when probabilities are returned. *)
Record probability_part : Type := {
  probabilities : list (list Q);
  max_probability : list Q;
  confident : option confidence
}.

(** The dict returned by [predict]. *)
Record prediction_result : Type := {
  predictions : list Z;
  num_samples : nat;
  inference_time : Q;
  result_metadata : list (string * string);
  probability : option probability_part
}.

(** [np.max(row)]: a [ValueError] on an empty row. *)
Definition row_max (r : list Q) : py.result Q :=
  match r with
  | [] => py.Raise (py.Error "ValueError"
                      "zero-size array to reduction operation maximum")
  | p :: r' => py.Return (fold_left Qmax r' p)
  end.

(** [np.max(probabilities, axis=1)] *)
Fixpoint max_rows (m : list (list Q)) : py.result (list Q) :=
  match m with
  | [] => py.Return []
  | r :: m' =>
      p ← row_max r;
      rest ← max_rows m';
      py.Return (p :: rest)
  end.

(** [c = predictions.copy(); c[~mask] = -1]: an [IndexError] when the mask
    and the predictions differ in length. *)
Fixpoint mark_uncertain (predictions0 : list Z) (mask : list bool)
  : py.result (list Z) :=
  match predictions0, mask with
  | [], [] => py.Return []
  | p :: predictions', b :: mask' =>
      rest ← mark_uncertain predictions' mask';
      py.Return ((if b then p else (-1)%Z) :: rest)
  | _, _ => py.Raise (py.Error "IndexError" "boolean index did not match")
  end.

(** [int(np.sum(mask))] *)
Definition count_true (mask : list bool) : nat :=
  length (List.filter (fun b => b) mask).

(** The [try] block of [predict]; [elapsed] is the reading
    [time.time() - start_time]. *)
Definition predict_body `{Runtime} (self : InferencePipeline)
    (m : Estimator) (data : list row) (return_probabilities : bool)
    (confidence_threshold : option Q) (elapsed : Q)
  : py.result prediction_result :=
  X_processed ← preprocess_data self data;
  predictions0 ← m_predict m X_processed;
  probability0 ←
    match return_probabilities, m_predict_proba m with
    | true, Some predict_proba =>
        probabilities0 ← predict_proba X_processed;
        max_probability0 ← max_rows probabilities0;
        confident0 ←
          match confidence_threshold with
          | Some threshold =>
              maxima ← max_rows probabilities0;
              let confident_mask :=
                map (fun p => Qle_bool threshold p) maxima in
              marked ← mark_uncertain predictions0 confident_mask;
              py.Return
                (Some {| confident_predictions := marked;
                         confidence_flags := confident_mask;
                         confident_count := count_true confident_mask |})
          | None => py.Return None
          end;
        py.Return (Some {| probabilities := probabilities0;
                           max_probability := max_probability0;
                           confident := confident0 |})
    | _, _ => py.Return None
    end;
  py.Return {| predictions := predictions0;
               num_samples := length predictions0;
               inference_time := elapsed;
               result_metadata := model_metadata self;
               probability := probability0 |}.

Definition predict `{Runtime} (self : InferencePipeline) (data : list row)
    (return_probabilities : bool) (confidence_threshold : option Q)
    (elapsed : Q) : py.result prediction_result * InferencePipeline :=
  match model self with
  | None => (py.Raise (py.Error "ValueError" "No model loaded"), self)
  | Some m =>
      match predict_body self m data return_probabilities
              confidence_threshold elapsed with
      | py.Return result =>
          (py.Return result,
           with_stats self
             {| total_predictions :=
                  total_predictions (stats self)
                  + Z.of_nat (length (predictions result));
                total_inference_time :=
                  total_inference_time (stats self) + inference_time result;
                error_count := error_count (stats self) |})
      | py.Raise e =>
          (py.Raise e,
           with_stats self
             {| total_predictions := total_predictions (stats self);
                total_inference_time := total_inference_time (stats self);
                error_count := error_count (stats self) + 1 |})
      end
  end.

Definition reset_stats `{Runtime} (self : InferencePipeline)
  : InferencePipeline := with_stats self zero_stats.

(** What a call of [predict] did, as an event on the counters. *)
Definition event_of `{Runtime} (self : InferencePipeline)
    (outcome : py.result prediction_result) : event :=
  match model self, outcome with
  | None, _ => PredictNoModel
  | Some _, py.Return result =>
      PredictReturned (num_samples result) (inference_time result)
  | Some _, py.Raise _ => PredictRaised
  end.

(** One call of a client: a prediction or a reset. *)
Inductive call `{Runtime} : Type :=
  | Predict (data : list row) (return_probabilities : bool)
      (confidence_threshold : option Q) (elapsed : Q)
  | Reset.

Definition serve_call `{Runtime}
    (acc : InferencePipeline * list event) (c : call)
  : InferencePipeline * list event :=
  let '(self, events) := acc in
  match c with
  | Predict data return_probabilities confidence_threshold elapsed =>
      let out := predict self data return_probabilities
                   confidence_threshold elapsed in
      (snd out, events ++ [event_of self (fst out)])
  | Reset => (reset_stats self, events ++ [ResetStats])
  end.

(** A pipeline as [__init__] leaves it, with whatever model and feature
    pipeline were loaded. *)
Definition fresh `{Runtime} (model0 : option Estimator)
    (engineer : option FeatureEngineer) (metadata : list (string * string))
  : InferencePipeline :=
  {| model := model0; feature_engineer := engineer;
     model_metadata := metadata; stats := zero_stats |}.

(** The starts [range(0, n, batch_size)] for a positive [batch_size]. *)
Definition batch_starts (n batch_size : nat) : list nat :=
  map (fun k => (k * batch_size)%nat)
      (seq 0 ((n + batch_size - 1) / batch_size)).

(** The dict returned by [predict_batch]. *)
Record batch_result : Type := {
  all_predictions : list Z;
  batch_num_samples : nat;
  batch_total_inference_time : Q;
  avg_inference_time_per_sample : Q;
  batch_size_used : Z;
  batch_probabilities : option (list (list Q))
}.

(** The loop of [predict_batch] over the batch starts; [elapsed] gives the
    time reading of the batch starting at a row.  The first batch that
    raises ends the loop, the counters keeping what was counted so far. *)
Fixpoint batch_loop `{Runtime} (self : InferencePipeline) (data : list row)
    (batch_size : nat) (return_probabilities : bool)
    (confidence_threshold : option Q) (elapsed : nat -> Q)
    (starts : list nat) (all_predictions0 : list Z)
    (all_probabilities : list (list Q)) (total_time : Q)
  : py.result (list Z * list (list Q) * Q) * InferencePipeline :=
  match starts with
  | [] => (py.Return (all_predictions0, all_probabilities, total_time), self)
  | i :: starts' =>
      let batch_data := take batch_size (drop i data) in
      match predict self batch_data return_probabilities
              confidence_threshold (elapsed i) with
      | (py.Raise e, self') => (py.Raise e, self')
      | (py.Return batch_results, self') =>
          batch_loop self' data batch_size return_probabilities
            confidence_threshold elapsed starts'
            (all_predictions0 ++ predictions batch_results)
            (all_probabilities
             ++ default [] (probabilities <$> probability batch_results))
            (total_time + inference_time batch_results)
      end
  end.

(** The loading step of [predict_batch]. *)
Definition load_batch `{Runtime} (data_path : string)
  : py.result (list row) :=
  if py.endswith data_path ".csv" then load_csv data_path
  else if py.endswith data_path ".parquet" then load_parquet data_path
  else py.Raise (py.Error "ValueError"
                   ("Unsupported file format: " +:+ data_path)).

(** The saving step of [predict_batch]: the frame of predictions is built
    for any output path, and written when the path ends in [.csv] or
    [.parquet]. *)
Definition save_batch `{Runtime} (output_path : option string)
    (data : list row) (all_predictions0 : list Z)
    (all_probabilities : list (list Q)) : py.result unit :=
  if py.truthy_str output_path then
    let path := default "" output_path in
    predictions_df ← with_predictions data all_predictions0
                        all_probabilities;
    if py.endswith path ".csv" then to_csv path predictions_df
    else if py.endswith path ".parquet" then to_parquet path predictions_df
    else py.Return tt
  else py.Return tt.

Definition predict_batch `{Runtime} (self : InferencePipeline)
    (data_path : string) (output_path : option string) (batch_size : Z)
    (return_probabilities : bool) (confidence_threshold : option Q)
    (elapsed : nat -> Q) : py.result batch_result * InferencePipeline :=
  match load_batch data_path with
  | py.Raise e => (py.Raise e, self)
  | py.Return data =>
      if (batch_size =? 0)%Z
      then (py.Raise (py.Error "ValueError"
                        "range() arg 3 must not be zero"), self)
      else
        let starts :=
          if (batch_size <? 0)%Z then []
          else batch_starts (length data) (Z.to_nat batch_size) in
        match batch_loop self data (Z.to_nat batch_size)
                return_probabilities confidence_threshold elapsed starts
                [] [] 0 with
        | (py.Raise e, self') => (py.Raise e, self')
        | (py.Return (all_predictions0, all_probabilities, total_time),
           self') =>
            match all_predictions0 with
            | [] =>
                (py.Raise
                   (py.Error "ZeroDivisionError"
                      (match starts with
                       | [] => "division by zero"
                       | _ :: _ => "float division by zero"
                       end)), self')
            | _ :: _ =>
                let results :=
                  {| all_predictions := all_predictions0;
                     batch_num_samples := length all_predictions0;
                     batch_total_inference_time := total_time;
                     avg_inference_time_per_sample :=
                       total_time / py.of_nat (length all_predictions0);
                     batch_size_used := batch_size;
                     batch_probabilities :=
                       match all_probabilities with
                       | [] => None
                       | _ :: _ => Some all_probabilities
                       end |} in
                match save_batch output_path data all_predictions0
                        all_probabilities with
                | py.Return _ => (py.Return results, self')
                | py.Raise e => (py.Raise e, self')
                end
            end
        end
  end.

(** A runtime for examples: rows are numbers, the model predicts the sign
    of each row and is sure of positive rows only. *)
Definition demo_runtime : Runtime :=
  {| row := Z; array := list Z; table := list (Z * Z);
     values := fun rows => rows;
     load_csv := fun _ => py.Return [1; -2; 3]%Z;
     load_parquet := fun _ => py.Return [];
     with_predictions := fun rows predictions0 _ =>
       py.Return (zip rows predictions0);
     to_csv := fun _ _ => py.Return tt;
     to_parquet := fun _ _ => py.Return tt |}.

Definition demo_predict (X : list Z) : py.result (list Z) :=
  py.Return (map (fun x => if (0 <? x)%Z then 1%Z else 0%Z) X).

Definition demo_predict_proba (X : list Z) : py.result (list (list Q)) :=
  py.Return (map (fun x => if (0 <? x)%Z then [1 # 10; 9 # 10]
                           else [6 # 10; 4 # 10]) X).

Definition demo_model : @Estimator demo_runtime :=
  @Build_Estimator demo_runtime demo_predict (Some demo_predict_proba).

Definition demo_pipeline : @InferencePipeline demo_runtime :=
  @fresh demo_runtime (Some demo_model) None [].

End inference_pipeline.

(** ** monitoring/run_drift_check.py *)

Module run_drift_check.

(** One entry of [models] in the YAML configuration; a field is [None] when
    the key is missing. *)
Record model_config : Type := {
  name : option string;
  mc_current_data_path : option string;
  current_data_query : option string
}.

Record settings : Type := {
  generate_reports : option bool
}.

(** The value under a key of the YAML document: the key is missing, its
    value is null, or it has a value of the expected shape. *)
Inductive key (A : Type) : Type :=
  | Missing
  | Null
  | Given (a : A).
Arguments Missing {A}.
Arguments Null {A}.
Arguments Given {A} a.

(** What [yaml.safe_load] returns: [None] for an empty document, else the
    mapping, of which the runner reads the keys [models], a list of
    mappings, and [settings], a mapping. *)
Inductive config : Type :=
  | EmptyDocument
  | Mapping (models_key : key (list model_config))
            (settings_key : key settings).



(** The answer of the monitoring service to [POST /monitoring/run]. *)
Record response : Type := {
  status_code : nat;
  text : string;
  json : py.result model_monitor.monitoring_results
}.

(** An entry of [self.results]: the two literal dicts of the runner, or the
    body of the service's answer with [model_name] and [status] set. *)
Record check_result : Type := {
  model_name : option string;
  status : string;
  reason : option string;
  error : option string;
  body : option model_monitor.monitoring_results
}.

(** The texts that [send_alert] puts into the Slack message. *)
Record alert : Type := {
  alert_model_name : string;
  alert_health : string;
  alert_drift_detected : bool;
  alert_drift_share : Q;
  alert_drifted_columns : nat;
  alert_drifted_features : string;
  alert_detected_at : string
}.

(** What the runner reaches outside itself: the environment, the
    configuration file (absent, unreadable or parsed), pandas readers, the
    conversion of a frame to records, the two HTTP posts, the results file,
    the clock and [str(e)]. *)
Class World : Type := {
  getenv_slack_webhook : option string;
  config_file : string -> option (py.result config);
  read_parquet : string -> py.result dataframe;
  read_csv : string -> py.result dataframe;
  to_dict : dataframe -> py.result dataframe;
  post_monitoring_run :
    string -> string -> dataframe -> bool -> py.result response;
  post_slack : string -> alert -> py.result unit;
  save_results : string -> list check_result -> py.result unit;
  str_exn : py.exn -> string;
  utcnow : string;
  utcnow_stamp : string
}.

Record DriftCheckRunner : Type := {
  monitoring_service_url : string;
  config_path : string;
  slack_webhook : option string;
  results : list check_result
}.

(** [s.rstrip("/")] *)
Fixpoint rstrip_slash (s : string) : string :=
  match s with
  | EmptyString => EmptyString
  | String c s' =>
      match rstrip_slash s' with
      | EmptyString =>
          if Ascii.eqb c "/"%char then EmptyString else String c EmptyString
      | rest => String c rest
      end
  end.




Definition __init__ `{World} (monitoring_service_url0 config_path0 : string)
  : DriftCheckRunner :=
  {| monitoring_service_url := rstrip_slash monitoring_service_url0;
     config_path := config_path0;
     slack_webhook := getenv_slack_webhook;
     results := [] |}.


(** A placeholder in the source: it logs a warning and returns [None]. *)
Definition execute_query (self : DriftCheckRunner) (query : string)
  : py.result (option dataframe) := py.Return None.

Definition load_current_data `{World} (self : DriftCheckRunner)
    (model_config0 : model_config) : py.result (option dataframe) :=
  let by_query :=
    if py.truthy_str (current_data_query model_config0)
    then execute_query self (default "" (current_data_query model_config0))
    else py.Return None in
  if py.truthy_str (mc_current_data_path model_config0) then
    let current_data_path := default "" (mc_current_data_path model_config0) in
    if py.startswith current_data_path "s3://"
    then Some <$> read_parquet current_data_path
    else if py.endswith current_data_path ".csv"
    then Some <$> read_csv current_data_path
    else if py.endswith current_data_path ".parquet"
    then Some <$> read_parquet current_data_path
    else by_query
  else by_query.

Definition skipped (model_name0 : string) : check_result :=
  {| model_name := Some model_name0; status := "skipped";
     reason := Some "no_current_data"; error := None; body := None |}.

Definition completed (model_name0 : string)
    (result : model_monitor.monitoring_results) : check_result :=
  {| model_name := Some model_name0; status := "completed";
     reason := None; error := None; body := Some result |}.


(** [check_model]: [settings0] is [None] when the document's [settings] are
    null.  The arguments of the post are evaluated before it is made: the
    records of the frame, then the [generate_reports] setting. *)
Definition check_model `{World} (self : DriftCheckRunner)
    (model_config0 : model_config) (settings0 : option settings)
  : py.result check_result :=
  model_name0 ← match name model_config0 with
                 | Some n => py.Return n
                 | None => py.Raise (py.Error "KeyError" "name")
                 end;
  current_data ← load_current_data self model_config0;
  match current_data with
  | None => py.Return (skipped model_name0)
  | Some current_data0 =>
      if (df_len current_data0 =? 0)%nat then py.Return (skipped model_name0)
      else
        records ← to_dict current_data0;
        generate_report ←
          match settings0 with
          | Some settings1 =>
              py.Return (default true (generate_reports settings1))
          | None =>
              py.Raise (py.Error "AttributeError"
                          "'NoneType' object has no attribute 'get'")
          end;
        response0 ← post_monitoring_run
                      (monitoring_service_url self +:+ "/monitoring/run")
                      model_name0 records generate_report;
        if negb (status_code response0 =? 200)%nat
        then py.Raise (py.Error "Exception"
                         ("Monitoring service error: " +:+ text response0))
        else
          result ← json response0;
          py.Return (completed model_name0 result)
  end.














(** A world for examples: two models are configured, the service answers 200
    with a critical result for every model, Slack is configured, files load
    as a frame of three rows. *)
Definition demo_body : model_monitor.monitoring_results :=
  {| model_monitor.timestamp := "t"; model_monitor.model_type := "classification";
     model_monitor.samples_analyzed := 3;
     model_monitor.data_drift :=
       Some {| model_monitor.dataset_drift := Some true;
               model_monitor.drift_share := Some (6 # 10);
               model_monitor.drifted_columns :=
                 ["a"; "b"; "c"; "d"; "e"; "f"] |};
     model_monitor.model_performance := None;
     model_monitor.health_status := Some "critical";
     model_monitor.report_path := None |}.

Definition demo_model (n : string) (path query : option string)
  : model_config :=
  {| name := Some n; mc_current_data_path := path;
     current_data_query := query |}.

Definition demo_world : World :=
  {| getenv_slack_webhook := Some "https://hooks.example/T0";
     config_file := fun _ =>
       Some (py.Return
               (Mapping
                  (Given [demo_model "churn" (Some "s3://lake/churn") None;
                          demo_model "fraud" None (Some "SELECT 1")])
                  Missing));
     read_parquet := fun _ =>
       py.Return {| df_columns := [("x", "float64")]; df_len := 3 |};
     read_csv := fun _ =>
       py.Return {| df_columns := [("x", "float64")]; df_len := 3 |};
     to_dict := fun current_data => py.Return current_data;
     post_monitoring_run := fun _ _ _ _ =>
       py.Return {| status_code := 200; text := "";
                    json := py.Return demo_body |};
     post_slack := fun _ _ => py.Return tt;
     save_results := fun _ _ => py.Return tt;
     str_exn := fun e =>
       match e with
       | py.HTTPException _ detail => detail
       | py.Error _ msg => msg
       end;
     utcnow := "2024-01-01T00:00:00";
     utcnow_stamp := "20240101_000000" |}.



End run_drift_check.

(** ** monitoring/drift_detector.py *)

Module drift_detector.

(** [sub in s] on strings. *)
Fixpoint in_str (sub s : string) : bool :=
  String.prefix sub s
  || match s with
     | EmptyString => false
     | String _ s' => in_str sub s'
     end.

(** The [current] part of a missing-values result. *)
Record missing_current : Type := {
  number_of_missing_values : option nat;
  share_of_missing_values : option Q
}.

(** The [result] dict of one metric of an Evidently report; a field is
    [None] when the key is missing. *)
Record metric_result : Type := {
  r_dataset_drift : option bool;
  r_drift_share : option Q;
  r_number_of_drifted_columns : option nat;
  column_name : option string;
  r_drift_detected : option bool;
  r_drift_score : option Q;
  r_stattest_name : option string;
  current : option missing_current
}.

Record metric : Type := {
  metric_id : option string;
  result : option metric_result
}.

Definition no_result : metric_result :=
  {| r_dataset_drift := None; r_drift_share := None;
     r_number_of_drifted_columns := None; column_name := None;
     r_drift_detected := None; r_drift_score := None;
     r_stattest_name := None; current := None |}.

Record column_score : Type := {
  drift_detected : bool;
  drift_score : Q;
  stattest_name : string
}.

Record missing_values_summary : Type := {
  total_missing : nat;
  share_missing : Q
}.

(** The [results] dict of [_parse_drift_report];
    [number_of_drifted_columns] is a key only once a dataset metric was
    read, [missing_values] is the empty dict until a missing-values metric
    was read. *)
Record drift_results : Type := {
  timestamp : string;
  dataset_drift : bool;
  drift_share : Q;
  drifted_columns : list string;
  column_drift_scores : py.dict column_score;
  missing_values : option missing_values_summary;
  number_of_drifted_columns : option nat
}.

Definition id_of (m : metric) : string := default "" (metric_id m).
Definition result_of (m : metric) : metric_result :=
  default no_result (result m).

Definition is_dataset_drift (m : metric) : bool :=
  in_str "DatasetDriftMetric" (id_of m).

(** The [elif] branch for a column metric. *)
Definition is_column_drift (m : metric) : bool :=
  negb (is_dataset_drift m) && in_str "ColumnDriftMetric" (id_of m).

Definition is_missing_values (m : metric) : bool :=
  negb (is_dataset_drift m) && negb (in_str "ColumnDriftMetric" (id_of m))
  && in_str "DatasetMissingValuesMetric" (id_of m).

Definition col_name_of (m : metric) : string :=
  default "unknown" (column_name (result_of m)).

(** One turn of the loop over the metrics of the report. *)
Definition parse_step (results : drift_results) (m : metric)
  : drift_results :=
  let result0 := result_of m in
  if in_str "DatasetDriftMetric" (id_of m) then
    {| timestamp := timestamp results;
       dataset_drift := default false (r_dataset_drift result0);
       drift_share := default 0 (r_drift_share result0);
       drifted_columns := drifted_columns results;
       column_drift_scores := column_drift_scores results;
       missing_values := missing_values results;
       number_of_drifted_columns :=
         Some (default 0%nat (r_number_of_drifted_columns result0)) |}
  else if in_str "ColumnDriftMetric" (id_of m) then
    let col_name := default "unknown" (column_name result0) in
    {| timestamp := timestamp results;
       dataset_drift := dataset_drift results;
       drift_share := drift_share results;
       drifted_columns :=
         if default false (r_drift_detected result0)
         then drifted_columns results ++ [col_name]
         else drifted_columns results;
       column_drift_scores :=
         py.setitem col_name
           {| drift_detected := default false (r_drift_detected result0);
              drift_score := default 0 (r_drift_score result0);
              stattest_name := default "" (r_stattest_name result0) |}
           (column_drift_scores results);
       missing_values := missing_values results;
       number_of_drifted_columns := number_of_drifted_columns results |}
  else if in_str "DatasetMissingValuesMetric" (id_of m) then
    let current0 :=
      default {| number_of_missing_values := None;
                 share_of_missing_values := None |} (current result0) in
    {| timestamp := timestamp results;
       dataset_drift := dataset_drift results;
       drift_share := drift_share results;
       drifted_columns := drifted_columns results;
       column_drift_scores := column_drift_scores results;
       missing_values :=
         Some {| total_missing :=
                   default 0%nat (number_of_missing_values current0);
                 share_missing :=
                   default 0 (share_of_missing_values current0) |};
       number_of_drifted_columns := number_of_drifted_columns results |}
  else results.

(** [_parse_drift_report] on the [metrics] list of [report.as_dict()];
    [now] is the clock reading. *)
Definition _parse_drift_report (now : string) (metrics : list metric)
  : drift_results :=
  fold_left parse_step metrics
    {| timestamp := now; dataset_drift := false; drift_share := 0;
       drifted_columns := []; column_drift_scores := [];
       missing_values := None; number_of_drifted_columns := None |}.

(** A column metric of the given name, for examples. *)
Definition column_metric (c : string) (detected : bool) : metric :=
  {| metric_id := Some "ColumnDriftMetric";
     result := Some {| r_dataset_drift := None; r_drift_share := None;
                       r_number_of_drifted_columns := None;
                       column_name := Some c;
                       r_drift_detected := Some detected;
                       r_drift_score := Some (1 # 100);
                       r_stattest_name := Some "ks";
                       current := None |} |}.

End drift_detector.

(* ===================================================================== *)
(** * Part II.  Properties                                                *)
(* ===================================================================== *)

(** ** The health policy of the statistical monitor *)

Lemma determine_health_policy (r : model_monitor.monitoring_results) :
  model_monitor._determine_health r =
  model_monitor.health_policy (model_monitor.drift_of r)
    (model_monitor.share_of r) (model_monitor.degradation_of r).
Proof.
  unfold model_monitor._determine_health, model_monitor.health_policy,
    model_monitor.first_match, model_monitor.drift_of, model_monitor.share_of,
    model_monitor.degradation_of.
  destruct (default false (model_monitor.data_drift r ≫= model_monitor.dataset_drift));
    cbn [andb];
    repeat match goal with
           | |- context [py.gt ?a ?b] => destruct (py.gt a b); cbn
           end; reflexivity.
Qed.

(** The optional performance step of [run_monitoring] either yields the
    block or raises. *)
Ltac destruct_perf :=
  match goal with
  | |- context [mbind _ (if ?c then ?a else ?b)] =>
      destruct (if c then a else b) as [?perf|?e]; cbn; [|exact I]
  end.

(** C1.  The health status that [run_monitoring] derives follows the ordered
    policy, first match winning: drift with share above 0.5 is critical, else
    drift with share above 0.3 is a warning, else degradation above 20 is
    critical, else degradation above 10 is a warning, else the model is
    healthy; and the four sample results resolve to critical, warning,
    critical and healthy. *)
Theorem health_status_follows_policy :
  (forall r : model_monitor.monitoring_results,
      model_monitor._determine_health r =
      model_monitor.health_policy (model_monitor.drift_of r)
        (model_monitor.share_of r) (model_monitor.degradation_of r))
  /\ (forall (E : model_monitor.Evidently) self now current_data flag,
         match model_monitor.run_monitoring self now current_data flag with
         | py.Return (r, _) =>
             model_monitor.health_status r =
             Some (model_monitor.health_policy (model_monitor.drift_of r)
                     (model_monitor.share_of r)
                     (model_monitor.degradation_of r))
         | py.Raise _ => True
         end)
  /\ model_monitor._determine_health
       (model_monitor.synthetic true (6 # 10) None) = "critical"
  /\ model_monitor._determine_health
       (model_monitor.synthetic true (35 # 100) None) = "warning"
  /\ model_monitor._determine_health
       (model_monitor.synthetic false 0 (Some 25)) = "critical"
  /\ model_monitor._determine_health
       (model_monitor.synthetic false 0 None) = "healthy".
Proof.
  split; [exact determine_health_policy|].
  split; [|repeat split; reflexivity].
  intros E self now current_data flag.
  unfold model_monitor.run_monitoring.
  destruct (model_monitor.detect_data_drift _ _ _) as [d|e]; cbn; [|exact I].
  destruct_perf.
  rewrite determine_health_policy. reflexivity.
Qed.

(** The policy's rule list read as the chain of tests it stands for. *)
Lemma health_policy_chain (drift : bool) (share degradation : Q) :
  model_monitor.health_policy drift share degradation =
  if drift && py.gt share (5 # 10) then "critical"
  else if drift && py.gt share (3 # 10) then "warning"
  else if py.gt degradation 20 then "critical"
  else if py.gt degradation 10 then "warning"
  else "healthy".
Proof.
  unfold model_monitor.health_policy, model_monitor.first_match.
  destruct drift; cbn [andb];
    repeat match goal with
           | |- context [py.gt ?a ?b] => destruct (py.gt a b); cbn
           end; reflexivity.
Qed.

(** [run_monitoring] returns whenever the engine does. *)
Lemma run_monitoring_returns (E : model_monitor.Evidently) self now
    current_data flag d :
  model_monitor.detect_data_drift (model_monitor.reference_data self)
    current_data (Some (model_monitor.feature_columns self)) = py.Return d ->
  (forall t ref cur, exists s, model_monitor.quality_scores t ref cur = py.Return s) ->
  exists r, model_monitor.run_monitoring self now current_data flag
            = py.Return (r, model_monitor.append_history self r).
Proof.
  intros Hd Hq. unfold model_monitor.run_monitoring. rewrite Hd. cbn.
  destruct (flag && has_column current_data (model_monitor.target_column self)).
  - unfold model_monitor._check_model_performance.
    destruct (Hq (model_monitor.mm_model_type self)
                (model_monitor.reference_data self) current_data) as [[a b] Hs].
    rewrite Hs. cbn. eauto.
  - cbn. eauto.
Qed.

(** ** History lists *)

Lemma last_n_all {A} (n : nat) (l : list A) :
  (length l <= n)%nat -> py.last_n n l = l.
Proof.
  intros H. unfold py.last_n.
  replace (length l - n)%nat with 0%nat by lia. reflexivity.
Qed.

Lemma last_n_length {A} (n : nat) (l : list A) :
  length (py.last_n n l) = Nat.min n (length l).
Proof. unfold py.last_n. rewrite length_drop. lia. Qed.

Lemma last_n_app {A} (n : nat) (l k : list A) :
  py.last_n n (py.last_n n l ++ k) = py.last_n n (l ++ k).
Proof.
  unfold py.last_n.
  destruct (decide (length l <= n)%nat) as [Hle|Hgt].
  - replace (length l - n)%nat with 0%nat by lia. reflexivity.
  - rewrite length_app, length_drop.
    rewrite <- (drop_app_le l k (length l - n)) by lia.
    rewrite drop_drop, length_app. f_equal. lia.
Qed.

Lemma append_capped_last_n h r :
  utils_monitoring.append_capped h r = py.last_n 1000 (h ++ [r]).
Proof.
  unfold utils_monitoring.append_capped.
  destruct (1000 <? length (h ++ [r]))%nat eqn:E; [reflexivity|].
  apply Nat.ltb_ge in E. symmetry. apply last_n_all. exact E.
Qed.

Lemma logged_history (N : utils_monitoring.Numeric) logs :
  forall m,
    (length (utils_monitoring.prediction_history m) <= 1000)%nat ->
    utils_monitoring.prediction_history (utils_monitoring.logged m logs) =
    py.last_n 1000 (utils_monitoring.prediction_history m
                    ++ utils_monitoring.records logs).
Proof.
  induction logs as [|[[[now d] p] lat] logs IH]; intros m Hm.
  - cbn. rewrite app_nil_r. symmetry. apply last_n_all. exact Hm.
  - cbn [utils_monitoring.logged fold_left utils_monitoring.records map].
    fold (utils_monitoring.logged
            (utils_monitoring.log_prediction m now d p lat) logs).
    rewrite IH.
    + cbn [utils_monitoring.log_prediction utils_monitoring.with_history
             utils_monitoring.prediction_history].
      rewrite append_capped_last_n, last_n_app, <- app_assoc. reflexivity.
    + cbn. rewrite append_capped_last_n, last_n_length. lia.
Qed.

Lemma after_calls_capped (N : utils_monitoring.Numeric) name calls :
  (length (utils_monitoring.prediction_history
             (utils_monitoring.after_calls name calls)) <= 1000)%nat.
Proof.
  unfold utils_monitoring.after_calls.
  assert (H : (length (utils_monitoring.prediction_history
                         (utils_monitoring.__init__ name)) <= 1000)%nat)
    by (cbn; lia).
  revert H. generalize (utils_monitoring.__init__ name).
  induction calls as [|c calls IH]; intros m Hm; [exact Hm|].
  cbn [fold_left]. apply IH. destruct c; cbn.
  - exact Hm.
  - rewrite append_capped_last_n, last_n_length. lia.
  - lia.
Qed.

Lemma run_all_history (E : model_monitor.Evidently) calls :
  forall self,
    match model_monitor.run_all self calls with
    | py.Return (results, self') =>
        model_monitor._monitoring_history self' =
        model_monitor._monitoring_history self ++ results
        /\ length results = length calls
    | py.Raise _ => True
    end.
Proof.
  induction calls as [|[[now d] flag] calls IH]; intros self.
  - cbn. rewrite app_nil_r. auto.
  - cbn [model_monitor.run_all].
    unfold model_monitor.run_monitoring.
    destruct (model_monitor.detect_data_drift _ _ _) as [dr|e]; cbn; [|exact I].
    destruct_perf.
    match goal with
    | |- context [model_monitor.run_all ?m calls] =>
        specialize (IH m); destruct (model_monitor.run_all m calls)
          as [[rs m']|e]
    end; cbn; [|exact I].
    destruct IH as [IH1 IH2]. rewrite IH1. cbn.
    rewrite <- app_assoc. cbn. auto.
Qed.

Lemma demo_run_all_returns calls self :
  exists rs self',
    @model_monitor.run_all monitoring_service.demo_engine self calls
    = py.Return (rs, self').
Proof.
  revert self. induction calls as [|[[now d] flag] calls IH]; intros self.
  - cbn. eauto.
  - cbn [model_monitor.run_all]. unfold model_monitor.run_monitoring. cbn.
    destruct (flag && has_column d (model_monitor.target_column self)); cbn;
      match goal with
      | |- context [model_monitor.run_all ?m calls] =>
          destruct (IH m) as (rs & m' & ->)
      end; cbn; eauto.
Qed.

(** C9.  The lightweight monitor's history never holds more than 1000 records
    and is the most recent stretch of what was appended; each returning
    [run_monitoring] of the statistical monitor appends exactly its result,
    so that history grows by one per call, past any bound. *)
Theorem history_capped_versus_unbounded :
  (forall (N : utils_monitoring.Numeric) name calls logs,
      let m := utils_monitoring.after_calls name calls in
      let m' := utils_monitoring.logged m logs in
      (length (utils_monitoring.prediction_history m') <= 1000)%nat
      /\ utils_monitoring.prediction_history m' =
         py.last_n 1000 (utils_monitoring.prediction_history m
                         ++ utils_monitoring.records logs))
  /\ (forall (N : utils_monitoring.Numeric) name logs,
         utils_monitoring.prediction_history
           (utils_monitoring.logged (utils_monitoring.__init__ name) logs) =
         py.last_n 1000 (utils_monitoring.records logs))
  /\ (forall (E : model_monitor.Evidently) self now current_data flag,
         match model_monitor.run_monitoring self now current_data flag with
         | py.Return (r, self') =>
             model_monitor._monitoring_history self' =
             model_monitor._monitoring_history self ++ [r]
         | py.Raise _ => True
         end)
  /\ (forall (E : model_monitor.Evidently) self calls,
         match model_monitor.run_all self calls with
         | py.Return (results, self') =>
             model_monitor._monitoring_history self' =
             model_monitor._monitoring_history self ++ results
             /\ length results = length calls
         | py.Raise _ => True
         end)
  /\ (forall (bound : nat) self, exists E calls results self',
         @model_monitor.run_all E self calls = py.Return (results, self')
         /\ (bound < length (model_monitor._monitoring_history self'))%nat).
Proof.
  split; [|split; [|split; [|split]]].
  - intros N name calls logs m m'. subst m'.
    pose proof (after_calls_capped N name calls) as Hm. fold m in Hm.
    rewrite (logged_history N logs m Hm). split; [|reflexivity].
    rewrite last_n_length. lia.
  - intros N name logs.
    rewrite logged_history by (cbn; lia). reflexivity.
  - intros E self now current_data flag.
    unfold model_monitor.run_monitoring.
    destruct (model_monitor.detect_data_drift _ _ _) as [d|e]; cbn; [|exact I].
    destruct_perf.
    reflexivity.
  - intros E self calls. apply run_all_history.
  - intros bound self.
    set (calls := replicate (S bound)
                    ("t" : string, monitoring_service.demo_frame, true)).
    destruct (demo_run_all_returns calls self) as (rs & self' & Hrun).
    exists monitoring_service.demo_engine, calls, rs, self'.
    split; [exact Hrun|].
    pose proof (run_all_history monitoring_service.demo_engine calls self) as H.
    rewrite Hrun in H. destruct H as [H1 H2].
    rewrite H1, length_app, H2. subst calls. rewrite length_replicate. lia.
Qed.

(** ** The monitoring HTTP service *)

Lemma getitem_raises {V} (k : string) (d : py.dict V) e :
  py.getitem k d = py.Raise e -> e = py.Error "KeyError" k.
Proof.
  induction d as [|[k' v] d IH]; cbn.
  - congruence.
  - destruct (bool_decide (k' = k)); [discriminate|exact IH].
Qed.

Lemma delitem_raises {V} (k : string) (d : py.dict V) e :
  py.delitem k d = py.Raise e -> e = py.Error "KeyError" k.
Proof.
  induction d as [|[k' v] d IH]; cbn.
  - congruence.
  - destruct (bool_decide (k' = k)); [discriminate|].
    destruct (py.delitem k d); [discriminate|].
    intros [= <-]. apply IH. reflexivity.
Qed.

Lemma register_model_status (P : monitoring_service.Platform) st request :
  let status := py.http_status (fst (monitoring_service.register_model st request)) in
  status = 200%nat \/ status = 500%nat.
Proof.
  cbn zeta. unfold monitoring_service.register_model.
  match goal with
  | |- context [py.try_except ?b _] => destruct b as [[response st']|e]
  end; cbn; auto.
Qed.

Lemma run_monitoring_status (P : monitoring_service.Platform) st request now
    stamp :
  let status :=
    py.http_status
      (fst (monitoring_service.run_monitoring st request now stamp)) in
  status = 200%nat \/ status = 404%nat \/ status = 500%nat.
Proof.
  cbn zeta. unfold monitoring_service.run_monitoring.
  destruct (monitoring_service._find_model_key _ _) as [[|c key]|]; cbn; auto.
  destruct (py.getitem _ (monitoring_service.monitors st))
    as [monitor|e1] eqn:E1;
    [|apply getitem_raises in E1 as ->; cbn; auto].
  destruct (py.getitem _ (monitoring_service.exporters st))
    as [exporter|e2] eqn:E2;
    [|apply getitem_raises in E2 as ->; cbn; auto].
  destruct (monitoring_service.load_current_data request); cbn; auto.
  destruct (model_monitor.run_monitoring _ _ _ _) as [[results monitor']|];
    cbn; auto.
  destruct (monitoring_service.update_from_monitoring_results _ _); cbn; auto.
  destruct (monitoring_service.generate_report request); cbn; auto.
Qed.

Lemma register_unsupported (P : monitoring_service.Platform) st request :
  py.endswith (monitoring_service.reference_data_path request) ".csv" = false ->
  py.endswith (monitoring_service.reference_data_path request) ".parquet"
    = false ->
  monitoring_service.register_model st request =
  (py.Raise (py.HTTPException 500
               (monitoring_service.str_exn
                  (py.HTTPException 400 "Unsupported file format"))), st).
Proof.
  intros Hcsv Hpq. unfold monitoring_service.register_model.
  rewrite Hcsv, Hpq. reflexivity.
Qed.

(** C2 (as the code behaves).  The [HTTPException(400)] raised for an
    unsupported extension, or for a request without current data, is raised
    inside the [try] whose [except Exception] turns every exception into a
    500: registering answers 200 or 500 only, a monitoring run 200, 404 or
    500 only; a reference file [reference.txt] and a data-less run on a
    registered model are both answered with 500. *)
Theorem bad_input_is_answered_500 :
  (forall (P : monitoring_service.Platform) st request,
      let status :=
        py.http_status (fst (monitoring_service.register_model st request))
      in status = 200%nat \/ status = 500%nat)
  /\ (forall (P : monitoring_service.Platform) st request now stamp,
         let status :=
           py.http_status
             (fst (monitoring_service.run_monitoring st request now stamp))
         in status = 200%nat \/ status = 404%nat \/ status = 500%nat)
  /\ py.http_status
       (fst (@monitoring_service.register_model
               monitoring_service.demo_platform monitoring_service.initial
               (monitoring_service.demo_register "churn" "1.0"
                  "reference.txt"))) = 500%nat
  /\ py.http_status
       (fst (@monitoring_service.run_monitoring
               monitoring_service.demo_platform monitoring_service.demo_state
               (monitoring_service.demo_no_data "churn") "now" "stamp"))
     = 500%nat.
Proof.
  split; [|split; [|split]].
  - exact register_model_status.
  - exact run_monitoring_status.
  - vm_compute. reflexivity.
  - vm_compute. reflexivity.
Qed.

(** *** Model-key resolution *)

Lemma startswith_iff (key pre : string) :
  py.startswith key pre = true <-> exists rest, key = pre +:+ rest.
Proof.
  unfold py.startswith. revert key.
  induction pre as [|c pre IH]; intros key.
  - split; [intros _; exists key; reflexivity|destruct key; reflexivity].
  - destruct key as [|c' key]; cbn.
    + split; [discriminate|intros [rest H]; discriminate].
    + destruct (Ascii.ascii_dec c c') as [->|Hne].
      * rewrite IH. split; intros [rest H]; exists rest.
        -- rewrite H. reflexivity.
        -- injection H as H. exact H.
      * split; [discriminate|]. intros [rest H]. injection H as H1 H2.
        congruence.
Qed.

Lemma append_assoc (a b c : string) : (a +:+ b) +:+ c = a +:+ (b +:+ c).
Proof.
  induction a as [|x a IH]; [reflexivity|].
  change (String x ((a +:+ b) +:+ c) = String x (a +:+ b +:+ c)).
  rewrite IH. reflexivity.
Qed.

Lemma names_iff (key model_name : string) :
  monitoring_service.names key model_name
  <-> py.startswith key (model_name +:+ ":") = true.
Proof.
  unfold monitoring_service.names. rewrite startswith_iff.
  split; intros [rest H]; exists rest; rewrite H.
  - symmetry. apply append_assoc.
  - apply append_assoc.
Qed.

Lemma find_first {A} (f : A -> bool) (before : list A) (x : A)
    (after : list A) :
  (forall y, y ∈ before -> f y = false) -> f x = true ->
  find f (before ++ x :: after) = Some x.
Proof.
  intros Hb Hx. induction before as [|y before IH]; cbn.
  - rewrite Hx. reflexivity.
  - rewrite (Hb y) by (left). apply IH. intros z Hz. apply Hb. right. exact Hz.
Qed.

Lemma find_nothing {A} (f : A -> bool) (l : list A) :
  (forall y, y ∈ l -> f y = false) -> find f l = None.
Proof.
  intros H. induction l as [|y l IH]; cbn; [reflexivity|].
  rewrite (H y) by (left). apply IH. intros z Hz. apply H. right. exact Hz.
Qed.

Lemma find_model_key_exact st model_name :
  model_name ∈ py.keys (monitoring_service.monitors st) ->
  monitoring_service._find_model_key (monitoring_service.monitors st)
    model_name = Some model_name.
Proof.
  intros H. unfold monitoring_service._find_model_key, py.contains.
  rewrite bool_decide_eq_true_2 by exact H. reflexivity.
Qed.

Lemma find_model_key_versioned st model_name before key after :
  model_name ∉ py.keys (monitoring_service.monitors st) ->
  py.keys (monitoring_service.monitors st) = before ++ key :: after ->
  monitoring_service.names key model_name ->
  (forall k, k ∈ before -> ~ monitoring_service.names k model_name) ->
  monitoring_service._find_model_key (monitoring_service.monitors st)
    model_name = Some key.
Proof.
  intros Hnot Hkeys Hkey Hbefore.
  unfold monitoring_service._find_model_key, py.contains.
  rewrite bool_decide_eq_false_2 by exact Hnot.
  rewrite Hkeys. apply find_first.
  - intros k Hk. apply not_true_is_false. rewrite <- names_iff.
    apply Hbefore. exact Hk.
  - apply names_iff. exact Hkey.
Qed.

Lemma find_model_key_none st model_name :
  model_name ∉ py.keys (monitoring_service.monitors st) ->
  (forall k, k ∈ py.keys (monitoring_service.monitors st) ->
             ~ monitoring_service.names k model_name) ->
  monitoring_service._find_model_key (monitoring_service.monitors st)
    model_name = None.
Proof.
  intros Hnot Hnone.
  unfold monitoring_service._find_model_key, py.contains.
  rewrite bool_decide_eq_false_2 by exact Hnot.
  apply find_nothing. intros k Hk. apply not_true_is_false.
  rewrite <- names_iff. apply Hnone. exact Hk.
Qed.

(** C5.  Resolution returns the name itself when it is a stored key;
    otherwise the first stored key that reads as the name followed by [:];
    and when no stored key matches either way, each of the four model-scoped
    endpoints answers 404. *)
Theorem model_key_resolution (P : monitoring_service.Platform)
    (st : monitoring_service.state) (model_name : string) :
  (model_name ∈ py.keys (monitoring_service.monitors st) ->
   monitoring_service._find_model_key (monitoring_service.monitors st)
     model_name = Some model_name)
  /\ (model_name ∉ py.keys (monitoring_service.monitors st) ->
      forall before key after,
        py.keys (monitoring_service.monitors st) = before ++ key :: after ->
        monitoring_service.names key model_name ->
        (forall k, k ∈ before -> ~ monitoring_service.names k model_name) ->
        monitoring_service._find_model_key (monitoring_service.monitors st)
          model_name = Some key)
  /\ (model_name ∉ py.keys (monitoring_service.monitors st) ->
      (forall k, k ∈ py.keys (monitoring_service.monitors st) ->
                 ~ monitoring_service.names k model_name) ->
      monitoring_service._find_model_key (monitoring_service.monitors st)
        model_name = None
      /\ (forall request now stamp,
             monitoring_service.mon_model_name request = model_name ->
             py.http_status
               (fst (monitoring_service.run_monitoring st request now stamp))
             = 404%nat)
      /\ (forall request,
             monitoring_service.dc_model_name request = model_name ->
             py.http_status (fst (monitoring_service.check_drift st request))
             = 404%nat)
      /\ py.http_status
           (fst (monitoring_service.get_monitoring_history st model_name))
         = 404%nat
      /\ py.http_status
           (fst (monitoring_service.unregister_model st model_name))
         = 404%nat).
Proof.
  split; [apply find_model_key_exact|].
  split; [intros; eapply find_model_key_versioned; eauto|].
  intros Hnot Hnone.
  pose proof (find_model_key_none st model_name Hnot Hnone) as Hfind.
  split; [exact Hfind|].
  split; [|split; [|split]].
  - intros request now stamp <-.
    unfold monitoring_service.run_monitoring. rewrite Hfind. reflexivity.
  - intros request <-.
    unfold monitoring_service.check_drift. rewrite Hfind. reflexivity.
  - unfold monitoring_service.get_monitoring_history. rewrite Hfind.
    reflexivity.
  - unfold monitoring_service.unregister_model. rewrite Hfind. reflexivity.
Qed.

Lemma demo_state_keys :
  py.keys (monitoring_service.monitors monitoring_service.demo_state)
  = ["churn:1.0"; "churn:2.0"].
Proof. vm_compute. reflexivity. Qed.

Lemma not_names_of_startswith (key model_name : string) :
  py.startswith key (model_name +:+ ":") = false ->
  ~ monitoring_service.names key model_name.
Proof. intros H Hn. apply names_iff in Hn. congruence. Qed.

(** Membership of a literal in a literal list. *)
Ltac decide_elem :=
  rewrite ?elem_of_cons, ?elem_of_nil; intuition discriminate.

(** The three cases of C5 on the store holding [churn:1.0] and [churn:2.0]:
    the exact key [churn:2.0], the bare name [churn], the unknown [fraud]. *)
Lemma model_key_resolution_witness :
  monitoring_service._find_model_key
    (monitoring_service.monitors monitoring_service.demo_state) "churn:2.0"
  = Some "churn:2.0"
  /\ monitoring_service._find_model_key
       (monitoring_service.monitors monitoring_service.demo_state) "churn"
     = Some "churn:1.0"
  /\ py.http_status
       (fst (monitoring_service.get_monitoring_history
               monitoring_service.demo_state "fraud")) = 404%nat.
Proof.
  split; [|split].
  - apply (proj1 (model_key_resolution monitoring_service.demo_platform
                    monitoring_service.demo_state "churn:2.0")).
    rewrite demo_state_keys. decide_elem.
  - apply (proj1 (proj2 (model_key_resolution monitoring_service.demo_platform
                           monitoring_service.demo_state "churn"))
             ltac:(rewrite demo_state_keys; decide_elem)
             [] "churn:1.0" ["churn:2.0"] demo_state_keys).
    + exists "1.0". reflexivity.
    + intros k Hk. apply elem_of_nil in Hk. destruct Hk.
  - apply (proj2 (proj2 (model_key_resolution monitoring_service.demo_platform
                           monitoring_service.demo_state "fraud"))).
    + rewrite demo_state_keys. decide_elem.
    + rewrite demo_state_keys. intros k Hk.
      apply not_names_of_startswith.
      apply elem_of_cons in Hk as [->|Hk]; [reflexivity|].
      apply elem_of_cons in Hk as [->|Hk]; [reflexivity|].
      apply elem_of_nil in Hk. destruct Hk.
Defined.

(** ** The configuration manager *)

Lemma lt_iff (x y : Q) : py.lt x y = true <-> (x < y)%Q.
Proof.
  unfold py.lt. rewrite negb_true_iff, <- not_true_iff_false, Qle_bool_iff.
  split; [apply Qnot_le_lt|apply Qlt_not_le].
Qed.

Lemma gt_iff (x y : Q) : py.gt x y = true <-> (y < x)%Q.
Proof.
  unfold py.gt. rewrite negb_true_iff, <- not_true_iff_false, Qle_bool_iff.
  split; [apply Qnot_le_lt|apply Qlt_not_le].
Qed.

Lemma str_in_iff (x : string) (l : list string) :
  config_manager.str_in x l = true <-> x ∈ l.
Proof.
  unfold config_manager.str_in. rewrite existsb_exists. split.
  - intros (y & Hy & Heq). apply String.eqb_eq in Heq as ->.
    apply list_elem_of_In. exact Hy.
  - intros H. exists x. split; [apply list_elem_of_In; exact H|].
    apply String.eqb_refl.
Qed.

(** [validate_config] passes exactly when each of the seven tests does. *)
Lemma validate_config_tests (config : config_manager.MLOpsConfig) :
  config_manager.validate_config config =
  config_manager.str_in
    (config_manager.type (config_manager.model config))
    ["classification"; "regression"]
  && config_manager.str_in
       (config_manager.algorithm (config_manager.model config))
       config_manager.valid_algorithms
  && config_manager.str_in
       (config_manager.format (config_manager.data config))
       ["csv"; "parquet"; "json"]
  && (py.lt 0 (config_manager.test_size (config_manager.data config))
      && py.lt (config_manager.test_size (config_manager.data config)) 1)
  && (py.lt 0 (config_manager.validation_size (config_manager.data config))
      && py.lt (config_manager.validation_size (config_manager.data config)) 1)
  && config_manager.str_in
       (config_manager.numeric_strategy (config_manager.preprocessing config))
       ["standard"; "minmax"; "robust"]
  && config_manager.str_in
       (config_manager.categorical_strategy
          (config_manager.preprocessing config))
       ["onehot"; "ordinal"; "label"].
Proof.
  unfold config_manager.validate_config, config_manager.validation_errors.
  repeat match goal with
         | |- context [if ?b then [] else _] => destruct b
         end; reflexivity.
Qed.

(** C4.  [validate_config] returns true exactly when the model type, the
    algorithm, the data format, both split fractions and both preprocessing
    strategies are all admissible; it accepts the default configuration and
    rejects any configuration whose model type is [unknown]. *)
Theorem validate_config_criteria :
  (forall config : config_manager.MLOpsConfig,
      config_manager.validate_config config = true <->
      config_manager.type (config_manager.model config)
        ∈ ["classification"; "regression"]
      /\ config_manager.algorithm (config_manager.model config)
           ∈ ["random_forest"; "xgboost"; "linear_regression";
              "logistic_regression"]
      /\ config_manager.format (config_manager.data config)
           ∈ ["csv"; "parquet"; "json"]
      /\ (0 < config_manager.test_size (config_manager.data config) < 1)%Q
      /\ (0 < config_manager.validation_size (config_manager.data config)
          < 1)%Q
      /\ config_manager.numeric_strategy (config_manager.preprocessing config)
           ∈ ["standard"; "minmax"; "robust"]
      /\ config_manager.categorical_strategy
           (config_manager.preprocessing config)
           ∈ ["onehot"; "ordinal"; "label"])
  /\ config_manager.validate_config config_manager.default_config = true
  /\ (forall config : config_manager.MLOpsConfig,
         config_manager.validate_config
           (config_manager.with_model_type config "unknown") = false).
Proof.
  split; [|split].
  - intros config. rewrite validate_config_tests.
    rewrite !andb_true_iff, !str_in_iff, !lt_iff.
    unfold config_manager.valid_algorithms. tauto.
  - vm_compute. reflexivity.
  - intros config. rewrite validate_config_tests. reflexivity.
Qed.

(** *** Deep merge *)

Lemma merge_value_dicts (b o : gmap string config_manager.value) :
  config_manager.merge_value (config_manager.VDict b) (config_manager.VDict o)
  = config_manager.VDict (config_manager._deep_merge b o).
Proof. reflexivity. Qed.

(** What the merged dict holds at each key. *)
Lemma deep_merge_lookup (base override : gmap string config_manager.value)
    (k : string) :
  config_manager._deep_merge base override !! k =
  match override !! k with
  | Some v => Some (config_manager.merged_at (base !! k) v)
  | None => base !! k
  end.
Proof.
  unfold config_manager._deep_merge.
  apply (map_fold_weak_ind
           (fun (result o : gmap string config_manager.value) =>
              result !! k = match o !! k with
                            | Some v => Some (config_manager.merged_at (base !! k) v)
                            | None => base !! k
                            end)).
  - rewrite lookup_empty. reflexivity.
  - intros i v o result Hi IH.
    destruct (decide (i = k)) as [->|Hne].
    + rewrite Hi in IH. rewrite lookup_insert_eq, IH.
      destruct (base !! k) as [[]|], v; cbn;
        rewrite ?lookup_insert_eq; reflexivity.
    + rewrite lookup_insert_ne by exact Hne. rewrite <- IH.
      destruct (result !! i) as [[]|], v; cbn;
        rewrite lookup_insert_ne by exact Hne; reflexivity.
Qed.

(** C8.  Key by key: a key of [base] alone keeps its value, a key of
    [override] alone takes the override's, a key holding a dict on both sides
    holds the merge of the two dicts, a key present on both sides with a
    non-dict on either side takes the override's value; the merged dict has
    no other keys, and merging with the empty override gives back [base]. *)
Theorem deep_merge_key_by_key (base override : gmap string config_manager.value) :
  (forall k, override !! k = None ->
             config_manager._deep_merge base override !! k = base !! k)
  /\ (forall k v, base !! k = None -> override !! k = Some v ->
                  config_manager._deep_merge base override !! k = Some v)
  /\ (forall k b o,
         base !! k = Some (config_manager.VDict b) ->
         override !! k = Some (config_manager.VDict o) ->
         config_manager._deep_merge base override !! k =
         Some (config_manager.VDict (config_manager._deep_merge b o)))
  /\ (forall k bv ov,
         base !! k = Some bv -> override !! k = Some ov ->
         config_manager.is_dict bv && config_manager.is_dict ov = false ->
         config_manager._deep_merge base override !! k = Some ov)
  /\ dom (config_manager._deep_merge base override) = dom base ∪ dom override
  /\ config_manager._deep_merge base ∅ = base.
Proof.
  split; [|split; [|split; [|split; [|split]]]].
  - intros k Ho. rewrite deep_merge_lookup, Ho. reflexivity.
  - intros k v Hb Ho. rewrite deep_merge_lookup, Hb, Ho. reflexivity.
  - intros k b o Hb Ho. rewrite deep_merge_lookup, Hb, Ho. reflexivity.
  - intros k bv ov Hb Ho Hd. rewrite deep_merge_lookup, Hb, Ho.
    destruct bv, ov; try reflexivity; discriminate.
  - apply set_eq. intros k.
    rewrite elem_of_union, !elem_of_dom, deep_merge_lookup.
    destruct (override !! k) as [v|], (base !! k) as [b|];
      rewrite ?is_Some_alt; tauto.
  - apply map_eq. intros k. rewrite deep_merge_lookup, lookup_empty.
    reflexivity.
Qed.

(** The cases of C8 on a base file and an environment override. *)
Lemma deep_merge_key_by_key_witness :
  let merged :=
    config_manager._deep_merge config_manager.demo_base
      config_manager.demo_override in
  merged !! "environment" = Some (config_manager.VStr "dev")
  /\ merged !! "aws_region" = Some (config_manager.VStr "eu-west-1")
  /\ merged !! "data" =
     Some (config_manager.VDict
             (config_manager._deep_merge
                {[ "format" := config_manager.VStr "csv";
                   "test_size" := config_manager.VFloat (2 # 10) ]}
                {[ "format" := config_manager.VStr "parquet" ]}))
  /\ merged !! "model" =
     Some (config_manager.VDict
             {[ "type" := config_manager.VStr "regression" ]}).
Proof.
  pose proof (deep_merge_key_by_key config_manager.demo_base
                config_manager.demo_override) as (H1 & H2 & H3 & H4 & _).
  cbn zeta. split; [|split; [|split]].
  - rewrite (H1 "environment") by reflexivity. reflexivity.
  - apply H2; reflexivity.
  - apply H3; reflexivity.
  - apply (H4 "model" (config_manager.VStr "placeholder")); reflexivity.
Defined.

(** ** The GitOps controller-health predicate *)

Lemma or_int_zero (x : option Z) : gitops_health.or_int x 0 = default 0%Z x.
Proof.
  destruct x as [n|]; cbn; [|reflexivity].
  destruct (n =? 0)%Z eqn:E; [|reflexivity].
  apply Z.eqb_eq in E. congruence.
Qed.

Lemma or_int_one (x : option Z) :
  gitops_health.or_int x 1 = gitops_health.desired_if_unset_or_zero x.
Proof. destruct x as [[|p|p]|]; reflexivity. Qed.

(** A watched condition whose status is not [True] ends the loop. *)
Lemma check_conditions_stop c cs :
  gitops_health.watched c -> gitops_health.cond_status c <> "True" ->
  gitops_health.check_conditions (c :: cs) =
  (false, gitops_health.reason_text (gitops_health.ConditionFailed 0 c)).
Proof.
  intros [Hw|Hw] Hs; cbn [gitops_health.check_conditions gitops_health.reason_text];
    destruct (String.eqb_spec (gitops_health.cond_status c) "True");
    try contradiction; rewrite Hw; reflexivity.
Qed.

(** Any other condition is passed over. *)
Lemma check_conditions_skip c cs :
  (gitops_health.watched c -> gitops_health.cond_status c = "True") ->
  gitops_health.check_conditions (c :: cs) = gitops_health.check_conditions cs.
Proof.
  intros H. unfold gitops_health.watched in H.
  cbn [gitops_health.check_conditions].
  repeat match goal with
         | |- context [String.eqb ?a ?b] => destruct (String.eqb_spec a b)
         end; cbn [andb negb]; try reflexivity; exfalso; tauto.
Qed.

(** The loop over the conditions stops at the first watched condition whose
    status is not [True], and reports it. *)
Lemma check_conditions_spec (cs : list gitops_health.V1DeploymentCondition) :
  (gitops_health.check_conditions cs = (true, "Healthy")
   /\ forall i c, cs !! i = Some c -> gitops_health.watched c ->
                  gitops_health.cond_status c = "True")
  \/ (exists i c,
         cs !! i = Some c /\ gitops_health.watched c
         /\ gitops_health.cond_status c <> "True"
         /\ (forall j c', (j < i)%nat -> cs !! j = Some c' ->
                          gitops_health.watched c' ->
                          gitops_health.cond_status c' = "True")
         /\ gitops_health.check_conditions cs =
            (false, gitops_health.reason_text
                      (gitops_health.ConditionFailed i c))).
Proof.
  induction cs as [|c cs IH].
  - left. split; [reflexivity|]. intros i c H. rewrite lookup_nil in H.
    discriminate.
  - destruct (decide (gitops_health.watched c
                      /\ gitops_health.cond_status c <> "True"))
      as [[Hw Hs]|Hc].
    + right. exists 0%nat, c. repeat split; auto.
      * intros j c' Hj. lia.
      * apply check_conditions_stop; assumption.
    + assert (Hc' : gitops_health.watched c ->
                    gitops_health.cond_status c = "True").
      { intros Hw.
        destruct (decide (gitops_health.cond_status c = "True")); tauto. }
      rewrite (check_conditions_skip c cs Hc').
      destruct IH as [[Hok Hall]|(i & c' & Hi & Hw & Hs & Hmin & Hres)].
      * left. split; [exact Hok|]. intros [|i] c0 H0.
        -- injection H0 as <-. exact Hc'.
        -- apply (Hall i c0 H0).
      * right. exists (S i), c'. repeat split; auto.
        intros [|j] c0 Hj H0.
        -- injection H0 as <-. exact Hc'.
        -- apply (Hmin j c0); [lia|exact H0].
Qed.

(** Inverts an assumed violation on a deployment whose status is known. *)
Ltac invert_violation H :=
  cbn in H;
  repeat match type of H with
         | ex _ => let x := fresh "x" in destruct H as [x H]
         | _ /\ _ => let H1 := fresh "Hv" in destruct H as [H1 H]
         end;
  repeat match goal with
         | Hv : Some _ = None |- _ => discriminate Hv
         | Hv : None = Some _ |- _ => discriminate Hv
         | Hv : Some ?a = Some ?b |- _ => injection Hv as <-
         | Hs : ?t = Some _, Hv : ?t = Some _ |- _ =>
             rewrite Hs in Hv; injection Hv as <-
         | Hs : ?t = Some _, Hv : ?t = None |- _ =>
             rewrite Hs in Hv; discriminate Hv
         end;
  subst.

(** The predicate, case by case: either it reports healthy and no failure
    condition holds, or it reports the failure condition of least rank. *)
Lemma check_deployment_health_cases
    (deployment : option gitops_health.V1Deployment) :
  let holds :=
    gitops_health.violates gitops_health.desired_if_unset_or_zero deployment in
  (gitops_health.check_deployment_health deployment = (true, "Healthy")
   /\ forall v, ~ holds v)
  \/ (exists v,
         holds v
         /\ gitops_health.check_deployment_health deployment =
            (false, gitops_health.reason_text v)
         /\ forall v', holds v' ->
                       (gitops_health.rank v <= gitops_health.rank v')%nat).
Proof.
  cbn zeta. destruct deployment as [d|].
  2:{ right. exists gitops_health.Absent. repeat split. intros v' _. cbn. lia. }
  unfold gitops_health.check_deployment_health.
  destruct (gitops_health.status d) as [st|] eqn:Hst.
  2:{ right. exists gitops_health.StatusUnreported. split; [|split].
      - exists d. auto.
      - reflexivity.
      - intros [] H; cbn; try lia. discriminate H. }
  cbn zeta. rewrite or_int_one, !or_int_zero.
  destruct (default 0 (gitops_health.ready_replicas st)
            <? gitops_health.desired_if_unset_or_zero
                 (gitops_health.replicas (gitops_health.spec d)))%Z eqn:Hr.
  { apply Z.ltb_lt in Hr. right.
    exists (gitops_health.ReplicasNotReady
              (default 0%Z (gitops_health.ready_replicas st))
              (gitops_health.desired_if_unset_or_zero
                 (gitops_health.replicas (gitops_health.spec d)))).
    split; [|split].
    - exists d, st. repeat split; auto.
    - reflexivity.
    - intros [] H; cbn; try lia; invert_violation H. }
  apply Z.ltb_ge in Hr.
  destruct (default 0 (gitops_health.available_replicas st)
            <? gitops_health.desired_if_unset_or_zero
                 (gitops_health.replicas (gitops_health.spec d)))%Z eqn:Ha.
  { apply Z.ltb_lt in Ha. right.
    exists (gitops_health.ReplicasNotAvailable
              (default 0%Z (gitops_health.available_replicas st))
              (gitops_health.desired_if_unset_or_zero
                 (gitops_health.replicas (gitops_health.spec d)))).
    split; [|split].
    - exists d, st. repeat split; auto.
    - reflexivity.
    - intros [] H; cbn; try lia; invert_violation H; lia. }
  apply Z.ltb_ge in Ha.
  assert (Hloop :
    (if py.truthy_list (gitops_health.conditions st)
     then gitops_health.check_conditions
            (default [] (gitops_health.conditions st))
     else (true, "Healthy" : string))
    = gitops_health.check_conditions
        (default [] (gitops_health.conditions st)))
    by (destruct (gitops_health.conditions st) as [[|c cs]|]; reflexivity).
  rewrite Hloop. clear Hloop.
  destruct (check_conditions_spec (default [] (gitops_health.conditions st)))
    as [[Hok Hall]|(i & c & Hi & Hw & Hs & Hmin & Hres)].
  - left. split; [exact Hok|].
    intros [] H; invert_violation H; try lia.
    apply H. eapply Hall; eauto.
  - right. exists (gitops_health.ConditionFailed i c). split; [|split].
    + exists d, st. repeat split; auto.
    + exact Hres.
    + intros [] H; invert_violation H; cbn; try lia.
      destruct (decide (index < i)%nat) as [Hlt|Hge]; [|lia].
      exfalso. apply H. eapply Hmin; eauto.
Qed.

(** C3 (amended).  With the desired count read as 1 when unset or zero, the
    predicate reports healthy exactly when no failure condition holds, and
    otherwise returns the reason of the first failure condition that does. *)
Theorem deployment_health_predicate
    (deployment : option gitops_health.V1Deployment) :
  let holds :=
    gitops_health.violates gitops_health.desired_if_unset_or_zero deployment in
  let verdict := gitops_health.check_deployment_health deployment in
  (fst verdict = true <-> forall v, ~ holds v)
  /\ (fst verdict = true -> snd verdict = "Healthy")
  /\ (fst verdict = false ->
      exists v, holds v /\ snd verdict = gitops_health.reason_text v
                /\ forall v', holds v' ->
                     (gitops_health.rank v <= gitops_health.rank v')%nat).
Proof.
  cbn zeta.
  destruct (check_deployment_health_cases deployment)
    as [[Hok Hnone]|(v & Hv & Hres & Hmin)].
  - rewrite Hok. cbn. repeat split; auto. discriminate.
  - rewrite Hres. cbn. split; [|split].
    + split; [discriminate|]. intros Hnone. destruct (Hnone v Hv).
    + discriminate.
    + intros _. exists v. auto.
Qed.

(** C3 on a deployment that is stalled: one replica ready and available, the
    [Progressing] condition false. *)
Lemma deployment_health_predicate_witness :
  exists v,
    gitops_health.violates gitops_health.desired_if_unset_or_zero
      (Some gitops_health.stalled) v
    /\ snd (gitops_health.check_deployment_health (Some gitops_health.stalled))
       = gitops_health.reason_text v
    /\ forall v',
         gitops_health.violates gitops_health.desired_if_unset_or_zero
           (Some gitops_health.stalled) v' ->
         (gitops_health.rank v <= gitops_health.rank v')%nat.
Proof.
  apply (proj2 (proj2 (deployment_health_predicate
                         (Some gitops_health.stalled)))).
  reflexivity.
Defined.

(** C3 as stated fails on a deployment scaled to zero: with the desired count
    read as the reported 0, no failure condition holds, yet the predicate
    answers unhealthy, counting 0 ready replicas against 1 desired. *)
Lemma scaled_to_zero_counterexample :
  (forall v, ~ gitops_health.violates gitops_health.desired_if_unset
                 (Some gitops_health.scaled_to_zero) v)
  /\ gitops_health.check_deployment_health (Some gitops_health.scaled_to_zero)
     = (false, "Not all replicas ready: 0/1").
Proof.
  split; [|reflexivity].
  intros [] H; invert_violation H; cbn in *; try discriminate;
    repeat match goal with
           | Hv : Some _ = Some _ |- _ => injection Hv as Hv; subst
           end; cbn in *; try lia.
  match goal with
  | Hv : [] !! _ = Some _ |- _ => rewrite lookup_nil in Hv; discriminate Hv
  end.
Qed.

(** ** Inference statistics *)

Lemma step_nonneg stats e :
  (0 <= inference_pipeline.total_predictions stats)%Z ->
  (0 <= inference_pipeline.total_predictions (inference_pipeline.step stats e))%Z.
Proof. destruct e; cbn; lia. Qed.

Lemma after_nonneg (events : list inference_pipeline.event) :
  (0 <= inference_pipeline.total_predictions (inference_pipeline.after events))%Z.
Proof.
  unfold inference_pipeline.after.
  assert (H : (0 <= inference_pipeline.total_predictions
                      inference_pipeline.zero_stats)%Z) by (cbn; lia).
  revert H. generalize inference_pipeline.zero_stats.
  induction events as [|e events IH]; intros stats H; [exact H|].
  cbn [fold_left]. apply IH, step_nonneg, H.
Qed.



(** ** The lightweight baseline monitor: drift detection *)

(** Entries of a frame or a series by their name. *)
Section named.
Context {A : Type}.
Implicit Types (l : list (string * A)) (c : string).

Lemma filter_name_nil l c :
  c ∉ map fst l -> filter (fun p => fst p = c) l = [].
Proof.
  induction l as [|[a x] l IH]; intros H; [reflexivity|].
  cbn [map fst] in H. apply not_elem_of_cons in H as [Hne H].
  rewrite filter_cons. cbn [fst]. destruct (decide (a = c)); [congruence|].
  apply IH, H.
Qed.

Lemma filter_name_length l c :
  length (filter (fun p => fst p = c) l) =
  length (filter (fun x => x = c) (map fst l)).
Proof.
  induction l as [|[a x] l IH]; [reflexivity|].
  cbn [map fst]. rewrite !filter_cons. cbn [fst].
  destruct (decide (a = c)); cbn [length]; rewrite IH; reflexivity.
Qed.

Lemma filter_name_nodup l c :
  NoDup (map fst l) -> (length (filter (fun p => fst p = c) l) <= 1)%nat.
Proof.
  induction l as [|[a x] l IH]; intros H; [cbn; lia|].
  cbn [map fst] in H. apply NoDup_cons in H as [Hnotin H].
  rewrite filter_cons. cbn [fst]. destruct (decide (a = c)) as [->|].
  - rewrite (filter_name_nil l c Hnotin). cbn. lia.
  - apply IH, H.
Qed.

Lemma filter_name_elem l c :
  c ∈ map fst l -> filter (fun p => fst p = c) l <> [].
Proof.
  intros H E. apply list_elem_of_fmap in H as (p & Hp & Hin).
  assert (Hf : p ∈ filter (fun q : string * A => q.1 = c) l).
  { apply list_elem_of_filter. split; [symmetry; exact Hp|exact Hin]. }
  rewrite E in Hf. apply elem_of_nil in Hf as [].
Qed.

Lemma filter_name_unique l c (a : A) :
  NoDup (map fst l) -> (c, a) ∈ l ->
  filter (fun p => fst p = c) l = [(c, a)].
Proof.
  induction l as [|[k x] l IH]; intros Hnd Hin.
  - apply elem_of_nil in Hin as [].
  - cbn [map fst] in Hnd. apply NoDup_cons in Hnd as [Hnotin Hnd].
    rewrite filter_cons. cbn [fst].
    apply elem_of_cons in Hin as [[= -> ->]|Hin].
    + rewrite decide_True by reflexivity.
      rewrite (filter_name_nil l k Hnotin). reflexivity.
    + rewrite decide_False; [apply IH; assumption|].
      intros ->. apply Hnotin. apply list_elem_of_fmap.
      exists (c, a). split; [reflexivity|exact Hin].
Qed.

Lemma filter_name_repeated l c (l1 l2 l3 : list string) :
  map fst l = l1 ++ c :: l2 ++ c :: l3 ->
  (2 <= length (filter (fun p => fst p = c) l))%nat.
Proof.
  intros H. rewrite filter_name_length, H.
  rewrite filter_app, filter_cons, decide_True by reflexivity.
  rewrite filter_app, filter_cons, decide_True by reflexivity.
  rewrite length_app. cbn [length]. rewrite length_app. cbn [length]. lia.
Qed.

End named.

Lemma item_unique series feature current_mean :
  NoDup (map fst series) -> (feature, current_mean) ∈ series ->
  utils_monitoring.item series feature = py.Return current_mean.
Proof.
  intros Hnd Hin. unfold utils_monitoring.item.
  rewrite (filter_name_unique series feature current_mean Hnd Hin).
  reflexivity.
Qed.

Lemma item_repeated series feature (l1 l2 l3 : list string) :
  map fst series = l1 ++ feature :: l2 ++ feature :: l3 ->
  utils_monitoring.item series feature =
  py.Raise (py.Error "TypeError"
              "cannot convert the series to <class 'float'>").
Proof.
  intros H. unfold utils_monitoring.item.
  pose proof (filter_name_repeated series feature l1 l2 l3 H) as Hlen.
  destruct (filter _ series) as [|[c0 x] [|p rest]];
    [cbn in Hlen; lia|cbn in Hlen; lia|reflexivity].
Qed.

(** A label of the index never raises [KeyError]. *)
Lemma item_label series feature :
  feature ∈ map fst series ->
  (exists x, utils_monitoring.item series feature = py.Return x)
  \/ utils_monitoring.item series feature =
     py.Raise (py.Error "TypeError"
                 "cannot convert the series to <class 'float'>").
Proof.
  intros H. unfold utils_monitoring.item.
  pose proof (filter_name_elem series feature H) as Hne.
  destruct (filter _ series) as [|[c0 x] [|p rest]].
  - congruence.
  - eauto.
  - right. reflexivity.
Qed.

(** One turn of the loop, by what the baseline holds for the feature. *)
Lemma drift_step_spec b t series detected features scores feature :
  utils_monitoring.drift_step b t series (detected, features, scores) feature =
  match utils_monitoring.feature_means b !! feature with
  | Some bm =>
      current_mean ← utils_monitoring.item series feature;
      let sc := utils_monitoring.score b feature current_mean bm in
      py.Return (if py.fgt sc t then true else detected,
                 if py.fgt sc t then features ++ [feature] else features,
                 <[feature := sc]> scores)
  | None => py.Return (detected, features, scores)
  end.
Proof.
  unfold utils_monitoring.drift_step.
  destruct (utils_monitoring.feature_means b !! feature); [|reflexivity].
  destruct (utils_monitoring.item series feature) as [cm|e]; [|reflexivity].
  cbn [mbind result_bind py.bind]. cbn zeta.
  destruct (py.fgt _ t); reflexivity.
Qed.

(** The loop invariant over a series of distinct labels: the loop returns,
    with the flag, the flagged features and the scores after the entries,
    from any starting triple. *)
Lemma drift_loop_spec b t series :
  NoDup (map fst series) ->
  forall entries,
    (forall e, e ∈ entries -> e ∈ series) ->
    forall detected features scores,
    exists out,
      utils_monitoring.drift_loop b t series (map fst entries)
        (detected, features, scores) = py.Return out
      /\ (out.1.1 = true <->
          detected = true
          \/ exists e, e ∈ entries /\ utils_monitoring.flagged b t e)
      /\ (forall f, f ∈ out.1.2 <->
                    f ∈ features
                    \/ exists cm, (f, cm) ∈ entries
                                  /\ utils_monitoring.flagged b t (f, cm))
      /\ (forall f, f ∉ entries.*1 -> out.2 !! f = scores !! f)
      /\ (NoDup entries.*1 ->
          forall f cm bm,
            (f, cm) ∈ entries ->
            utils_monitoring.feature_means b !! f = Some bm ->
            out.2 !! f = Some (utils_monitoring.score b f cm bm)).
Proof.
  intros Hseries.
  induction entries as [|[feature cm0] entries IH];
    intros Hsub detected features scores.
  - exists (detected, features, scores). split; [reflexivity|].
    cbn [fst snd]. split; [|split; [|split]].
    + split; [auto|]. intros [H|(e & He & _)]; [exact H|].
      apply elem_of_nil in He. destruct He.
    + intros f. split; [auto|]. intros [H|(cm & He & _)]; [exact H|].
      apply elem_of_nil in He. destruct He.
    + reflexivity.
    + intros _ f cm bm He. apply elem_of_nil in He. destruct He.
  - assert (Hsub' : forall e, e ∈ entries -> e ∈ series)
      by (intros e He; apply Hsub; right; exact He).
    specialize (IH Hsub').
    cbn [map fst utils_monitoring.drift_loop]. rewrite drift_step_spec.
    destruct (utils_monitoring.feature_means b !! feature) as [bm0|] eqn:Hb.
    + rewrite (item_unique series feature cm0 Hseries (Hsub _ ltac:(left))).
      cbn [mbind result_bind py.bind]. cbn zeta.
      assert (Hflag : utils_monitoring.flagged b t (feature, cm0) <->
                      py.fgt (utils_monitoring.score b feature cm0 bm0) t = true).
      { unfold utils_monitoring.flagged. cbn [fst snd]. rewrite Hb. split.
        - intros (bm & [= <-] & H). exact H.
        - intros H. exists bm0. auto. }
      destruct (py.fgt (utils_monitoring.score b feature cm0 bm0) t).
      * (* the feature is flagged *)
        assert (Hf0 : utils_monitoring.flagged b t (feature, cm0)) by (apply Hflag; reflexivity).
        clear Hflag.
        destruct (IH true (features ++ [feature])
                    (<[feature := utils_monitoring.score b feature cm0 bm0]>
                       scores)) as (out & Hout & IH1 & IH2 & IH3 & IH4).
        exists out. split; [exact Hout|].
        split; [|split; [|split]].
        -- rewrite IH1. split; intros _; [|left; reflexivity].
           right. exists (feature, cm0). split; [left|exact Hf0].
        -- intros f. rewrite IH2, elem_of_app, list_elem_of_singleton. split.
           ++ intros [[H| ->]|(cm & He & Hf)]; [left; exact H| |].
              ** right. exists cm0. split; [left|exact Hf0].
              ** right. exists cm. split; [right; exact He|exact Hf].
           ++ intros [H|(cm & He & Hf)]; [left; left; exact H|].
              apply elem_of_cons in He as [[= -> ->]|He];
                [left; right; reflexivity|right; exists cm; auto].
        -- intros f Hf. cbn in Hf. apply not_elem_of_cons in Hf as [Hne Hf].
           rewrite IH3 by exact Hf. apply lookup_insert_ne. congruence.
        -- intros Hnd f cm bm He Hbm. cbn in Hnd.
           apply NoDup_cons in Hnd as [Hnot Hnd].
           apply elem_of_cons in He as [[= -> ->]|He].
           ++ rewrite IH3 by exact Hnot. rewrite lookup_insert_eq.
              rewrite Hb in Hbm. injection Hbm as <-. reflexivity.
           ++ eapply IH4; eauto.
      * (* the feature is scored, not flagged *)
        assert (Hf0 : ~ utils_monitoring.flagged b t (feature, cm0))
          by (intros H; apply Hflag in H; discriminate).
        clear Hflag.
        destruct (IH detected features
                    (<[feature := utils_monitoring.score b feature cm0 bm0]>
                       scores)) as (out & Hout & IH1 & IH2 & IH3 & IH4).
        exists out. split; [exact Hout|].
        split; [|split; [|split]].
        -- rewrite IH1. split; (intros [H|(e & He & Hf)]; [left; exact H|]).
           ++ right. exists e. split; [right; exact He|exact Hf].
           ++ apply elem_of_cons in He as [->|He]; [contradiction|].
              right. exists e. auto.
        -- intros f. rewrite IH2.
           split; (intros [H|(cm & He & Hf)]; [left; exact H|]).
           ++ right. exists cm. split; [right; exact He|exact Hf].
           ++ apply elem_of_cons in He as [[= -> ->]|He]; [contradiction|].
              right. exists cm. auto.
        -- intros f Hf. cbn in Hf. apply not_elem_of_cons in Hf as [Hne Hf].
           rewrite IH3 by exact Hf. apply lookup_insert_ne. congruence.
        -- intros Hnd f cm bm He Hbm. cbn in Hnd.
           apply NoDup_cons in Hnd as [Hnot Hnd].
           apply elem_of_cons in He as [[= -> ->]|He].
           ++ rewrite IH3 by exact Hnot. rewrite lookup_insert_eq.
              rewrite Hb in Hbm. injection Hbm as <-. reflexivity.
           ++ eapply IH4; eauto.
    + (* the baseline does not know the feature *)
      cbn [mbind result_bind py.bind].
      assert (Hf0 : ~ utils_monitoring.flagged b t (feature, cm0)).
      { unfold utils_monitoring.flagged. cbn [fst snd]. rewrite Hb.
        intros (bm & H & _). discriminate. }
      destruct (IH detected features scores)
        as (out & Hout & IH1 & IH2 & IH3 & IH4).
      exists out. split; [exact Hout|].
      split; [|split; [|split]].
      * rewrite IH1. split; (intros [H|(e & He & Hf)]; [left; exact H|]).
        -- right. exists e. split; [right; exact He|exact Hf].
        -- apply elem_of_cons in He as [->|He]; [contradiction|].
           right. exists e. auto.
      * intros f. rewrite IH2.
        split; (intros [H|(cm & He & Hf)]; [left; exact H|]).
        -- right. exists cm. split; [right; exact He|exact Hf].
        -- apply elem_of_cons in He as [[= -> ->]|He]; [contradiction|].
           right. exists cm. auto.
      * intros f Hf. cbn in Hf. apply not_elem_of_cons in Hf as [Hne Hf].
        apply IH3. exact Hf.
      * intros Hnd f cm bm He Hbm. cbn in Hnd.
        apply NoDup_cons in Hnd as [Hnot Hnd].
        apply elem_of_cons in He as [[= -> ->]|He]; [congruence|].
        eapply IH4; eauto.
Qed.

(** A label that the baseline knows and that the index bears twice stops
    the loop with a [TypeError]. *)
Lemma drift_loop_repeated b t series feature :
  is_Some (utils_monitoring.feature_means b !! feature) ->
  utils_monitoring.item series feature =
  py.Raise (py.Error "TypeError"
              "cannot convert the series to <class 'float'>") ->
  forall index,
    (forall x, x ∈ index -> x ∈ map fst series) ->
    feature ∈ index ->
    forall acc,
      utils_monitoring.drift_loop b t series index acc =
      py.Raise (py.Error "TypeError"
                  "cannot convert the series to <class 'float'>").
Proof.
  intros [bm Hbm] Hraise. induction index as [|x index IH];
    intros Hknown Hin [[detected features] scores].
  - apply elem_of_nil in Hin as [].
  - cbn [utils_monitoring.drift_loop]. rewrite drift_step_spec.
    assert (Hknown' : forall y, y ∈ index -> y ∈ map fst series)
      by (intros y Hy; apply Hknown; right; exact Hy).
    destruct (utils_monitoring.feature_means b !! x) as [bx|] eqn:Hx.
    + destruct (item_label series x) as [[cm Hcm]|Hcm];
        [apply Hknown; left| |].
      * rewrite Hcm. cbn [mbind result_bind py.bind]. cbn zeta.
        apply elem_of_cons in Hin as [->|Hin]; [congruence|].
        apply IH; assumption.
      * rewrite Hcm. reflexivity.
    + cbn [mbind result_bind py.bind].
      apply elem_of_cons in Hin as [->|Hin]; [congruence|].
      apply IH; assumption.
Qed.

Lemma demo_monitor_baseline :
  utils_monitoring.baseline_stats utils_monitoring.demo_monitor
  = Some utils_monitoring.demo_baseline.
Proof. vm_compute. reflexivity. Qed.

Lemma after_calls_threshold (N : utils_monitoring.Numeric) name calls :
  utils_monitoring.drift_threshold (utils_monitoring.after_calls name calls)
  = 0.1%float.
Proof.
  unfold utils_monitoring.after_calls.
  assert (H : utils_monitoring.drift_threshold (utils_monitoring.__init__ name)
              = 0.1%float) by reflexivity.
  revert H. generalize (utils_monitoring.__init__ name).
  induction calls as [|c calls IH]; intros m Hm; [exact Hm|].
  cbn [fold_left]. apply IH. destruct c; exact Hm.
Qed.

Lemma divisor_nonzero b feature :
  py.feq (utils_monitoring.divisor b feature) 0 = false.
Proof.
  unfold utils_monitoring.divisor.
  destruct (py.feq (default 1%float
                      (utils_monitoring.feature_stds b !! feature)) 0) eqn:E.
  - reflexivity.
  - exact E.
Qed.

(** C6 (amended).  With a baseline set and a current dataset whose columns
    bear distinct names, each current feature the baseline knows is scored
    |current mean - baseline mean| over the baseline deviation in binary64,
    the deviation replaced by 1.0 when it equals zero or is missing (never a
    zero divisor; a deviation between 0 and 1, or a NaN one, is used as it
    is); a feature is flagged exactly when its score compares greater than
    the float 0.1, and the result is drifted exactly when a feature is
    flagged.  A current feature that the baseline knows and two columns bear
    makes [detect_drift] raise [TypeError].  With no baseline the result is
    not drifted. *)
Theorem drift_detection_by_score (N : utils_monitoring.Numeric) name calls
    (current_data : utils_monitoring.frame) :
  let self := utils_monitoring.after_calls name calls in
  let current_means := utils_monitoring.mean current_data in
  (utils_monitoring.baseline_stats self = None ->
   exists report,
     utils_monitoring.detect_drift self current_data = py.Return report
     /\ utils_monitoring.drift_detected report = false)
  /\ (forall b, utils_monitoring.baseline_stats self = Some b ->
      (forall feature,
          py.feq (utils_monitoring.divisor b feature) 0 = false
          /\ (forall s, utils_monitoring.feature_stds b !! feature = Some s ->
                        py.feq s 0 = false ->
                        utils_monitoring.divisor b feature = s)
          /\ (forall s, utils_monitoring.feature_stds b !! feature = Some s ->
                        py.feq s 0 = true ->
                        utils_monitoring.divisor b feature = 1%float)
          /\ (utils_monitoring.feature_stds b !! feature = None ->
              utils_monitoring.divisor b feature = 1%float))
      /\ (NoDup current_means.*1 ->
          exists report scores features,
            utils_monitoring.detect_drift self current_data
            = py.Return report
            /\ utils_monitoring.drift_scores report = Some scores
            /\ (forall feature current_mean baseline_mean,
                   (feature, current_mean) ∈ current_means ->
                   utils_monitoring.feature_means b !! feature
                     = Some baseline_mean ->
                   scores !! feature =
                   Some (PrimFloat.div
                           (PrimFloat.abs
                              (PrimFloat.sub current_mean baseline_mean))
                           (utils_monitoring.divisor b feature)))
            /\ utils_monitoring.drifted_features report = Some features
            /\ (forall feature,
                   feature ∈ features <->
                   exists current_mean,
                     (feature, current_mean) ∈ current_means
                     /\ utils_monitoring.flagged b 0.1
                          (feature, current_mean))
            /\ (utils_monitoring.drift_detected report = true <->
                exists feature, feature ∈ features))
      /\ (forall feature l1 l2 l3,
             current_means.*1 = l1 ++ feature :: l2 ++ feature :: l3 ->
             is_Some (utils_monitoring.feature_means b !! feature) ->
             utils_monitoring.detect_drift self current_data =
             py.Raise (py.Error "TypeError"
                         "cannot convert the series to <class 'float'>"))).
Proof.
  cbn zeta. split.
  - intros Hnone. unfold utils_monitoring.detect_drift. rewrite Hnone.
    eexists. split; reflexivity.
  - intros b Hb. split; [|split].
    + intros feature. split; [apply divisor_nonzero|].
      unfold utils_monitoring.divisor. split; [|split].
      * intros s -> Hs. cbn [default from_option id]. rewrite Hs.
        reflexivity.
      * intros s -> Hs. cbn [default from_option id]. rewrite Hs.
        reflexivity.
      * intros ->. reflexivity.
    + intros Hnd.
      unfold utils_monitoring.detect_drift. rewrite Hb, after_calls_threshold.
      cbn zeta.
      destruct (drift_loop_spec b 0.1 (utils_monitoring.mean current_data)
                  Hnd (utils_monitoring.mean current_data)
                  (fun e He => He) false [] ∅)
        as ([[detected features] scores] & Hout & H1 & H2 & _ & H4).
      rewrite Hout. cbn [mbind result_bind py.bind].
      cbn [fst snd] in *.
      eexists _, scores, features. split; [reflexivity|].
      cbn [utils_monitoring.drift_scores utils_monitoring.drifted_features
           utils_monitoring.drift_detected].
      split; [reflexivity|]. split; [exact (H4 Hnd)|].
      split; [reflexivity|]. split.
      * intros feature. rewrite H2. split; [|auto].
        intros [H|H]; [apply elem_of_nil in H; destruct H|exact H].
      * rewrite H1. split.
        -- intros [H|([f cm] & He & Hf)]; [discriminate|].
           exists f. apply H2. right. exists cm. auto.
        -- intros (f & Hf). apply H2 in Hf as [Hf|(cm & He & Hf)].
           ++ apply elem_of_nil in Hf. destruct Hf.
           ++ right. exists (f, cm). auto.
    + intros feature l1 l2 l3 Hrep Hknown.
      unfold utils_monitoring.detect_drift. rewrite Hb. cbn zeta.
      rewrite (drift_loop_repeated b _ (utils_monitoring.mean current_data)
                 feature Hknown
                 (item_repeated _ feature l1 l2 l3 Hrep)
                 (map fst (utils_monitoring.mean current_data))
                 (fun x Hx => Hx)); [reflexivity|].
      change (feature ∈ (utils_monitoring.mean current_data).*1).
      rewrite Hrep. apply elem_of_app. right. left.
Qed.

(** C6 on a baseline over [x] and [y] with deviation one half, and a current
    frame over [x] and [z]. *)
Lemma drift_detection_witness :
  exists report scores,
    @utils_monitoring.detect_drift utils_monitoring.demo_numeric
      utils_monitoring.demo_monitor utils_monitoring.demo_current
    = py.Return report
    /\ utils_monitoring.drift_scores report = Some scores
    /\ scores !! "x" =
       Some (PrimFloat.div (PrimFloat.abs (PrimFloat.sub 0.08 0))
               (utils_monitoring.divisor utils_monitoring.demo_baseline "x")).
Proof.
  destruct (proj1 (proj2 (proj2 (drift_detection_by_score
              utils_monitoring.demo_numeric "demo"
              [@utils_monitoring.SetBaseline utils_monitoring.demo_numeric "t0"
                 [("x", 0%float); ("y", 5%float)] [1%Q; 2%Q]]
              utils_monitoring.demo_current)
            utils_monitoring.demo_baseline demo_monitor_baseline))
            ltac:(repeat (apply NoDup_cons; split; [decide_elem|]);
                  apply NoDup_nil_2))
    as (report & scores & features & Hrun & Hscores & Hx & _).
  exists report, scores. split; [exact Hrun|]. split; [exact Hscores|].
  apply (Hx "x" 0.08%float 0%float).
  - left.
  - reflexivity.
Defined.

(** C6 as stated fails where the deviation lies between 0 and 1: with
    deviation 0.5, means 0 and 0.08, the feature is flagged (score 0.16),
    while the score with the deviation floored to 1.0 is 0.08, not above
    0.1. *)
Lemma floored_score_counterexample :
  exists report,
    @utils_monitoring.detect_drift utils_monitoring.demo_numeric
      utils_monitoring.demo_monitor utils_monitoring.demo_current
    = py.Return report
    /\ utils_monitoring.baseline_stats utils_monitoring.demo_monitor
       = Some utils_monitoring.demo_baseline
    /\ utils_monitoring.feature_stds utils_monitoring.demo_baseline !! "x"
       = Some 0.5%float
    /\ utils_monitoring.drift_detected report = true
    /\ utils_monitoring.drifted_features report = Some ["x"]
    /\ utils_monitoring.drift_scores report ≫= (.!! "x")
       = Some 0.16%float
    /\ utils_monitoring.floored_score utils_monitoring.demo_baseline "x"
         0.08 0 = 0.08%float
    /\ py.fgt 0.08 0.1 = false.
Proof.
  eexists. split; [vm_compute; reflexivity|].
  split; [exact demo_monitor_baseline|].
  split; [reflexivity|].
  split; [vm_compute; reflexivity|].
  split; [vm_compute; reflexivity|].
  split; [vm_compute; reflexivity|].
  split; vm_compute; reflexivity.
Qed.

(** ** The three-way split of the training pipeline *)

(** What a returned split looks like, and why a split may raise. *)
Lemma train_test_split_spec {row} (S : training_pipeline.Shuffle row)
    (rows : list row) (test_size : float) (stratify : bool) :
  match training_pipeline.train_test_split rows test_size stratify with
  | py.Return (train, test) =>
      Permutation (train ++ test) rows
      /\ length test = training_pipeline.taken test_size (length rows)
      /\ (length train + length test = length rows)%nat
      /\ training_pipeline.accepts test_size (length rows) = true
  | py.Raise _ =>
      stratify = true
      \/ training_pipeline.accepts test_size (length rows) = false
  end.
Proof.
  unfold training_pipeline.train_test_split, training_pipeline.accepts,
    training_pipeline.taken.
  destruct (py.fle test_size 0 || py.fge test_size 1); cbn [negb andb];
    [right; reflexivity|].
  destruct (training_pipeline.n_test_of test_size (length rows))
    as [n_test|e]; cbn; [|right; reflexivity].
  destruct (Z.of_nat (length rows) - n_test =? 0)%Z; cbn [negb];
    [right; reflexivity|].
  destruct (training_pipeline.order stratify (Z.to_nat n_test) rows)
    as [dealt|] eqn:Ho.
  - pose proof (training_pipeline.order_perm _ _ _ _ Ho) as Hp.
    pose proof (Permutation_length Hp) as Hlen.
    split; [|split; [|split]].
    + etransitivity; [apply Permutation_app_comm|].
      rewrite take_drop. exact Hp.
    + rewrite length_take. lia.
    + rewrite length_take, length_drop. lia.
    + reflexivity.
  - destruct stratify; [left; reflexivity|].
    destruct (training_pipeline.order_plain (Z.to_nat n_test) rows)
      as [d Hd].
    congruence.
Qed.

(** C7 (amended).  The test part has ceil(t n) rows and the validation part
    ceil(a m) rows, where a = v / (1 - t) and m is the number of rows left
    after the test part, every product and quotient being taken in binary64;
    a returned split is a partition of the rows (pairwise disjoint parts when
    the rows are distinct); without stratification the split is refused only
    when a fraction fails 0 < f < 1, 1 - t is zero, a ceiling does not exist,
    or a train part would be empty. *)
Theorem split_data_three_way {row} (S : training_pipeline.Shuffle row)
    (rows : list row) (kind : string) (t v : float) :
  let config :=
    {| training_pipeline.data :=
         {| training_pipeline.test_size := Some t;
            training_pipeline.validation_size := Some v |};
       training_pipeline.model_type := kind |} in
  let n := length rows in
  let adjusted := PrimFloat.div v (PrimFloat.sub 1 t) in
  match training_pipeline.split_data config rows with
  | py.Return (train, val, test) =>
      Permutation (train ++ val ++ test) rows
      /\ (NoDup rows ->
          (forall x, x ∈ train -> (x ∉ val) /\ (x ∉ test))
          /\ (forall x, x ∈ val -> x ∉ test))
      /\ training_pipeline.val_size_adjusted v t = py.Return adjusted
      /\ length test = training_pipeline.taken t n
      /\ length val = training_pipeline.taken adjusted (n - length test)
      /\ (length train + length val + length test = n)%nat
      /\ training_pipeline.accepts t n = true
      /\ training_pipeline.accepts adjusted (n - length test) = true
  | py.Raise _ =>
      kind = "classification"
      \/ training_pipeline.accepts t n = false
      \/ py.feq (PrimFloat.sub 1 t) 0 = true
      \/ training_pipeline.accepts adjusted
           (n - training_pipeline.taken t n) = false
  end.
Proof.
  cbn zeta.
  unfold training_pipeline.split_data. cbn [training_pipeline.data
    training_pipeline.test_size training_pipeline.validation_size
    training_pipeline.model_type default from_option id].
  set (stratify := String.eqb kind "classification").
  assert (Hstrat : stratify = true -> kind = "classification")
    by (apply String.eqb_eq).
  pose proof (train_test_split_spec S rows t stratify) as H1.
  destruct (training_pipeline.train_test_split rows t stratify)
    as [[temp test]|e1]; cbn.
  2:{ destruct H1 as [H1|H1];
      [left; apply Hstrat; exact H1|right; left; exact H1]. }
  destruct H1 as (Hp1 & Hl1 & Hs1 & Ha1).
  unfold training_pipeline.val_size_adjusted, py.fdiv.
  destruct (py.feq (PrimFloat.sub 1 t) 0) eqn:Hz; cbn;
    [right; right; left; exact Hz|].
  pose proof (train_test_split_spec S temp
                (PrimFloat.div v (PrimFloat.sub 1 t)) stratify) as H2.
  assert (Htemp : length temp = (length rows - length test)%nat) by lia.
  destruct (training_pipeline.train_test_split temp _ stratify)
    as [[train val]|e2]; cbn.
  2:{ destruct H2 as [H2|H2]; [left; apply Hstrat; exact H2|].
      right. right. right. rewrite <- Hl1, <- Htemp. exact H2. }
  destruct H2 as (Hp2 & Hl2 & Hs2 & Ha2).
  split; [|split; [|split; [|split; [|split; [|split; [|split]]]]]].
  - rewrite <- Hp1, <- Hp2. rewrite app_assoc. reflexivity.
  - intros Hnd.
    assert (Hnd' : NoDup ((train ++ val) ++ test))
      by (rewrite Hp2, Hp1; exact Hnd).
    apply NoDup_app in Hnd' as (Hnd1 & Hd1 & _).
    apply NoDup_app in Hnd1 as (_ & Hd2 & _).
    split.
    + intros x Hx. split; [apply Hd2; exact Hx|].
      apply Hd1. apply elem_of_app. left. exact Hx.
    + intros x Hx. apply Hd1. apply elem_of_app. right. exact Hx.
  - reflexivity.
  - exact Hl1.
  - rewrite Hl2, Htemp. reflexivity.
  - lia.
  - exact Ha1.
  - rewrite <- Htemp. exact Ha2.
Qed.

Lemma demo_split :
  @training_pipeline.split_data nat (training_pipeline.in_order nat)
    (training_pipeline.regression_config 0.2 0.1) (seq 0 10)
  = py.Return ([3; 4; 5; 6; 7; 8; 9], [2], [0; 1])%nat.
Proof. vm_compute. reflexivity. Qed.

(** C7 on ten rows dealt in order, with the default fractions 0.2 and 0.1:
    two test rows, one validation row, seven to train on. *)
Lemma split_data_three_way_witness :
  Permutation ([3; 4; 5; 6; 7; 8; 9] ++ [2] ++ [0; 1])%nat (seq 0 10)
  /\ training_pipeline.taken 0.2 10 = 2%nat
  /\ training_pipeline.taken (PrimFloat.div 0.1 (PrimFloat.sub 1 0.2)) 8
     = 1%nat.
Proof.
  pose proof (split_data_three_way (training_pipeline.in_order nat) (seq 0 10)
                "regression" 0.2 0.1) as H3.
  cbn zeta in H3.
  change (training_pipeline.split_data _ _) with
    (@training_pipeline.split_data nat (training_pipeline.in_order nat)
       (training_pipeline.regression_config 0.2 0.1) (seq 0 10))
    in H3.
  rewrite demo_split in H3.
  destruct H3 as (Hp & _ & _ & Ht & Hv & _).
  split; [exact Hp|]. split; [symmetry; exact Ht|symmetry; exact Hv].
Defined.

(** C7 as stated fails on seven rows: the validation part has one row, a
    share of 1/7 and not 0.1, and no whole number of rows out of seven is
    exactly a tenth of them.  On fifteen rows with fractions 0.4 and 0.2 the
    validation part has four rows, a whole row more than a fifth of
    fifteen: the adjusted fraction times nine is just above three in
    binary64. *)
Lemma validation_share_counterexample :
  @training_pipeline.split_data nat (training_pipeline.in_order nat)
    (training_pipeline.regression_config 0.2 0.1) (seq 0 7)
  = py.Return ([3; 4; 5; 6], [2], [0; 1])%nat
  /\ ~ (py.of_nat (length [2%nat]) / py.of_nat 7 == 1 # 10)%Q
  /\ (forall k : nat, ~ (py.of_nat k / py.of_nat 7 == 1 # 10)%Q)
  /\ @training_pipeline.split_data nat (training_pipeline.in_order nat)
       (training_pipeline.regression_config 0.4 0.2) (seq 0 15)
     = py.Return ([10; 11; 12; 13; 14], [6; 7; 8; 9], [0; 1; 2; 3; 4; 5])%nat.
Proof.
  split; [vm_compute; reflexivity|]. split; [|split].
  - intros H. vm_compute in H. discriminate.
  - intros k H. unfold py.of_nat, Qeq, Qdiv, Qmult, Qinv in H.
    change (Z.of_nat 7) with 7%Z in H. cbn in H. lia.
  - vm_compute. reflexivity.
Qed.

(* ===================================================================== *)
(** * Part III.  Further properties of the code                           *)
(* ===================================================================== *)

(** ** Binary64 numbers: comparisons and degenerate results *)

Lemma digits2_pos_bounds (m : positive) :
  (2 ^ (Zpos (digits2_pos m) - 1) <= Zpos m < 2 ^ Zpos (digits2_pos m))%Z.
Proof.
  induction m as [m IH|m IH|]; cbn [digits2_pos].
  - rewrite Pos2Z.inj_succ. replace (Z.succ (Zpos (digits2_pos m)) - 1)%Z
      with (Zpos (digits2_pos m)) by lia.
    rewrite Z.pow_succ_r by lia.
    replace (Zpos (digits2_pos m)) with (Z.succ (Zpos (digits2_pos m) - 1)) at 1
      by lia.
    rewrite Z.pow_succ_r by lia. lia.
  - rewrite Pos2Z.inj_succ. replace (Z.succ (Zpos (digits2_pos m)) - 1)%Z
      with (Zpos (digits2_pos m)) by lia.
    rewrite Z.pow_succ_r by lia.
    replace (Zpos (digits2_pos m)) with (Z.succ (Zpos (digits2_pos m) - 1)) at 1
      by lia.
    rewrite Z.pow_succ_r by lia. lia.
  - cbn. lia.
Qed.

(** The mantissa and exponent of a binary64 number: at most 53 bits, exactly
    53 above the least exponent. *)
Lemma bounded_spec (m : positive) (e : Z) :
  bounded prec emax m e = true ->
  (-1074 <= e <= 971)%Z
  /\ (Zpos m < 2 ^ 53)%Z
  /\ ((-1074 < e)%Z -> (2 ^ 52 <= Zpos m)%Z).
Proof.
  unfold bounded, canonical_mantissa, fexp, SpecFloat.emin, prec, emax.
  intros H. apply andb_prop in H as [H1 H2].
  apply Z.eqb_eq in H1. apply Z.leb_le in H2.
  pose proof (digits2_pos_bounds m) as [Hlo Hhi].
  set (d := Zpos (digits2_pos m)) in *.
  assert (Hd : (d <= 53)%Z) by lia.
  split; [lia|]. split.
  - eapply Z.lt_le_trans; [exact Hhi|]. apply Z.pow_le_mono_r; lia.
  - intros He. assert (d = 53%Z) as Hd53 by lia.
    rewrite Hd53 in Hlo. exact Hlo.
Qed.

Lemma scaled_units (m e : Z) :
  (-1074 <= e)%Z ->
  (py.scaled m e == Qmake (m * 2 ^ (e + 1074)) (Pos.pow 2 1074))%Q.
Proof.
  intros He. unfold Qeq. cbn [Qnum Qden].
  assert (HD : Zpos (Pos.pow 2 1074) = (2 ^ 1074)%Z)
    by (rewrite Pos2Z.inj_pow; reflexivity).
  rewrite HD. destruct e as [|p|p]; cbn [py.scaled inject_Z Qnum Qden].
  - rewrite Z.add_0_l. lia.
  - rewrite Z.pow_pos_fold, Z.pow_add_r by lia. lia.
  - rewrite Pos2Z.inj_pow.
    replace (2 ^ 1074)%Z with (2 ^ (Zneg p + 1074) * 2 ^ Zpos p)%Z.
    + change (Zpos 2) with 2%Z. lia.
    + rewrite <- Z.pow_add_r by lia. f_equal. lia.
Qed.

Lemma mul_compare_r (a b p : Z) :
  (0 < p)%Z -> (a * p ?= b * p)%Z = (a ?= b)%Z.
Proof.
  intros Hp. destruct (Z.compare_spec a b) as [H|H|H].
  - subst. apply Z.compare_refl.
  - apply Z.compare_lt_iff. nia.
  - apply Z.compare_gt_iff. nia.
Qed.

(** IEEE's comparison of two positive finite numbers, by exponent and then
    by mantissa, is the comparison of their values. *)
Lemma finite_compare (m1 : positive) (e1 : Z) (m2 : positive) (e2 : Z) :
  bounded prec emax m1 e1 = true ->
  bounded prec emax m2 e2 = true ->
  (py.scaled (Zpos m1) e1 ?= py.scaled (Zpos m2) e2)%Q =
  match (e1 ?= e2)%Z with
  | Eq => Pos.compare_cont Eq m1 m2
  | Lt => Lt
  | Gt => Gt
  end.
Proof.
  intros H1 H2.
  apply bounded_spec in H1 as ([Hl1 _] & Hm1 & Hn1).
  apply bounded_spec in H2 as ([Hl2 _] & Hm2 & Hn2).
  rewrite (Qcompare_comp _ _ (scaled_units _ _ Hl1) _ _ (scaled_units _ _ Hl2)).
  unfold Qcompare. cbn [Qnum Qden].
  rewrite mul_compare_r by reflexivity.
  set (a := (e1 + 1074)%Z). set (b := (e2 + 1074)%Z).
  assert (Ha : (0 <= a)%Z) by lia. assert (Hb : (0 <= b)%Z) by lia.
  assert (Hpa : (0 < 2 ^ a)%Z) by (apply Z.pow_pos_nonneg; lia).
  assert (Hpb : (0 < 2 ^ b)%Z) by (apply Z.pow_pos_nonneg; lia).
  change (2 ^ 53)%Z with (2 * 2 ^ 52)%Z in Hm1, Hm2.
  set (P := (2 ^ 52)%Z) in *.
  assert (HP : (0 < P)%Z) by reflexivity.
  destruct (Z.compare_spec e1 e2) as [He|He|He].
  - subst e2. subst b. fold a. rewrite mul_compare_r by exact Hpa.
    reflexivity.
  - apply Z.compare_lt_iff.
    assert (Hab : (2 * 2 ^ a <= 2 ^ b)%Z).
    { rewrite <- Z.pow_succ_r by lia. apply Z.pow_le_mono_r; lia. }
    specialize (Hn2 ltac:(lia)). nia.
  - apply Z.compare_gt_iff.
    assert (Hab : (2 * 2 ^ b <= 2 ^ a)%Z).
    { rewrite <- Z.pow_succ_r by lia. apply Z.pow_le_mono_r; lia. }
    specialize (Hn1 ltac:(lia)). nia.
Qed.

Lemma gt_compare (x y : Q) :
  py.gt x y = match (y ?= x)%Q with Lt => true | _ => false end.
Proof.
  unfold py.gt. destruct (Qle_bool x y) eqn:E.
  - apply Qle_bool_iff in E. cbn.
    destruct (Qcompare_spec y x) as [H|H|H]; try reflexivity. lra.
  - cbn. destruct (Qcompare_spec y x) as [H|H|H]; try reflexivity.
    + assert (Qle_bool x y = true) by (apply Qle_bool_iff; lra). congruence.
    + assert (Qle_bool x y = true) by (apply Qle_bool_iff; lra). congruence.
Qed.

Lemma scaled_pos (m : positive) (e : Z) :
  (-1074 <= e)%Z -> (0 < py.scaled (Zpos m) e)%Q.
Proof.
  intros He. rewrite (scaled_units _ _ He). unfold Qlt. cbn [Qnum Qden].
  assert (0 < 2 ^ (e + 1074))%Z by (apply Z.pow_pos_nonneg; lia). lia.
Qed.

Lemma scaled_neg (m : positive) (e : Z) :
  (-1074 <= e)%Z -> (py.scaled (Zneg m) e < 0)%Q.
Proof.
  intros He. rewrite (scaled_units _ _ He). unfold Qlt. cbn [Qnum Qden].
  assert (0 < 2 ^ (e + 1074))%Z by (apply Z.pow_pos_nonneg; lia). lia.
Qed.

Lemma scaled_below (m : positive) (e : Z) :
  bounded prec emax m e = true ->
  (py.scaled (Zpos m) e < inject_Z (Z.pow_pos 2 1024))%Q.
Proof.
  intros H. apply bounded_spec in H as ([Hl Hu] & Hm & _).
  rewrite (scaled_units _ _ Hl). unfold Qlt. cbn [Qnum Qden inject_Z].
  rewrite Z.pow_pos_fold. rewrite Pos2Z.inj_pow.
  change (Zpos 2) with 2%Z. change (Zpos 1074) with 1074%Z.
  change (Zpos 1024) with 1024%Z.
  rewrite Z.mul_1_r.
  assert (H1 : (2 ^ (e + 1074) <= 2 ^ (971 + 1074))%Z)
    by (apply Z.pow_le_mono_r; lia).
  assert (0 < 2 ^ (e + 1074))%Z by (apply Z.pow_pos_nonneg; lia).
  replace (2 ^ 1024 * 2 ^ 1074)%Z with (2 ^ 53 * 2 ^ (971 + 1074))%Z
    by (rewrite <- !Z.pow_add_r by lia; reflexivity).
  set (A := (2 ^ (971 + 1074))%Z) in *. set (B := (2 ^ (e + 1074))%Z) in *.
  set (C := (2 ^ 53)%Z) in *. nia.
Qed.

(** [x > k] on floats, for a positive finite [k], is [>] on the numbers
    that stand for them. *)
Lemma fgt_as_Q (x k : float) (mk : positive) (ek : Z) :
  Prim2SF k = S754_finite false mk ek ->
  py.fgt x k = py.gt (py.as_Q x) (py.as_Q k).
Proof.
  intros Hk. unfold py.fgt. rewrite FloatAxioms.ltb_spec, gt_compare.
  unfold py.as_Q. pose proof (FloatAxioms.Prim2SF_valid k) as Vk.
  pose proof (FloatAxioms.Prim2SF_valid x) as Vx.
  rewrite Hk in *. cbn [SpecFloat.valid_binary] in Vk.
  pose proof (bounded_spec _ _ Vk) as ([Hlk _] & _ & _).
  pose proof (scaled_pos mk ek Hlk) as Hpos.
  pose proof (scaled_below mk ek Vk) as Hbel.
  destruct (Prim2SF x) as [s|s| |s m e]; cbn [SFltb SFcompare].
  - destruct (Qcompare_spec (py.scaled (Zpos mk) ek) 0) as [H|H|H];
      try reflexivity; lra.
  - destruct s.
    + destruct (Qcompare_spec (py.scaled (Zpos mk) ek)
                  (inject_Z (- Z.pow_pos 2 1024))) as [H|H|H];
        try reflexivity.
      assert (inject_Z (- Z.pow_pos 2 1024) < 0)%Q by reflexivity. lra.
    + destruct (Qcompare_spec (py.scaled (Zpos mk) ek)
                  (inject_Z (Z.pow_pos 2 1024))) as [H|H|H];
        try reflexivity; lra.
  - destruct (Qcompare_spec (py.scaled (Zpos mk) ek) 0) as [H|H|H];
      try reflexivity; lra.
  - cbn [SpecFloat.valid_binary] in Vx.
    pose proof (bounded_spec _ _ Vx) as ([Hlx _] & _ & _).
    destruct s.
    + pose proof (scaled_neg m e Hlx).
      destruct (Qcompare_spec (py.scaled (Zpos mk) ek) (py.scaled (Zneg m) e))
        as [H'|H'|H']; try reflexivity; lra.
    + rewrite (finite_compare _ _ _ _ Vk Vx).
      destruct (ek ?= e)%Z; reflexivity.
Qed.

Lemma gt_proper (x y y' : Q) : (y == y')%Q -> py.gt x y = py.gt x y'.
Proof.
  intros H. rewrite !gt_compare.
  rewrite (Qcompare_comp _ _ H x x (Qeq_refl x)). reflexivity.
Qed.

(** The thresholds of the health policy decide alike on a float and on the
    number kept for it. *)
Lemma as_Q_gt_20 (x : float) : py.gt (py.as_Q x) 20 = py.fgt x 20.
Proof.
  erewrite (fgt_as_Q x 20) by (vm_compute; reflexivity).
  apply gt_proper. vm_compute. reflexivity.
Qed.

Lemma as_Q_gt_10 (x : float) : py.gt (py.as_Q x) 10 = py.fgt x 10.
Proof.
  erewrite (fgt_as_Q x 10) by (vm_compute; reflexivity).
  apply gt_proper. vm_compute. reflexivity.
Qed.

Lemma sub_self_zero_or_nan (x : float) : py.zero_or_nan (PrimFloat.sub x x).
Proof.
  unfold py.zero_or_nan. rewrite FloatAxioms.sub_spec.
  destruct (Prim2SF x) as [[]|[]| |s m e]; cbn; try exact I.
  unfold SF64sub, SFsub. rewrite Z.sub_diag. exact I.
Qed.

Lemma abs_zero_or_nan (x : float) :
  py.zero_or_nan x -> py.zero_or_nan (PrimFloat.abs x).
Proof.
  unfold py.zero_or_nan. rewrite FloatAxioms.abs_spec.
  destruct (Prim2SF x); cbn; auto.
Qed.

Lemma div_zero_or_nan (x y : float) :
  py.zero_or_nan x -> py.zero_or_nan (PrimFloat.div x y).
Proof.
  unfold py.zero_or_nan. rewrite FloatAxioms.div_spec.
  destruct (Prim2SF x); cbn; try contradiction; intros _; [|exact I].
  destruct (Prim2SF y); exact I.
Qed.

Lemma mul_zero_or_nan (x y : float) :
  py.zero_or_nan x -> py.zero_or_nan (PrimFloat.mul x y).
Proof.
  unfold py.zero_or_nan. rewrite FloatAxioms.mul_spec.
  destruct (Prim2SF x); cbn; try contradiction; intros _; [|exact I].
  destruct (Prim2SF y); exact I.
Qed.

(** A zero or NaN is above no threshold from 0 up. *)
Lemma zero_or_nan_below (x threshold : float) :
  py.zero_or_nan x -> py.fge threshold 0 = true ->
  py.fgt x threshold = false.
Proof.
  unfold py.zero_or_nan, py.fgt, py.fge.
  rewrite FloatAxioms.ltb_spec, FloatAxioms.leb_spec.
  change (Prim2SF 0) with (S754_zero false).
  destruct (Prim2SF x); try contradiction; intros _;
    destruct (Prim2SF threshold) as [ | [] | | [] ? ?]; cbn;
    try reflexivity; discriminate.
Qed.

Lemma zero_or_nan_not_above (x : float) :
  py.zero_or_nan x ->
  py.fgt x 0.1 = false /\ (py.feq x 0 = true \/ py.feq x x = false).
Proof.
  intros H. split; [apply zero_or_nan_below; [exact H|reflexivity]|].
  revert H. unfold py.zero_or_nan, py.feq.
  rewrite !FloatAxioms.eqb_spec.
  change (Prim2SF 0) with (S754_zero false).
  destruct (Prim2SF x); cbn; try contradiction; auto.
Qed.

(** ** The statistical monitor: degradation, construction, export *)

Lemma calc_degradation_equal_scores (score : float) :
  py.zero_or_nan (model_monitor._calc_degradation score score).
Proof.
  unfold model_monitor._calc_degradation.
  destruct (py.feq score 0); [exact I|].
  apply mul_zero_or_nan, div_zero_or_nan, sub_self_zero_or_nan.
Qed.

(** X1.  [_calc_degradation] on binary64 scores.  A zero reference, of
    either sign, gives 0.0; otherwise the result is the rounded quotient of
    the rounded difference, times 100 and rounded again; a current score
    equal to the reference gives a zero or NaN, which is above no threshold
    from 0 up; and the three roundings decide at the boundary: a reference of
    0.53846153846153844 with a current score of 0.43076923076923074, which is
    less than 80% of it, gives exactly 20.0 and so is not above 20. *)
Theorem degradation_in_binary64 :
  (forall ref curr, py.feq ref 0 = true ->
      model_monitor._calc_degradation ref curr = 0%float)
  /\ (forall ref curr, py.feq ref 0 = false ->
         model_monitor._calc_degradation ref curr =
         PrimFloat.mul (PrimFloat.div (PrimFloat.sub ref curr) ref) 100)
  /\ (forall score threshold, py.fge threshold 0 = true ->
         py.fgt (model_monitor._calc_degradation score score) threshold
         = false)
  /\ (model_monitor._calc_degradation
        0.53846153846153844%float 0.43076923076923074%float = 20%float
      /\ (py.as_Q 0.43076923076923074%float
          < (8 # 10) * py.as_Q 0.53846153846153844%float)%Q).
Proof.
  split; [|split; [|split; [|split]]].
  - intros ref curr H. unfold model_monitor._calc_degradation.
    rewrite H. reflexivity.
  - intros ref curr H. unfold model_monitor._calc_degradation.
    rewrite H. reflexivity.
  - intros score threshold H.
    apply zero_or_nan_below; [apply calc_degradation_equal_scores|exact H].
  - vm_compute. reflexivity.
  - vm_compute. reflexivity.
Qed.

(** X2.  A monitoring run with the performance block, on data without
    dataset drift: the health status follows the binary64 degradation of the
    two scores the engine reports (0 standing for a missing one): critical
    exactly when it is above 20, a warning when it is above 10 and not above
    20, healthy otherwise, as when it is NaN; and equal scores are always
    healthy. *)
Theorem health_by_degradation (E : model_monitor.Evidently)
    (self : model_monitor.ModelMonitor) (now : string)
    (current_data : dataframe) (d : model_monitor.drift_results)
    (r c : option float) :
  model_monitor.detect_data_drift (model_monitor.reference_data self)
    current_data (Some (model_monitor.feature_columns self)) = py.Return d ->
  default false (model_monitor.dataset_drift d) = false ->
  has_column current_data (model_monitor.target_column self) = true ->
  model_monitor.quality_scores (model_monitor.mm_model_type self)
    (model_monitor.reference_data self) current_data
  = py.Return (r, c) ->
  let degradation :=
    model_monitor._calc_degradation (default 0%float r) (default 0%float c) in
  exists results self',
    model_monitor.run_monitoring self now current_data true
    = py.Return (results, self')
    /\ (model_monitor.health_status results = Some "critical" <->
        py.fgt degradation 20 = true)
    /\ (model_monitor.health_status results = Some "warning" <->
        py.fgt degradation 20 = false /\ py.fgt degradation 10 = true)
    /\ (model_monitor.health_status results = Some "healthy" <->
        py.fgt degradation 10 = false)
    /\ (r = c -> model_monitor.health_status results = Some "healthy").
Proof.
  intros Hd Hnodrift Hcol Hq degradation.
  assert (Hmono : py.fgt degradation 20 = true -> py.fgt degradation 10 = true).
  { rewrite <- as_Q_gt_20, <- as_Q_gt_10, !gt_iff. lra. }
  assert (Hsame : r = c -> py.fgt degradation 10 = false).
  { intros <-. apply zero_or_nan_below; [|reflexivity].
    apply calc_degradation_equal_scores. }
  unfold model_monitor.run_monitoring. rewrite Hd. cbn.
  rewrite Hcol. unfold model_monitor._check_model_performance. rewrite Hq. cbn.
  eexists _, _. split; [reflexivity|]. cbn.
  unfold model_monitor._determine_health.
  cbn [model_monitor.data_drift model_monitor.model_performance mbind
       option_bind model_monitor.performance_degradation default from_option
       id].
  rewrite Hnodrift. fold degradation.
  rewrite as_Q_gt_20, as_Q_gt_10. unfold py.fgt in *.
  destruct (PrimFloat.ltb 20 degradation) eqn:E20;
    destruct (PrimFloat.ltb 10 degradation) eqn:E10;
    try (specialize (Hmono eq_refl); discriminate).
  all: repeat split; intros; try discriminate; try reflexivity.
  all: try (match goal with H : _ /\ _ |- _ => destruct H end; discriminate).
  all: match goal with H : ?r = ?c |- _ => specialize (Hsame H) end;
    discriminate.
Qed.

(** X2 at the boundary: an engine reporting a reference score of
    0.53846153846153844 and a current score of 0.43076923076923074, a
    degradation of exactly 20.0, makes the run a warning. *)
Lemma health_by_degradation_witness :
  exists results self',
    @model_monitor.run_monitoring
      {| model_monitor.detect_data_drift :=
           @model_monitor.detect_data_drift monitoring_service.demo_engine;
         model_monitor.quality_scores := fun _ _ _ =>
           py.Return (Some 0.53846153846153844%float,
                      Some 0.43076923076923074%float) |}
      model_monitor.demo_monitor "now" model_monitor.demo_reference true
    = py.Return (results, self')
    /\ model_monitor.health_status results = Some "warning".
Proof.
  destruct (health_by_degradation
              {| model_monitor.detect_data_drift :=
                   @model_monitor.detect_data_drift
                     monitoring_service.demo_engine;
                 model_monitor.quality_scores := fun _ _ _ =>
                   py.Return (Some 0.53846153846153844%float,
                              Some 0.43076923076923074%float) |}
              model_monitor.demo_monitor
              "now" model_monitor.demo_reference
              {| model_monitor.dataset_drift := Some false;
                 model_monitor.drift_share := Some 0%Q;
                 model_monitor.drifted_columns := [] |}
              (Some 0.53846153846153844%float)
              (Some 0.43076923076923074%float)
              eq_refl eq_refl eq_refl eq_refl)
    as (results & self' & Hrun & _ & Hwarning & _).
  exists results, self'. split; [exact Hrun|].
  apply Hwarning. vm_compute. split; reflexivity.
Defined.

Lemma dtype_of_known (df : dataframe) (c : string) :
  NoDup (column_names df) -> c ∈ column_names df ->
  exists dt, model_monitor.dtype_of df c = py.Return dt.
Proof.
  unfold model_monitor.dtype_of, column_names. intros Hnd H.
  pose proof (filter_name_nodup (df_columns df) c Hnd) as Hle.
  pose proof (filter_name_elem (df_columns df) c H) as Hne.
  destruct (filter _ (df_columns df)) as [|[c0 dt] [|p rest]].
  - congruence.
  - eauto.
  - cbn in Hle. lia.
Qed.

Lemma dtype_of_unknown (df : dataframe) (c : string) :
  c ∉ column_names df ->
  model_monitor.dtype_of df c = py.Raise (py.Error "KeyError" c).
Proof.
  unfold model_monitor.dtype_of, column_names. intros H.
  rewrite (filter_name_nil _ _ H). reflexivity.
Qed.

(** A name that the frame has never raises [KeyError]. *)
Lemma dtype_of_column (df : dataframe) (c : string) :
  c ∈ column_names df ->
  (exists dt, model_monitor.dtype_of df c = py.Return dt)
  \/ model_monitor.dtype_of df c =
     py.Raise (py.Error "AttributeError"
                 "'DataFrame' object has no attribute 'dtype'").
Proof.
  unfold model_monitor.dtype_of, column_names. intros H.
  pose proof (filter_name_elem (df_columns df) c H) as Hne.
  destruct (filter _ (df_columns df)) as [|[c0 dt] [|p rest]].
  - congruence.
  - eauto.
  - right. reflexivity.
Qed.

Lemma dtype_of_repeated (df : dataframe) (c : string)
    (l1 l2 l3 : list string) :
  column_names df = l1 ++ c :: l2 ++ c :: l3 ->
  model_monitor.dtype_of df c =
  py.Raise (py.Error "AttributeError"
              "'DataFrame' object has no attribute 'dtype'").
Proof.
  unfold model_monitor.dtype_of, column_names. intros H.
  pose proof (filter_name_length (df_columns df) c) as Hlen.
  rewrite H in Hlen.
  rewrite filter_app, filter_cons, decide_True in Hlen by reflexivity.
  rewrite filter_app, filter_cons, decide_True in Hlen by reflexivity.
  rewrite length_app in Hlen. cbn [length] in Hlen.
  rewrite length_app in Hlen. cbn [length] in Hlen.
  destruct (filter _ (df_columns df)) as [|[c0 dt] [|p rest]];
    [cbn in Hlen; lia|cbn in Hlen; lia|reflexivity].
Qed.

(** Selecting by dtype keeps a sublist of known columns, and stops at the
    first unknown one. *)
Lemma select_by_dtype_known (df : dataframe) (dtypes cols : list string) :
  NoDup (column_names df) ->
  (forall c, c ∈ cols -> c ∈ column_names df) ->
  exists kept, model_monitor.select_by_dtype df dtypes cols = py.Return kept
               /\ forall c, c ∈ kept -> c ∈ cols.
Proof.
  intros Hnd. induction cols as [|c cols IH]; intros H.
  - exists []. split; [reflexivity|]. intros c Hc. exact Hc.
  - destruct (dtype_of_known df c Hnd) as [dt Hdt]; [apply H; left|].
    destruct IH as (kept & Hk & Hsub); [intros x Hx; apply H; right; exact Hx|].
    cbn [model_monitor.select_by_dtype]. rewrite Hdt. cbn. rewrite Hk. cbn.
    destruct (bool_decide (dt ∈ dtypes)).
    + exists (c :: kept). split; [reflexivity|]. intros x Hx.
      apply elem_of_cons in Hx as [->|Hx]; [left|right; apply Hsub; exact Hx].
    + exists kept. split; [reflexivity|]. intros x Hx. right. apply Hsub, Hx.
Qed.

Lemma select_by_dtype_unknown (df : dataframe) (dtypes : list string)
    (before : list string) (c : string) (after : list string) :
  NoDup (column_names df) ->
  (forall x, x ∈ before -> x ∈ column_names df) ->
  c ∉ column_names df ->
  model_monitor.select_by_dtype df dtypes (before ++ c :: after)
  = py.Raise (py.Error "KeyError" c).
Proof.
  intros Hnd Hb Hc. induction before as [|x before IH].
  - cbn. rewrite (dtype_of_unknown df c Hc). reflexivity.
  - destruct (dtype_of_known df x Hnd) as [dt Hdt]; [apply Hb; left|].
    cbn [app model_monitor.select_by_dtype]. rewrite Hdt. cbn.
    rewrite IH; [reflexivity|]. intros y Hy. apply Hb. right. exact Hy.
Qed.

(** Among columns of the frame, one whose name is repeated makes the
    selection raise [AttributeError]. *)
Lemma select_by_dtype_repeated (df : dataframe) (dtypes cols : list string)
    (c : string) :
  (forall x, x ∈ cols -> x ∈ column_names df) ->
  c ∈ cols ->
  model_monitor.dtype_of df c =
  py.Raise (py.Error "AttributeError"
              "'DataFrame' object has no attribute 'dtype'") ->
  model_monitor.select_by_dtype df dtypes cols =
  py.Raise (py.Error "AttributeError"
              "'DataFrame' object has no attribute 'dtype'").
Proof.
  intros Hknown Hc Hraise. induction cols as [|x cols IH].
  - apply elem_of_nil in Hc as [].
  - cbn [model_monitor.select_by_dtype].
    destruct (dtype_of_column df x) as [[dt Hdt]|Hdt]; [apply Hknown; left| |].
    + rewrite Hdt. cbn. apply elem_of_cons in Hc as [->|Hc]; [congruence|].
      rewrite IH; [reflexivity| |exact Hc].
      intros y Hy. apply Hknown. right. exact Hy.
    + rewrite Hdt. reflexivity.
Qed.

(** X3.  Constructing a monitor over a reference frame.  When the frame's
    column names are distinct: without an explicit feature list the features
    are the reference columns other than the target and the prediction, and
    the constructor returns; with an explicit non-empty list of reference
    columns it returns with that list; an explicit list naming a column the
    reference data lacks raises [KeyError] for the first such column.  When
    no feature list is given and a column other than the target and the
    prediction bears a name twice, the constructor raises [AttributeError].
    Whenever it returns, the dtype sub-lists hold features only, and the
    history starts empty. *)
Theorem monitor_construction (reference : dataframe)
    (kind target prediction : string) (features : option (list string))
    (threshold : Q) :
  let made :=
    model_monitor.__init__ reference kind target prediction features
      threshold in
  (NoDup (column_names reference) ->
   py.truthy_list features = false ->
   exists m, made = py.Return m
     /\ model_monitor.feature_columns m =
        filter (fun c => c ≠ target ∧ c ≠ prediction)
          (column_names reference)
     /\ (target ∉ model_monitor.feature_columns m)
     /\ (prediction ∉ model_monitor.feature_columns m))
  /\ (NoDup (column_names reference) ->
      py.truthy_list features = true ->
      (forall c, c ∈ default [] features -> c ∈ column_names reference) ->
      exists m, made = py.Return m
        /\ model_monitor.feature_columns m = default [] features)
  /\ (forall before c after,
         NoDup (column_names reference) ->
         features = Some (before ++ c :: after) ->
         (forall x, x ∈ before -> x ∈ column_names reference) ->
         c ∉ column_names reference ->
         made = py.Raise (py.Error "KeyError" c))
  /\ (forall c l1 l2 l3,
         py.truthy_list features = false ->
         column_names reference = l1 ++ c :: l2 ++ c :: l3 ->
         c <> target -> c <> prediction ->
         made = py.Raise (py.Error "AttributeError"
                            "'DataFrame' object has no attribute 'dtype'"))
  /\ (forall m, made = py.Return m ->
        model_monitor._monitoring_history m = []
        /\ forall c, c ∈ model_monitor.numerical_features m
                     \/ c ∈ model_monitor.categorical_features m ->
                     c ∈ model_monitor.feature_columns m).
Proof.
  cbn zeta. unfold model_monitor.__init__.
  split; [|split; [|split; [|split]]].
  - intros Hnd Hf. rewrite Hf.
    set (cols := filter _ (column_names reference)).
    assert (Hknown : forall c, c ∈ cols -> c ∈ column_names reference).
    { intros c Hc. apply list_elem_of_filter in Hc as [_ Hc]. exact Hc. }
    destruct (select_by_dtype_known reference ["int64"; "float64"] cols
                Hnd Hknown) as (num & -> & _).
    destruct (select_by_dtype_known reference ["object"] cols Hnd Hknown)
      as (cat & -> & _).
    cbn. eexists. split; [reflexivity|]. cbn. split; [reflexivity|].
    split; intros H; apply list_elem_of_filter in H as [[H1 H2] _]; congruence.
  - intros Hnd Hf Hknown. rewrite Hf.
    destruct (select_by_dtype_known reference ["int64"; "float64"]
                (default [] features) Hnd Hknown) as (num & -> & _).
    destruct (select_by_dtype_known reference ["object"]
                (default [] features) Hnd Hknown) as (cat & -> & _).
    cbn. eexists. split; reflexivity.
  - intros before c after Hnd -> Hb Hc.
    replace (py.truthy_list (Some (before ++ c :: after))) with true
      by (destruct before; reflexivity).
    cbn [default from_option id].
    rewrite !(select_by_dtype_unknown reference _ before c after Hnd Hb Hc).
    reflexivity.
  - intros c l1 l2 l3 Hf Hcols Hct Hcp. rewrite Hf.
    set (cols := filter _ (column_names reference)).
    assert (Hknown : forall x, x ∈ cols -> x ∈ column_names reference).
    { intros x Hx. apply list_elem_of_filter in Hx as [_ Hx]. exact Hx. }
    assert (Hc : c ∈ cols).
    { apply list_elem_of_filter. split; [split; assumption|].
      rewrite Hcols. apply elem_of_app. right. left. }
    rewrite (select_by_dtype_repeated reference ["int64"; "float64"] cols c
               Hknown Hc (dtype_of_repeated reference c l1 l2 l3 Hcols)).
    reflexivity.
  - intros m.
    set (cols := if py.truthy_list features then default [] features
                 else filter _ (column_names reference)).
    destruct (model_monitor.select_by_dtype reference ["int64"; "float64"] cols)
      as [num|e] eqn:En; cbn; [|discriminate].
    destruct (model_monitor.select_by_dtype reference ["object"] cols)
      as [cat|e] eqn:Ec; cbn; [|discriminate].
    intros [= <-]. cbn. split; [reflexivity|].
    assert (Hsub : forall dts kept,
               model_monitor.select_by_dtype reference dts cols
               = py.Return kept -> forall c, c ∈ kept -> c ∈ cols).
    { intros dts. clear. induction cols as [|x cols IH]; intros kept.
      - cbn. intros [= <-] c Hc. exact Hc.
      - cbn [model_monitor.select_by_dtype].
        destruct (model_monitor.dtype_of reference x) as [dt|]; cbn;
          [|discriminate].
        destruct (model_monitor.select_by_dtype reference dts cols)
          as [rest|]; cbn; [|discriminate].
        intros [= <-] c Hc. destruct (bool_decide (dt ∈ dts)).
        + apply elem_of_cons in Hc as [->|Hc]; [left|right; eapply IH; eauto].
        + right. eapply IH; eauto. }
    intros c [Hc|Hc];
      [exact (Hsub _ num En c Hc)|exact (Hsub _ cat Ec c Hc)].
Qed.

(** X3 on the example reference frame: the default features are [x] and
    [y], and asking for a column [z] raises; and a frame with two columns
    [x] cannot be monitored. *)
Lemma monitor_construction_witness :
  (exists m,
      model_monitor.__init__ model_monitor.demo_reference "classification"
        "target" "prediction" None (5 # 100) = py.Return m
      /\ model_monitor.feature_columns m = ["x"; "y"])
  /\ model_monitor.__init__ model_monitor.demo_reference "classification"
       "target" "prediction" (Some ["x"; "z"; "y"]) (5 # 100)
     = py.Raise (py.Error "KeyError" "z")
  /\ model_monitor.__init__
       {| df_columns := [("x", "float64"); ("x", "float64");
                         ("target", "int64")];
          df_len := 3 |}
       "classification" "target" "prediction" None (5 # 100)
     = py.Raise (py.Error "AttributeError"
                   "'DataFrame' object has no attribute 'dtype'").
Proof.
  assert (Hnd : NoDup (column_names model_monitor.demo_reference)).
  { unfold column_names. cbn. repeat constructor; decide_elem. }
  split; [|split].
  - destruct (proj1 (monitor_construction model_monitor.demo_reference
                       "classification" "target" "prediction" None (5 # 100))
                Hnd eq_refl) as (m & Hm & Hf & _).
    exists m. split; [exact Hm|]. rewrite Hf. vm_compute. reflexivity.
  - apply (proj1 (proj2 (proj2 (monitor_construction
              model_monitor.demo_reference "classification" "target"
              "prediction" (Some ["x"; "z"; "y"]) (5 # 100))))
             ["x"] "z" ["y"] Hnd eq_refl).
    + intros x Hx. rewrite elem_of_cons, elem_of_nil in Hx.
      destruct Hx as [->|[]]. left.
    + unfold column_names. cbn. decide_elem.
  - apply (proj1 (proj2 (proj2 (proj2 (monitor_construction
              {| df_columns := [("x", "float64"); ("x", "float64");
                                ("target", "int64")];
                 df_len := 3 |}
              "classification" "target" "prediction" None (5 # 100)))))
             "x" [] [] ["target"] eq_refl eq_refl);
      discriminate.
Defined.

(** X4.  [export_metrics_json] raises [ValueError] on a monitor that has no
    history, and after a returning [run_monitoring] it writes exactly the
    result of that run to the given path. *)
Theorem export_writes_latest_run :
  (forall (F : model_monitor.Files) self path,
      model_monitor._monitoring_history self = [] ->
      model_monitor.export_metrics_json self path
      = py.Raise (py.Error "ValueError" "No monitoring data available"))
  /\ (forall (E : model_monitor.Evidently) (F : model_monitor.Files) self now
             current_data flag path,
         match model_monitor.run_monitoring self now current_data flag with
         | py.Return (results, self') =>
             model_monitor.export_metrics_json self' path =
             (_ ← model_monitor.write_json path results; py.Return path)
         | py.Raise _ => True
         end).
Proof.
  split.
  - intros F self path H. unfold model_monitor.export_metrics_json.
    rewrite H. reflexivity.
  - intros E F self now current_data flag path.
    unfold model_monitor.run_monitoring.
    destruct (model_monitor.detect_data_drift _ _ _) as [d|e]; cbn; [|exact I].
    destruct_perf.
    unfold model_monitor.export_metrics_json. cbn. rewrite last_snoc.
    reflexivity.
Qed.

(** X4 on a fresh example monitor. *)
Lemma export_writes_latest_run_witness :
  @model_monitor.export_metrics_json
    {| model_monitor.write_json := fun _ _ => py.Return tt |}
    model_monitor.demo_monitor "metrics.json"
  = py.Raise (py.Error "ValueError" "No monitoring data available").
Proof.
  apply (proj1 export_writes_latest_run). reflexivity.
Defined.

(** ** The monitoring service: the store across requests *)

Lemma keys_setitem {V} (k : string) (v : V) (d : py.dict V) :
  py.keys (py.setitem k v d) =
  if bool_decide (k ∈ py.keys d) then py.keys d else py.keys d ++ [k].
Proof.
  induction d as [|[k' v'] d IH]; [reflexivity|].
  cbn [py.setitem]. destruct (bool_decide (k' = k)) eqn:E.
  - apply bool_decide_eq_true in E as ->. cbn.
    rewrite bool_decide_eq_true_2 by left. reflexivity.
  - apply bool_decide_eq_false in E. cbn. fold (py.keys d).
    fold (py.keys (py.setitem k v d)). rewrite IH.
    destruct (bool_decide (k ∈ py.keys d)) eqn:Ek.
    + apply bool_decide_eq_true in Ek.
      rewrite bool_decide_eq_true_2 by (right; exact Ek). reflexivity.
    + apply bool_decide_eq_false in Ek.
      rewrite bool_decide_eq_false_2; [reflexivity|].
      intros H. apply elem_of_cons in H as [H|H]; [congruence|contradiction].
Qed.

Lemma getitem_setitem {V} (k x : string) (v : V) (d : py.dict V) :
  py.getitem x (py.setitem k v d) =
  if bool_decide (x = k) then py.Return v else py.getitem x d.
Proof.
  induction d as [|[k' v'] d IH].
  - cbn. destruct (bool_decide (k = x)) eqn:E.
    + apply bool_decide_eq_true in E as ->.
      rewrite bool_decide_eq_true_2 by reflexivity. reflexivity.
    + apply bool_decide_eq_false in E.
      rewrite bool_decide_eq_false_2 by congruence. reflexivity.
  - cbn [py.setitem]. destruct (bool_decide (k' = k)) eqn:E.
    + apply bool_decide_eq_true in E as ->. cbn.
      destruct (bool_decide (k = x)) eqn:Ex.
      * apply bool_decide_eq_true in Ex as ->.
        rewrite bool_decide_eq_true_2 by reflexivity. reflexivity.
      * apply bool_decide_eq_false in Ex.
        rewrite bool_decide_eq_false_2 by congruence. reflexivity.
    + apply bool_decide_eq_false in E. cbn. rewrite IH.
      destruct (bool_decide (k' = x)) eqn:Ex; [|reflexivity].
      apply bool_decide_eq_true in Ex as ->.
      rewrite bool_decide_eq_false_2 by congruence. reflexivity.
Qed.

Lemma getitem_known {V} (k : string) (d : py.dict V) :
  k ∈ py.keys d -> exists v, py.getitem k d = py.Return v.
Proof.
  induction d as [|[k' v'] d IH]; cbn; intros H.
  - apply elem_of_nil in H. destruct H.
  - destruct (bool_decide (k' = k)) eqn:E; [eauto|].
    apply bool_decide_eq_false in E.
    apply elem_of_cons in H as [H|H]; [congruence|]. apply IH, H.
Qed.

Lemma getitem_returns {V} (k : string) (d : py.dict V) v :
  py.getitem k d = py.Return v -> k ∈ py.keys d.
Proof.
  induction d as [|[k' v'] d IH]; cbn; [discriminate|].
  destruct (bool_decide (k' = k)) eqn:E.
  - apply bool_decide_eq_true in E as ->. intros _. left.
  - intros H. right. apply IH, H.
Qed.

Lemma keys_cons {V} (k : string) (v : V) (d : py.dict V) :
  py.keys ((k, v) :: d) = k :: py.keys d.
Proof. reflexivity. Qed.

Lemma filter_all {A} (P : A -> Prop) `{forall x, Decision (P x)} (l : list A) :
  (forall x, x ∈ l -> P x) -> filter P l = l.
Proof.
  induction l as [|x l IH]; intros Hall; [reflexivity|].
  rewrite filter_cons_True by (apply Hall; left).
  rewrite IH; [reflexivity|]. intros y Hy. apply Hall. right. exact Hy.
Qed.

(** Deleting a stored key removes it and nothing else. *)
Lemma delitem_known {V} (k : string) (d : py.dict V) :
  NoDup (py.keys d) -> k ∈ py.keys d ->
  exists d', py.delitem k d = py.Return d'
    /\ py.keys d' = filter (fun x => x ≠ k) (py.keys d)
    /\ forall x, x ≠ k -> py.getitem x d' = py.getitem x d.
Proof.
  induction d as [|[k' v'] d IH]; intros Hnd Hk.
  - apply elem_of_nil in Hk. destruct Hk.
  - cbn in Hnd. apply NoDup_cons in Hnd as [Hnot Hnd].
    cbn [py.delitem]. destruct (bool_decide (k' = k)) eqn:E.
    + apply bool_decide_eq_true in E as ->. exists d. split; [reflexivity|].
      split.
      * rewrite keys_cons.
        rewrite filter_cons_False by (intros H; apply H; reflexivity).
        symmetry. apply filter_all. intros x Hx ->. contradiction.
      * intros x Hx. cbn. rewrite bool_decide_eq_false_2 by congruence.
        reflexivity.
    + apply bool_decide_eq_false in E. rewrite keys_cons in Hk.
      apply elem_of_cons in Hk as [Hk|Hk]; [congruence|].
      destruct (IH Hnd Hk) as (d' & -> & Hkeys & Hget).
      eexists. split; [reflexivity|]. split.
      * rewrite !keys_cons, filter_cons_True by exact E.
        rewrite Hkeys. reflexivity.
      * intros x Hx. cbn. rewrite (Hget x Hx). reflexivity.
Qed.

Lemma find_model_key_stored (d : py.dict model_monitor.ModelMonitor)
    (model_name key : string) :
  monitoring_service._find_model_key d model_name = Some key ->
  key ∈ py.keys d.
Proof.
  unfold monitoring_service._find_model_key, py.contains.
  destruct (bool_decide (model_name ∈ py.keys d)) eqn:E.
  - apply bool_decide_eq_true in E. intros [= <-]. exact E.
  - intros H. apply find_some in H as [H _]. apply list_elem_of_In. exact H.
Qed.

Lemma in_step_initial : monitoring_service.in_step monitoring_service.initial.
Proof.
  repeat split; cbn; [apply NoDup_nil_2|].
  intros key H. apply elem_of_nil in H. destruct H.
Qed.

(** Storing under a key of the store, or under a new key of the right form,
    keeps the three dicts in step. *)
Lemma in_step_store (st : monitoring_service.state) (name version : string)
    m e r :
  monitoring_service.in_step st ->
  monitoring_service.in_step
    {| monitoring_service.monitors :=
         py.setitem (name +:+ ":" +:+ version) m
           (monitoring_service.monitors st);
       monitoring_service.exporters :=
         py.setitem (name +:+ ":" +:+ version) e
           (monitoring_service.exporters st);
       monitoring_service.reference_datasets :=
         py.setitem (name +:+ ":" +:+ version) r
           (monitoring_service.reference_datasets st) |}.
Proof.
  intros (He & Hr & Hnd & Hform). unfold monitoring_service.in_step.
  cbn [monitoring_service.monitors monitoring_service.exporters
       monitoring_service.reference_datasets].
  rewrite !keys_setitem, He, Hr.
  destruct (bool_decide (_ ∈ py.keys (monitoring_service.monitors st))) eqn:E.
  - repeat split; auto.
  - apply bool_decide_eq_false in E. repeat split.
    + apply NoDup_app. split; [exact Hnd|]. split.
      * intros x Hx Hx'. apply list_elem_of_singleton in Hx' as ->.
        contradiction.
      * apply NoDup_singleton.
    + intros key Hkey. apply elem_of_app in Hkey as [Hkey|Hkey].
      * apply Hform, Hkey.
      * apply list_elem_of_singleton in Hkey as ->. eauto.
Qed.

Lemma in_step_with_monitor (st : monitoring_service.state) (key : string)
    m m' :
  py.getitem key (monitoring_service.monitors st) = py.Return m ->
  monitoring_service.in_step st ->
  monitoring_service.in_step (monitoring_service.with_monitor st key m').
Proof.
  intros Hget (He & Hr & Hnd & Hform). apply getitem_returns in Hget.
  unfold monitoring_service.in_step, monitoring_service.with_monitor.
  cbn [monitoring_service.monitors monitoring_service.exporters
       monitoring_service.reference_datasets].
  rewrite keys_setitem, bool_decide_eq_true_2 by exact Hget. auto.
Qed.

(** On a store in step, [unregister_model] of a resolvable name deletes the
    resolved key from the three dicts. *)
Lemma unregister_resolved (st : monitoring_service.state)
    (model_name key : string) :
  monitoring_service.in_step st ->
  monitoring_service._find_model_key (monitoring_service.monitors st)
    model_name = Some key ->
  exists st',
    monitoring_service.unregister_model st model_name
    = (py.Return ("unregistered" : string, key), st')
    /\ py.keys (monitoring_service.monitors st')
       = filter (fun x => x ≠ key) (py.keys (monitoring_service.monitors st))
    /\ py.keys (monitoring_service.exporters st')
       = filter (fun x => x ≠ key) (py.keys (monitoring_service.monitors st))
    /\ py.keys (monitoring_service.reference_datasets st')
       = filter (fun x => x ≠ key) (py.keys (monitoring_service.monitors st))
    /\ forall x, x ≠ key ->
         py.getitem x (monitoring_service.monitors st')
         = py.getitem x (monitoring_service.monitors st).
Proof.
  intros (He & Hr & Hnd & Hform) Hfind.
  pose proof (find_model_key_stored _ _ _ Hfind) as Hkey.
  destruct (Hform key Hkey) as (n & v & Hk).
  assert (Hne : exists c rest, key = String c rest).
  { rewrite Hk. destruct n; cbn; eauto. }
  destruct Hne as (c & rest & Hc).
  unfold monitoring_service.unregister_model. rewrite Hfind, Hc, <- Hc.
  destruct (delitem_known key (monitoring_service.monitors st) Hnd Hkey)
    as (m' & -> & Hm1 & Hm2).
  destruct (delitem_known key (monitoring_service.exporters st))
    as (e' & -> & He1 & _); [rewrite He; exact Hnd|rewrite He; exact Hkey|].
  destruct (delitem_known key (monitoring_service.reference_datasets st))
    as (r' & -> & Hr1 & _); [rewrite Hr; exact Hnd|rewrite Hr; exact Hkey|].
  eexists. split; [reflexivity|]. cbn.
  rewrite He in He1. rewrite Hr in Hr1. auto.
Qed.

Lemma in_step_handle (P : monitoring_service.Platform) st req :
  monitoring_service.in_step st ->
  monitoring_service.in_step (monitoring_service.handle st req).
Proof.
  intros Hst. destruct req as [r|r now stamp|r|name|name]; cbn.
  - unfold monitoring_service.register_model.
    match goal with
    | |- context [py.try_except ?b _] => destruct b as [[response st']|e] eqn:E
    end; cbn; [|exact Hst].
    revert E.
    destruct (if py.endswith _ ".csv" then _ else _) as [ref|]; cbn;
      [|discriminate].
    destruct (model_monitor.__init__ _ _ _ _ _ _) as [m|]; cbn; [|discriminate].
    destruct (monitoring_service.new_exporter _ _) as [e|]; cbn;
      [|discriminate].
    intros [= _ <-]. apply in_step_store. exact Hst.
  - unfold monitoring_service.run_monitoring.
    destruct (monitoring_service._find_model_key _ _) as [[|c key]|]; cbn;
      try exact Hst.
    destruct (py.getitem _ (monitoring_service.monitors st)) as [m|] eqn:Em;
      cbn; [|exact Hst].
    destruct (py.getitem _ (monitoring_service.exporters st)) as [e|]; cbn;
      [|exact Hst].
    destruct (monitoring_service.load_current_data r); cbn; [|exact Hst].
    destruct (model_monitor.run_monitoring _ _ _ _) as [[results m']|]; cbn;
      [|exact Hst].
    destruct (monitoring_service.update_from_monitoring_results _ _); cbn;
      [|eapply in_step_with_monitor; eauto].
    destruct (monitoring_service.generate_report r); cbn;
      eapply in_step_with_monitor; eauto.
  - unfold monitoring_service.check_drift.
    destruct (monitoring_service._find_model_key _ _) as [[|c key]|]; cbn;
      try exact Hst.
    destruct (py.getitem _ (monitoring_service.monitors st)) as [m|]; cbn;
      [|exact Hst].
    destruct (py.getitem _ (monitoring_service.exporters st)) as [e|]; cbn;
      exact Hst.
  - unfold monitoring_service.get_monitoring_history.
    destruct (monitoring_service._find_model_key _ _) as [[|c key]|]; cbn;
      exact Hst.
  - destruct (monitoring_service._find_model_key
                (monitoring_service.monitors st) name) as [key|] eqn:Hfind.
    + destruct (unregister_resolved st name key Hst Hfind)
        as (st' & -> & Hm & He & Hr & _). cbn.
      destruct Hst as (_ & _ & Hnd & Hform).
      unfold monitoring_service.in_step. rewrite Hm, He, Hr.
      repeat split; [apply NoDup_filter; exact Hnd|].
      intros k Hk. apply list_elem_of_filter in Hk as [_ Hk]. apply Hform, Hk.
    + unfold monitoring_service.unregister_model. rewrite Hfind. exact Hst.
Qed.

(** The store of a service process is in step after any requests. *)
Lemma serve_in_step (P : monitoring_service.Platform)
    (requests : list monitoring_service.request) :
  monitoring_service.in_step (monitoring_service.serve requests).
Proof.
  unfold monitoring_service.serve.
  generalize in_step_initial. generalize monitoring_service.initial.
  induction requests as [|req requests IH]; intros st Hst; [exact Hst|].
  cbn [fold_left]. apply IH, in_step_handle, Hst.
Qed.

(** X5.  Whatever requests a service process has answered, on whatever
    platform, its three dicts hold the same keys in the same order, no key
    twice, and every key reads [name:version]. *)
Theorem store_stays_in_step (P : monitoring_service.Platform)
    (requests : list monitoring_service.request) :
  let st := monitoring_service.serve requests in
  py.keys (monitoring_service.exporters st)
  = py.keys (monitoring_service.monitors st)
  /\ py.keys (monitoring_service.reference_datasets st)
     = py.keys (monitoring_service.monitors st)
  /\ NoDup (py.keys (monitoring_service.monitors st))
  /\ forall key, key ∈ py.keys (monitoring_service.monitors st) ->
                 exists name version, key = name +:+ ":" +:+ version.
Proof.
  cbn zeta. exact (serve_in_step P requests).
Qed.

(** On a store in step, a resolved key is not the empty string and is held
    by the three dicts. *)
Lemma resolved_key_held (st : monitoring_service.state)
    (model_name key : string) :
  monitoring_service.in_step st ->
  monitoring_service._find_model_key (monitoring_service.monitors st)
    model_name = Some key ->
  (exists c rest, key = String c rest)
  /\ (exists m, py.getitem key (monitoring_service.monitors st) = py.Return m)
  /\ (exists e, py.getitem key (monitoring_service.exporters st) = py.Return e)
  /\ (exists r, py.getitem key (monitoring_service.reference_datasets st)
                = py.Return r).
Proof.
  intros (He & Hr & Hnd & Hform) Hfind.
  pose proof (find_model_key_stored _ _ _ Hfind) as Hkey.
  destruct (Hform key Hkey) as (n & v & Hk).
  split; [rewrite Hk; destruct n; cbn; eauto|].
  split; [apply getitem_known, Hkey|].
  split; apply getitem_known; [rewrite He|rewrite Hr]; exact Hkey.
Qed.

Lemma model_infos_keys (st : monitoring_service.state) (ks : list string) :
  (forall k, k ∈ ks -> k ∈ py.keys (monitoring_service.monitors st)) ->
  (forall k, k ∈ ks -> k ∈ py.keys (monitoring_service.reference_datasets st)) ->
  exists infos, monitoring_service.model_infos st ks = py.Return infos
                /\ map monitoring_service.mi_model_key infos = ks.
Proof.
  induction ks as [|k ks IH]; intros Hm Hr.
  - exists []. split; reflexivity.
  - destruct (getitem_known k (monitoring_service.monitors st)) as [m Hgm];
      [apply Hm; left|].
    destruct (getitem_known k (monitoring_service.reference_datasets st))
      as [r Hgr]; [apply Hr; left|].
    destruct IH as (infos & Hi & Hk);
      [intros x Hx; apply Hm; right; exact Hx
      |intros x Hx; apply Hr; right; exact Hx|].
    cbn [monitoring_service.model_infos]. rewrite Hgm, Hgr. cbn.
    rewrite Hi. cbn. eexists. split; [reflexivity|]. cbn. rewrite Hk.
    reflexivity.
Qed.

(** X6.  On the store of any service process, no endpoint lets a [KeyError]
    (or any exception other than an [HTTPException]) escape; the history and
    unregister endpoints answer 404 exactly when the name resolves to no key
    and 200 otherwise; and [list_models] returns one entry per stored key, in
    registration order. *)
Theorem requests_are_answered (P : monitoring_service.Platform)
    (requests : list monitoring_service.request) :
  let st := monitoring_service.serve requests in
  (forall r now stamp,
      monitoring_service.answered
        (fst (monitoring_service.run_monitoring st r now stamp)))
  /\ (forall r,
         monitoring_service.answered
           (fst (monitoring_service.check_drift st r)))
  /\ (forall model_name,
         let history :=
           py.http_status
             (fst (monitoring_service.get_monitoring_history st model_name)) in
         let removal :=
           py.http_status
             (fst (monitoring_service.unregister_model st model_name)) in
         match monitoring_service._find_model_key
                 (monitoring_service.monitors st) model_name with
         | Some _ => history = 200%nat /\ removal = 200%nat
         | None => history = 404%nat /\ removal = 404%nat
         end)
  /\ (exists infos,
         monitoring_service.list_models st = py.Return infos
         /\ map monitoring_service.mi_model_key infos
            = py.keys (monitoring_service.monitors st)).
Proof.
  cbn zeta. pose proof (serve_in_step P requests) as Hst.
  set (st := monitoring_service.serve requests) in *.
  split; [|split; [|split]].
  - intros r now stamp. unfold monitoring_service.run_monitoring.
    destruct (monitoring_service._find_model_key _ _) as [key|] eqn:Hfind;
      [|exact I].
    destruct (resolved_key_held st _ key Hst Hfind)
      as ((c & rest & ->) & (m & Hm) & (e & He) & _).
    rewrite Hm, He.
    destruct (monitoring_service.load_current_data r); [|exact I].
    destruct (model_monitor.run_monitoring _ _ _ _) as [[results m']|];
      [|exact I].
    destruct (monitoring_service.update_from_monitoring_results _ _);
      [|exact I].
    destruct (monitoring_service.generate_report r); exact I.
  - intros r. unfold monitoring_service.check_drift.
    destruct (monitoring_service._find_model_key _ _) as [key|] eqn:Hfind;
      [|exact I].
    destruct (resolved_key_held st _ key Hst Hfind)
      as ((c & rest & ->) & (m & Hm) & (e & He) & _).
    rewrite Hm, He. cbn.
    match goal with
    | |- context [py.try_except ?b _] => destruct b
    end; exact I.
  - intros model_name.
    destruct (monitoring_service._find_model_key
                (monitoring_service.monitors st) model_name)
      as [key|] eqn:Hfind.
    + destruct (resolved_key_held st _ key Hst Hfind)
        as ((c & rest & Hc) & (m & Hm) & _).
      split.
      * unfold monitoring_service.get_monitoring_history.
        rewrite Hfind, Hc, <- Hc, Hm. reflexivity.
      * destruct (unregister_resolved st model_name key Hst Hfind)
          as (st' & -> & _). reflexivity.
    + unfold monitoring_service.get_monitoring_history,
        monitoring_service.unregister_model. rewrite Hfind. split; reflexivity.
  - destruct Hst as (He & Hr & _). apply model_infos_keys.
    + auto.
    + intros k Hk. rewrite Hr. exact Hk.
Qed.

(** A fresh monitor has no history. *)
Lemma init_history_empty reference kind target prediction features threshold m :
  model_monitor.__init__ reference kind target prediction features threshold
  = py.Return m ->
  model_monitor._monitoring_history m = [].
Proof.
  unfold model_monitor.__init__.
  destruct (model_monitor.select_by_dtype reference ["int64"; "float64"] _);
    cbn; [|discriminate].
  destruct (model_monitor.select_by_dtype reference ["object"] _);
    cbn; [|discriminate].
  intros [= <-]. reflexivity.
Qed.

(** X7.  Registering on the store of any service process.  When it answers
    200, the key [name:version] resolves to itself, its history is empty
    (also when the key was registered before: the old history is gone), the
    key keeps its place if it was stored and goes last otherwise, and the
    monitors under all other keys are untouched; when it fails, the store is
    unchanged. *)
Theorem register_then_resolve (P : monitoring_service.Platform)
    (requests : list monitoring_service.request)
    (r : monitoring_service.RegisterModelRequest) :
  let st := monitoring_service.serve requests in
  let key :=
    monitoring_service.reg_model_name r +:+ ":"
      +:+ monitoring_service.reg_model_version r in
  let st' := snd (monitoring_service.register_model st r) in
  match fst (monitoring_service.register_model st r) with
  | py.Return response =>
      monitoring_service.rr_model_key response = key
      /\ monitoring_service._find_model_key
           (monitoring_service.monitors st') key = Some key
      /\ monitoring_service.get_monitoring_history st' key
         = (py.Return (key, []), st')
      /\ py.keys (monitoring_service.monitors st') =
         (if bool_decide (key ∈ py.keys (monitoring_service.monitors st))
          then py.keys (monitoring_service.monitors st)
          else py.keys (monitoring_service.monitors st) ++ [key])
      /\ forall other, other ≠ key ->
           py.getitem other (monitoring_service.monitors st')
           = py.getitem other (monitoring_service.monitors st)
  | py.Raise _ => st' = st
  end.
Proof.
  cbn zeta. set (st := monitoring_service.serve requests).
  unfold monitoring_service.register_model.
  match goal with
  | |- context [py.try_except ?b _] => destruct b as [[response st']|e] eqn:E
  end; cbn; [|reflexivity].
  revert E.
  destruct (if py.endswith _ ".csv" then _ else _) as [ref|]; cbn;
    [|discriminate].
  destruct (model_monitor.__init__ _ _ _ _ _ _) as [m|] eqn:Hinit; cbn;
    [|discriminate].
  destruct (monitoring_service.new_exporter _ _) as [e|]; cbn; [|discriminate].
  intros [= <- <-]. cbn.
  set (key := monitoring_service.reg_model_name r +:+ ":"
                +:+ monitoring_service.reg_model_version r).
  assert (Hin : key ∈ py.keys (py.setitem key m (monitoring_service.monitors st))).
  { rewrite keys_setitem. destruct (bool_decide _) eqn:Ek.
    - apply bool_decide_eq_true in Ek. exact Ek.
    - apply elem_of_app. right. left. }
  assert (Hfind : monitoring_service._find_model_key
                    (py.setitem key m (monitoring_service.monitors st)) key
                  = Some key).
  { unfold monitoring_service._find_model_key, py.contains.
    rewrite bool_decide_eq_true_2 by exact Hin. reflexivity. }
  split; [reflexivity|]. split; [exact Hfind|]. split; [|split].
  - unfold monitoring_service.get_monitoring_history. cbn. rewrite Hfind.
    assert (Hne : exists c rest, key = String c rest).
    { unfold key. destruct (monitoring_service.reg_model_name r); cbn; eauto. }
    destruct Hne as (c & rest & Hc). rewrite Hc, <- Hc.
    rewrite getitem_setitem, bool_decide_eq_true_2 by reflexivity. cbn.
    unfold model_monitor.get_monitoring_history.
    rewrite (init_history_empty _ _ _ _ _ _ _ Hinit). reflexivity.
  - apply keys_setitem.
  - intros other Hother. rewrite getitem_setitem.
    rewrite bool_decide_eq_false_2 by exact Hother. reflexivity.
Qed.

(** X8.  On the store of any service process, unregistering a name that
    resolves answers with the resolved key and removes exactly that key from
    the three dicts: the other keys keep their order and their monitors.  A
    bare name therefore removes one version only, the first registered. *)
Theorem unregister_removes_resolved_key (P : monitoring_service.Platform)
    (requests : list monitoring_service.request) (model_name key : string) :
  let st := monitoring_service.serve requests in
  monitoring_service._find_model_key (monitoring_service.monitors st)
    model_name = Some key ->
  exists st',
    monitoring_service.unregister_model st model_name
    = (py.Return ("unregistered" : string, key), st')
    /\ py.keys (monitoring_service.monitors st')
       = filter (fun x => x ≠ key) (py.keys (monitoring_service.monitors st))
    /\ py.keys (monitoring_service.exporters st')
       = py.keys (monitoring_service.monitors st')
    /\ py.keys (monitoring_service.reference_datasets st')
       = py.keys (monitoring_service.monitors st')
    /\ (key ∉ py.keys (monitoring_service.monitors st'))
    /\ forall x, x ≠ key ->
         py.getitem x (monitoring_service.monitors st')
         = py.getitem x (monitoring_service.monitors st).
Proof.
  cbn zeta. intros Hfind.
  destruct (unregister_resolved _ model_name key (serve_in_step P requests)
              Hfind) as (st' & Hun & Hm & He & Hr & Hget).
  exists st'. rewrite He, Hr, Hm. repeat split; auto.
  intros Hin. apply list_elem_of_filter in Hin as [Hne _]. apply Hne.
  reflexivity.
Qed.

Lemma unregister_removes_resolved_key_witness :
  exists st',
    monitoring_service.unregister_model
      (@monitoring_service.serve monitoring_service.demo_platform
         [monitoring_service.Register
            (monitoring_service.demo_register "churn" "1.0" "reference.csv");
          monitoring_service.Register
            (monitoring_service.demo_register "churn" "2.0" "reference.csv")])
      "churn"
    = (py.Return ("unregistered" : string, "churn:1.0" : string), st')
    /\ py.keys (monitoring_service.monitors st') = ["churn:2.0"].
Proof.
  destruct (unregister_removes_resolved_key monitoring_service.demo_platform
              [monitoring_service.Register
                 (monitoring_service.demo_register "churn" "1.0"
                    "reference.csv");
               monitoring_service.Register
                 (monitoring_service.demo_register "churn" "2.0"
                    "reference.csv")]
              "churn" "churn:1.0" eq_refl) as (st' & Hun & Hkeys & _).
  exists st'. split; [exact Hun|]. rewrite Hkeys. reflexivity.
Defined.

Lemma run_appends (E : model_monitor.Evidently) self now current_data flag
    results self' :
  model_monitor.run_monitoring self now current_data flag
  = py.Return (results, self') ->
  model_monitor._monitoring_history self'
  = model_monitor._monitoring_history self ++ [results]
  /\ model_monitor.report_path results = None.
Proof.
  unfold model_monitor.run_monitoring.
  destruct (model_monitor.detect_data_drift _ _ _) as [d|]; cbn;
    [|discriminate].
  match goal with
  | |- context [mbind _ (if ?c then ?a else ?b)] =>
      destruct (if c then a else b) as [perf|e]; cbn; [|discriminate]
  end.
  intros [= <- <-]. split; reflexivity.
Qed.

(** X9.  A monitoring run through the service, on the store of any service
    process, for a name that resolves.  A 200 answer is the last entry of the
    resolved monitor's history, which has grown by exactly that entry (with
    its report path when a report was asked for); every failure is a 500, and
    then the history is unchanged or has grown by the run whose metrics could
    not be published.  Keys, other monitors, exporters and reference data are
    untouched either way. *)
Theorem service_run_extends_history (P : monitoring_service.Platform)
    (requests : list monitoring_service.request)
    (r : monitoring_service.MonitoringRequest) (now stamp key : string) :
  let st := monitoring_service.serve requests in
  let answer := monitoring_service.run_monitoring st r now stamp in
  let st' := snd answer in
  monitoring_service._find_model_key (monitoring_service.monitors st)
    (monitoring_service.mon_model_name r) = Some key ->
  exists m m',
    py.getitem key (monitoring_service.monitors st) = py.Return m
    /\ py.getitem key (monitoring_service.monitors st') = py.Return m'
    /\ match fst answer with
       | py.Return results =>
           model_monitor._monitoring_history m'
           = model_monitor._monitoring_history m ++ [results]
           /\ model_monitor.report_path results
              = (if monitoring_service.generate_report r
                 then Some ("/tmp/reports/" +:+ py.replace_colon key +:+ "_"
                              +:+ stamp +:+ ".html")
                 else None)
       | py.Raise e =>
           (exists detail, e = py.HTTPException 500 detail)
           /\ (model_monitor._monitoring_history m'
               = model_monitor._monitoring_history m
               \/ exists results,
                    model_monitor._monitoring_history m'
                    = model_monitor._monitoring_history m ++ [results])
       end
    /\ py.keys (monitoring_service.monitors st')
       = py.keys (monitoring_service.monitors st)
    /\ (forall other, other ≠ key ->
          py.getitem other (monitoring_service.monitors st')
          = py.getitem other (monitoring_service.monitors st))
    /\ monitoring_service.exporters st' = monitoring_service.exporters st
    /\ monitoring_service.reference_datasets st'
       = monitoring_service.reference_datasets st.
Proof.
  cbn zeta. intros Hfind.
  pose proof (serve_in_step P requests) as Hst.
  set (st := monitoring_service.serve requests) in *.
  destruct (resolved_key_held st _ key Hst Hfind)
    as ((c & rest & Hc) & (m & Hm) & (e & He) & _).
  pose proof (getitem_returns _ _ _ Hm) as Hin.
  assert (Hstore : forall m1,
    py.getitem key (monitoring_service.monitors
                      (monitoring_service.with_monitor st key m1))
    = py.Return m1
    /\ py.keys (monitoring_service.monitors
                  (monitoring_service.with_monitor st key m1))
       = py.keys (monitoring_service.monitors st)
    /\ forall other, other ≠ key ->
         py.getitem other (monitoring_service.monitors
                             (monitoring_service.with_monitor st key m1))
         = py.getitem other (monitoring_service.monitors st)).
  { intros m1. unfold monitoring_service.with_monitor.
    cbn [monitoring_service.monitors]. split; [|split].
    - rewrite getitem_setitem, bool_decide_eq_true_2 by reflexivity.
      reflexivity.
    - rewrite keys_setitem, bool_decide_eq_true_2 by exact Hin. reflexivity.
    - intros other Hother. rewrite getitem_setitem.
      rewrite bool_decide_eq_false_2 by exact Hother. reflexivity. }
  exists m. unfold monitoring_service.run_monitoring.
  rewrite Hfind, Hc, <- Hc, Hm, He.
  destruct (monitoring_service.load_current_data r) as [data|e1].
  2:{ exists m. cbn. split; [reflexivity|]. split; [exact Hm|].
      split; [split; [eexists; reflexivity|left; reflexivity]|]. auto. }
  destruct (model_monitor.run_monitoring m now data
              (monitoring_service.include_performance r))
    as [[results m1]|e1] eqn:Hrun.
  2:{ exists m. cbn. split; [reflexivity|]. split; [exact Hm|].
      split; [split; [eexists; reflexivity|left; reflexivity]|]. auto. }
  destruct (run_appends _ _ _ _ _ _ _ Hrun) as [Hhist Hpath].
  destruct (monitoring_service.update_from_monitoring_results e results)
    as [[]|e1].
  2:{ exists m1. destruct (Hstore m1) as (H1 & H2 & H3).
      cbn [fst snd]. split; [reflexivity|]. split; [exact H1|].
      split; [split; [eexists; reflexivity|right; eauto]|]. auto. }
  destruct (monitoring_service.generate_report r).
  - eexists. destruct (Hstore (monitoring_service.amend_last m1
        (monitoring_service.with_report_path results
           ("/tmp/reports/" +:+ py.replace_colon key +:+ "_" +:+ stamp
              +:+ ".html")))) as (H1 & H2 & H3).
    cbn [fst snd]. split; [reflexivity|]. split; [exact H1|].
    split; [|auto]. split; [|reflexivity].
    cbn [monitoring_service.amend_last model_monitor._monitoring_history].
    rewrite Hhist, removelast_last. reflexivity.
  - exists m1. destruct (Hstore m1) as (H1 & H2 & H3).
    cbn [fst snd]. split; [reflexivity|]. split; [exact H1|].
    split; [split; [exact Hhist|exact Hpath]|]. auto.
Qed.

Lemma service_run_extends_history_witness :
  exists results,
    fst (@monitoring_service.run_monitoring monitoring_service.demo_platform
           monitoring_service.demo_state
           {| monitoring_service.mon_model_name := "churn";
              monitoring_service.current_data_path := Some "today.csv";
              monitoring_service.current_data := None;
              monitoring_service.include_performance := true;
              monitoring_service.generate_report := true |}
           "2024-01-01T00:00:00" "20240101_000000")
    = py.Return results
    /\ model_monitor.report_path results
       = Some "/tmp/reports/churn_1.0_20240101_000000.html".
Proof.
  destruct (service_run_extends_history monitoring_service.demo_platform
              [monitoring_service.Register
                 (monitoring_service.demo_register "churn" "1.0"
                    "reference.csv");
               monitoring_service.Register
                 (monitoring_service.demo_register "churn" "2.0"
                    "reference.parquet")]
              {| monitoring_service.mon_model_name := "churn";
                 monitoring_service.current_data_path := Some "today.csv";
                 monitoring_service.current_data := None;
                 monitoring_service.include_performance := true;
                 monitoring_service.generate_report := true |}
              "2024-01-01T00:00:00" "20240101_000000" "churn:1.0" eq_refl)
    as (m & m' & _ & _ & Hanswer & _).
  change (@monitoring_service.serve monitoring_service.demo_platform _)
    with monitoring_service.demo_state in Hanswer.
  destruct (fst _) as [results|e] eqn:E in Hanswer.
  - exists results. split; [exact E|]. destruct Hanswer as [_ Hpath].
    rewrite Hpath. reflexivity.
  - exfalso. vm_compute in E. discriminate E.
Defined.

(** ** The drift-check runner *)

(** X10.  A model whose configured data path is missing, empty, or neither an
    [s3://] URL nor a [.csv] or [.parquet] file is skipped with reason
    [no_current_data], whatever its [current_data_query] says: the query
    branch is a placeholder.  An [s3://] path is read as parquet whatever its
    extension. *)
Theorem unloadable_model_is_skipped (W : run_drift_check.World)
    (self : run_drift_check.DriftCheckRunner)
    (model_config0 : run_drift_check.model_config)
    (settings0 : option run_drift_check.settings) (model_name0 : string) :
  run_drift_check.name model_config0 = Some model_name0 ->
  let path :=
    default "" (run_drift_check.mc_current_data_path model_config0) in
  (py.startswith path "s3://" = false ->
   py.endswith path ".csv" = false ->
   py.endswith path ".parquet" = false ->
   run_drift_check.load_current_data self model_config0 = py.Return None
   /\ run_drift_check.check_model self model_config0 settings0
      = py.Return (run_drift_check.skipped model_name0))
  /\ (py.startswith path "s3://" = true ->
      run_drift_check.load_current_data self model_config0
      = Some <$> run_drift_check.read_parquet path).
Proof.
  intros Hname path. subst path. split.
  - intros Hs3 Hcsv Hpq.
    assert (Hload : run_drift_check.load_current_data self model_config0
                    = py.Return None).
    { unfold run_drift_check.load_current_data, run_drift_check.execute_query.
      rewrite Hs3, Hcsv, Hpq.
      destruct (py.truthy_str
                  (run_drift_check.mc_current_data_path model_config0)),
        (py.truthy_str (run_drift_check.current_data_query model_config0));
        reflexivity. }
    split; [exact Hload|].
    unfold run_drift_check.check_model. rewrite Hname, Hload. reflexivity.
  - intros Hs3. unfold run_drift_check.load_current_data.
    destruct (run_drift_check.mc_current_data_path model_config0)
      as [[|c p]|]; cbn in Hs3 |- *; try discriminate.
    change (py.startswith (String c p) "s3://") with
      (String.prefix "s3://" (String c p)).
    cbn in Hs3. unfold py.startswith in *. rewrite Hs3. reflexivity.
Qed.

Lemma unloadable_model_is_skipped_witness :
  @run_drift_check.check_model run_drift_check.demo_world
    (@run_drift_check.__init__ run_drift_check.demo_world
       "http://monitoring:8080/" "/app/config/models.yaml")
    (run_drift_check.demo_model "churn" (Some "warehouse/churn.json")
       (Some "SELECT * FROM churn"))
    (Some {| run_drift_check.generate_reports := None |})
  = py.Return (run_drift_check.skipped "churn").
Proof.
  apply (proj1 (unloadable_model_is_skipped run_drift_check.demo_world _
                  (run_drift_check.demo_model "churn"
                     (Some "warehouse/churn.json")
                     (Some "SELECT * FROM churn"))
                  (Some {| run_drift_check.generate_reports := None |})
                  "churn" eq_refl)); reflexivity.
Defined.


Lemma filter_app_list {A} (p : A -> bool) (l1 l2 : list A) :
  List.filter p (l1 ++ l2) = List.filter p l1 ++ List.filter p l2.
Proof.
  induction l1 as [|a l1 IH]; cbn; [reflexivity|].
  destruct (p a); cbn; rewrite IH; reflexivity.
Qed.








(** ** Parsing a drift report *)

Ltac parse_cbn :=
  cbn [drift_detector.drifted_columns drift_detector.column_drift_scores
       drift_detector.dataset_drift drift_detector.drift_share
       drift_detector.number_of_drifted_columns drift_detector.timestamp
       negb andb].

Lemma parse_step_spec (acc : drift_detector.drift_results)
    (m : drift_detector.metric) :
  drift_detector.drifted_columns (drift_detector.parse_step acc m)
  = drift_detector.drifted_columns acc
    ++ (if drift_detector.is_column_drift m
           && default false (drift_detector.r_drift_detected
                               (drift_detector.result_of m))
        then [drift_detector.col_name_of m] else [])
  /\ py.keys (drift_detector.column_drift_scores
                (drift_detector.parse_step acc m))
     = (if drift_detector.is_column_drift m
           && negb (bool_decide
                      (drift_detector.col_name_of m
                       ∈ py.keys (drift_detector.column_drift_scores acc)))
        then py.keys (drift_detector.column_drift_scores acc)
             ++ [drift_detector.col_name_of m]
        else py.keys (drift_detector.column_drift_scores acc))
  /\ (drift_detector.dataset_drift (drift_detector.parse_step acc m),
      drift_detector.drift_share (drift_detector.parse_step acc m),
      drift_detector.number_of_drifted_columns
        (drift_detector.parse_step acc m))
     = (if drift_detector.is_dataset_drift m
        then (default false (drift_detector.r_dataset_drift
                               (drift_detector.result_of m)),
              default 0 (drift_detector.r_drift_share
                           (drift_detector.result_of m)),
              Some (default 0%nat
                      (drift_detector.r_number_of_drifted_columns
                         (drift_detector.result_of m))))
        else (drift_detector.dataset_drift acc,
              drift_detector.drift_share acc,
              drift_detector.number_of_drifted_columns acc))
  /\ drift_detector.timestamp (drift_detector.parse_step acc m)
     = drift_detector.timestamp acc.
Proof.
  unfold drift_detector.parse_step, drift_detector.is_column_drift,
    drift_detector.is_dataset_drift, drift_detector.col_name_of.
  destruct (drift_detector.in_str "DatasetDriftMetric" _); parse_cbn.
  { rewrite app_nil_r. auto. }
  destruct (drift_detector.in_str "ColumnDriftMetric" _); parse_cbn.
  - rewrite keys_setitem.
    destruct (default false _), (bool_decide _); parse_cbn;
      rewrite ?app_nil_r; auto.
  - destruct (drift_detector.in_str "DatasetMissingValuesMetric" _);
      parse_cbn; rewrite app_nil_r; auto.
Qed.

Lemma parse_loop (metrics : list drift_detector.metric) :
  forall acc,
    let out := fold_left drift_detector.parse_step metrics acc in
    drift_detector.drifted_columns out
    = drift_detector.drifted_columns acc
      ++ map drift_detector.col_name_of
           (List.filter
              (fun m => drift_detector.is_column_drift m
                        && default false
                             (drift_detector.r_drift_detected
                                (drift_detector.result_of m)))
              metrics)
    /\ (forall c,
           c ∈ py.keys (drift_detector.column_drift_scores out) <->
           c ∈ py.keys (drift_detector.column_drift_scores acc)
           \/ exists m, m ∈ metrics
                        /\ drift_detector.is_column_drift m = true
                        /\ drift_detector.col_name_of m = c)
    /\ (NoDup (py.keys (drift_detector.column_drift_scores acc)) ->
        NoDup (py.keys (drift_detector.column_drift_scores out)))
    /\ (Forall (fun m => drift_detector.is_dataset_drift m = false) metrics ->
        drift_detector.dataset_drift out = drift_detector.dataset_drift acc
        /\ drift_detector.drift_share out = drift_detector.drift_share acc
        /\ drift_detector.number_of_drifted_columns out
           = drift_detector.number_of_drifted_columns acc)
    /\ drift_detector.timestamp out = drift_detector.timestamp acc.
Proof.
  induction metrics as [|m metrics IH]; intros acc; cbn zeta.
  - cbn. rewrite app_nil_r. repeat split; auto.
    intros [H|(m & Hm & _)]; [exact H|]. apply elem_of_nil in Hm as [].
  - cbn [fold_left List.filter].
    destruct (IH (drift_detector.parse_step acc m))
      as (Hcols & Hkeys & Hnd & Hds & Hts).
    destruct (parse_step_spec acc m) as (Scols & Skeys & Sds & Sts).
    cbn zeta in *. rewrite Hcols, Hts, Scols, Sts. clear Hcols Hts Scols Sts.
    split; [|split; [|split; [|split]]].
    + destruct (drift_detector.is_column_drift m && default false _);
        cbn [map]; rewrite <- app_assoc; reflexivity.
    + intros c. rewrite Hkeys, Skeys. clear Hkeys Skeys.
      destruct (drift_detector.is_column_drift m) eqn:Hm; cbn.
      * case_bool_decide as Hin; cbn; split.
        -- intros [H|(m' & Hin' & Hm1 & Hm2)]; [left; exact H|].
           right. exists m'. split; [right; exact Hin'|]. auto.
        -- intros [H|(m' & Hin' & Hm1 & Hm2)]; [left; exact H|].
           apply elem_of_cons in Hin' as [->|Hin'].
           ++ left. rewrite <- Hm2. exact Hin.
           ++ right. exists m'. auto.
        -- intros [H|(m' & Hin' & Hm1 & Hm2)].
           ++ apply elem_of_app in H as [H|H]; [left; exact H|].
              apply list_elem_of_singleton in H. right. exists m.
              split; [left|]. auto.
           ++ right. exists m'. split; [right; exact Hin'|]. auto.
        -- intros [H|(m' & Hin' & Hm1 & Hm2)].
           ++ left. apply elem_of_app. left. exact H.
           ++ apply elem_of_cons in Hin' as [->|Hin'].
              ** left. rewrite Hm2. apply elem_of_app. right. left.
              ** right. exists m'. auto.
      * split.
        -- intros [H|(m' & Hin & Hm1 & Hm2)]; [left; exact H|].
           right. exists m'. split; [right; exact Hin|]. auto.
        -- intros [H|(m' & Hin & Hm1 & Hm2)]; [left; exact H|].
           apply elem_of_cons in Hin as [->|Hin]; [congruence|].
           right. exists m'. auto.
    + intros Hacc. apply Hnd. rewrite Skeys.
      destruct (drift_detector.is_column_drift m); cbn; [|exact Hacc].
      case_bool_decide as Hin; cbn; [exact Hacc|].
      apply NoDup_app. split; [exact Hacc|]. split.
      * intros x Hx Hx'. apply list_elem_of_singleton in Hx' as ->.
        contradiction.
      * apply NoDup_singleton.
    + intros Hall. apply Forall_cons in Hall as [Hm Hall].
      destruct (Hds Hall) as (-> & -> & ->). rewrite Hm in Sds.
      injection Sds as -> -> ->. auto.
    + reflexivity.
Qed.

(** X13.  Parsing a drift report.  The drifted columns are the names of the
    column metrics that report drift, in report order (a metric without a
    name counts as [unknown]); every one of them has an entry among the
    column scores, whose keys are exactly the names of the column metrics,
    each once.  Without a dataset metric the result says no dataset drift,
    share 0 and has no [number_of_drifted_columns]; with several, the last
    one is reported. *)
Theorem parse_drift_report_shape (now : string)
    (metrics : list drift_detector.metric) :
  let out := drift_detector._parse_drift_report now metrics in
  drift_detector.drifted_columns out
  = map drift_detector.col_name_of
      (List.filter
         (fun m => drift_detector.is_column_drift m
                   && default false
                        (drift_detector.r_drift_detected
                           (drift_detector.result_of m)))
         metrics)
  /\ (forall c, c ∈ drift_detector.drifted_columns out ->
                c ∈ py.keys (drift_detector.column_drift_scores out))
  /\ (forall c,
         c ∈ py.keys (drift_detector.column_drift_scores out) <->
         exists m, m ∈ metrics
                   /\ drift_detector.is_column_drift m = true
                   /\ drift_detector.col_name_of m = c)
  /\ NoDup (py.keys (drift_detector.column_drift_scores out))
  /\ (Forall (fun m => drift_detector.is_dataset_drift m = false) metrics ->
      drift_detector.dataset_drift out = false
      /\ drift_detector.drift_share out = 0
      /\ drift_detector.number_of_drifted_columns out = None)
  /\ (forall before m after,
         metrics = before ++ m :: after ->
         drift_detector.is_dataset_drift m = true ->
         Forall (fun m' => drift_detector.is_dataset_drift m' = false) after ->
         drift_detector.dataset_drift out
         = default false (drift_detector.r_dataset_drift
                            (drift_detector.result_of m))
         /\ drift_detector.drift_share out
            = default 0 (drift_detector.r_drift_share
                           (drift_detector.result_of m)))
  /\ drift_detector.timestamp out = now.
Proof.
  cbn zeta. unfold drift_detector._parse_drift_report.
  set (init := {| drift_detector.timestamp := now |}).
  destruct (parse_loop metrics init) as (Hcols & Hkeys & Hnd & Hds & Hts).
  cbn zeta in *.
  assert (Hkeys' : forall c,
    c ∈ py.keys (drift_detector.column_drift_scores
                   (fold_left drift_detector.parse_step metrics init)) <->
    exists m, m ∈ metrics /\ drift_detector.is_column_drift m = true
              /\ drift_detector.col_name_of m = c).
  { intros c. rewrite Hkeys. split; [|auto].
    intros [H|H]; [apply elem_of_nil in H as []|exact H]. }
  split; [exact Hcols|]. split; [|split; [exact Hkeys'|split; [|split; [|split]]]].
  - intros c Hc. apply Hkeys'. rewrite Hcols in Hc. cbn in Hc.
    apply list_elem_of_fmap in Hc as (m & -> & Hm).
    apply list_elem_of_In, filter_In in Hm as [Hm Hflag].
    apply andb_true_iff in Hflag as [Hflag _].
    exists m. split; [apply list_elem_of_In, Hm|]. auto.
  - apply Hnd. apply NoDup_nil_2.
  - exact Hds.
  - intros before m after -> Hm Hafter. rewrite fold_left_app.
    cbn [fold_left].
    destruct (parse_loop after
                (drift_detector.parse_step
                   (fold_left drift_detector.parse_step before init) m))
      as (_ & _ & _ & Hds' & _).
    destruct (Hds' Hafter) as (-> & -> & _).
    destruct (parse_step_spec
                (fold_left drift_detector.parse_step before init) m)
      as (_ & _ & Sds & _).
    rewrite Hm in Sds. injection Sds as -> -> _. auto.
  - exact Hts.
Qed.

(** ** The lightweight monitor *)

Lemma score_of_baseline_mean b feature mean0 :
  py.zero_or_nan (utils_monitoring.score b feature mean0 mean0).
Proof.
  unfold utils_monitoring.score.
  apply div_zero_or_nan, abs_zero_or_nan, sub_self_zero_or_nan.
Qed.

(** X14.  A monitor checked against the very data its baseline was set from
    (a frame whose columns bear distinct names) reports no drift, whatever
    the data: [detect_drift] returns, no feature is listed, and every feature
    scores a zero or, where a mean is not finite or the deviation is NaN as
    for a one-row frame, NaN, which never compares above the threshold. *)
Theorem baseline_data_shows_no_drift (N : utils_monitoring.Numeric)
    (name now : string) (calls : list utils_monitoring.call)
    (data : utils_monitoring.frame) (predictions : list Q) :
  NoDup (utils_monitoring.mean data).*1 ->
  let self :=
    utils_monitoring.set_baseline (utils_monitoring.after_calls name calls)
      now data predictions in
  exists report scores,
    utils_monitoring.detect_drift self data = py.Return report
    /\ utils_monitoring.drift_detected report = false
    /\ utils_monitoring.drifted_features report = Some []
    /\ utils_monitoring.message report = None
    /\ utils_monitoring.drift_scores report = Some scores
    /\ forall feature mean0,
         (feature, mean0) ∈ utils_monitoring.mean data ->
         exists s, scores !! feature = Some s
                   /\ py.fgt s 0.1 = false
                   /\ (py.feq s 0 = true \/ py.feq s s = false).
Proof.
  intros Hnd. cbn zeta. unfold utils_monitoring.detect_drift.
  cbn [utils_monitoring.baseline_stats utils_monitoring.set_baseline
       utils_monitoring.drift_threshold].
  rewrite after_calls_threshold.
  set (b := {| utils_monitoring.feature_means :=
                 utils_monitoring.to_dict (utils_monitoring.mean data) |}).
  assert (Hmean : forall f cm, (f, cm) ∈ utils_monitoring.mean data ->
                    utils_monitoring.feature_means b !! f = Some cm).
  { intros f cm Hin. apply elem_of_list_to_map_1.
    - rewrite fmap_reverse, reverse_Permutation. exact Hnd.
    - apply elem_of_reverse. exact Hin. }
  assert (Hflag : forall e, e ∈ utils_monitoring.mean data ->
                    ~ utils_monitoring.flagged b 0.1 e).
  { intros [f cm] Hin (bm & Hbm & Hlt). cbn [fst snd] in Hbm, Hlt.
    rewrite (Hmean f cm Hin) in Hbm. injection Hbm as <-.
    destruct (zero_or_nan_not_above _ (score_of_baseline_mean b f cm))
      as [Hno _].
    congruence. }
  cbn zeta.
  destruct (drift_loop_spec b 0.1 (utils_monitoring.mean data) Hnd
              (utils_monitoring.mean data) (fun e He => He) false [] ∅)
    as ([[detected features] scores] & Hout & H1 & H2 & _ & H4).
  rewrite Hout. cbn [mbind result_bind py.bind].
  cbn [fst snd] in H1, H2, H4.
  eexists _, scores. split; [reflexivity|].
  cbn [utils_monitoring.drift_detected utils_monitoring.drifted_features
       utils_monitoring.message utils_monitoring.drift_scores].
  split; [|split; [|split; [|split]]].
  - destruct detected; [|reflexivity].
    destruct H1 as [H1 _]. destruct (H1 eq_refl) as [H|(e & He & Hf)];
      [discriminate|]. destruct (Hflag e He Hf).
  - destruct features as [|f features]; [reflexivity|].
    destruct (H2 f) as [H _].
    destruct H as [H|(cm & He & Hf)]; [left|apply elem_of_nil in H as []|].
    destruct (Hflag _ He Hf).
  - reflexivity.
  - reflexivity.
  - intros f cm Hin.
    exists (utils_monitoring.score b f cm cm).
    split; [|apply zero_or_nan_not_above, score_of_baseline_mean].
    apply (H4 Hnd f cm cm Hin). apply Hmean, Hin.
Qed.

Lemma baseline_data_shows_no_drift_witness :
  exists report,
    @utils_monitoring.detect_drift utils_monitoring.demo_numeric
      utils_monitoring.demo_monitor [("x", 0%float); ("y", 5%float)]
    = py.Return report
    /\ utils_monitoring.drift_detected report = false.
Proof.
  destruct (baseline_data_shows_no_drift utils_monitoring.demo_numeric
              "demo" "t0" [] [("x", 0%float); ("y", 5%float)] [1; 2])
    as (report & scores & Hrun & Hno & _).
  - cbn. repeat constructor; decide_elem.
  - exists report. split; [exact Hrun|exact Hno].
Defined.

Lemma list_sum_records (N : utils_monitoring.Numeric)
    (logs : list (string * utils_monitoring.frame * list Q * Q)) :
  map utils_monitoring.num_samples (utils_monitoring.records logs)
  = map (fun l => length l.1.2) logs.
Proof.
  unfold utils_monitoring.records. rewrite map_map. apply map_ext.
  intros [[[now input_data] predictions] latency]. reflexivity.
Qed.

(** X15.  The performance statistics of a monitor.  They are the
    [No prediction history available] message exactly when the history is
    empty, in particular after [reset_history]; otherwise the request count
    is the history length, which never exceeds 1000.  For a fresh monitor
    that logged some batches, the request count is the smaller of their
    number and 1000, and the prediction count is the number of predictions
    in the last 1000 batches only. *)
Theorem performance_stats_cover_kept_history (N : utils_monitoring.Numeric)
    (L : utils_monitoring.Latencies) (name : string)
    (calls : list utils_monitoring.call)
    (logs : list (string * utils_monitoring.frame * list Q * Q)) :
  let self := utils_monitoring.after_calls name calls in
  let stats := utils_monitoring.get_performance_stats self in
  (utils_monitoring.prediction_history self = [] <->
   stats = utils_monitoring.NoHistory "No prediction history available")
  /\ (utils_monitoring.prediction_history self <> [] ->
      exists total_predictions,
        utils_monitoring.totals stats
        = Some (total_predictions,
                length (utils_monitoring.prediction_history self))
        /\ (length (utils_monitoring.prediction_history self) <= 1000)%nat)
  /\ utils_monitoring.get_performance_stats
       (utils_monitoring.reset_history self)
     = utils_monitoring.NoHistory "No prediction history available"
  /\ (logs <> [] ->
      utils_monitoring.totals
        (utils_monitoring.get_performance_stats
           (utils_monitoring.logged (utils_monitoring.__init__ name) logs))
      = Some (list_sum (map (fun l => length l.1.2) (py.last_n 1000 logs)),
              Nat.min (length logs) 1000)).
Proof.
  cbn zeta. split; [|split; [|split]].
  - unfold utils_monitoring.get_performance_stats.
    destruct (utils_monitoring.prediction_history _); split;
      try reflexivity; discriminate.
  - intros Hne. pose proof (after_calls_capped N name calls) as Hcap.
    unfold utils_monitoring.get_performance_stats.
    destruct (utils_monitoring.prediction_history _); [congruence|].
    eexists. split; [reflexivity|exact Hcap].
  - reflexivity.
  - intros Hne.
    pose proof (logged_history N logs (utils_monitoring.__init__ name))
      as Hlog.
    cbn [utils_monitoring.prediction_history utils_monitoring.__init__
         length app] in Hlog.
    specialize (Hlog ltac:(lia)).
    assert (Hrec : py.last_n 1000 (utils_monitoring.records logs)
                   = utils_monitoring.records (py.last_n 1000 logs)).
    { unfold py.last_n, utils_monitoring.records.
      rewrite length_map, skipn_map. reflexivity. }
    unfold utils_monitoring.get_performance_stats. rewrite Hlog, Hrec.
    destruct (utils_monitoring.records (py.last_n 1000 logs)) eqn:E.
    + exfalso. apply (f_equal length) in E.
      unfold utils_monitoring.records, py.last_n in E.
      rewrite length_map, length_skipn in E. cbn in E.
      destruct logs; [congruence|]. cbn [length] in E. lia.
    + rewrite <- E. cbn [utils_monitoring.totals].
      rewrite list_sum_records. f_equal. f_equal.
      unfold utils_monitoring.records, py.last_n.
      rewrite length_map, length_skipn. lia.
Qed.

Lemma performance_stats_cover_kept_history_witness :
  utils_monitoring.totals
    (@utils_monitoring.get_performance_stats utils_monitoring.demo_numeric
       utils_monitoring.demo_latencies
       (@utils_monitoring.logged utils_monitoring.demo_numeric
          (utils_monitoring.__init__ "demo")
          [("t1", [("x", 1%float)], [1; 2; 3], 12);
           ("t2", [("x", 2%float)], [4], 7)]))
  = Some (4%nat, 2%nat).
Proof.
  apply (proj2 (proj2 (proj2
           (performance_stats_cover_kept_history utils_monitoring.demo_numeric
              utils_monitoring.demo_latencies "demo" []
              [("t1", [("x", 1%float)], [1; 2; 3], 12);
               ("t2", [("x", 2%float)], [4], 7)])))).
  discriminate.
Defined.

(** ** Secrets and precedence in the configuration manager *)

Lemma remove_none_lookup (m : gmap string config_manager.value) (k : string) :
  config_manager.remove_none_items m !! k =
  match m !! k with
  | Some v => if config_manager.is_none v then None
              else Some (config_manager._remove_none_values v)
  | None => None
  end.
Proof.
  unfold config_manager.remove_none_items.
  apply (map_fold_weak_ind
           (fun (result o : gmap string config_manager.value) =>
              result !! k =
              match o !! k with
              | Some v => if config_manager.is_none v then None
                          else Some (config_manager._remove_none_values v)
              | None => None
              end)).
  - rewrite lookup_empty. reflexivity.
  - intros i v o result Hi IH.
    destruct (decide (i = k)) as [->|Hne].
    + rewrite Hi in IH. rewrite lookup_insert_eq.
      destruct (config_manager.is_none v); [exact IH|].
      rewrite lookup_insert_eq. reflexivity.
    + rewrite (lookup_insert_ne o) by exact Hne. rewrite <- IH.
      destruct (config_manager.is_none v); [reflexivity|].
      rewrite lookup_insert_ne by exact Hne. reflexivity.
Qed.

Lemma remove_none_keeps_kind (v : config_manager.value) :
  config_manager.is_none v = false ->
  config_manager.is_none (config_manager._remove_none_values v) = false.
Proof. destruct v; cbn; congruence. Qed.

(** X16.  [_remove_none_values], key by key: a key whose value is [None] is
    dropped, every other key is kept with its value cleaned in turn, so no
    key of the result holds [None]; a value that is not a dict, a list
    holding [None] included, is returned as it is. *)
Theorem remove_none_values_key_by_key :
  (forall (m : gmap string config_manager.value),
      config_manager._remove_none_values (config_manager.VDict m)
      = config_manager.VDict (config_manager.remove_none_items m))
  /\ (forall (m : gmap string config_manager.value) k,
         m !! k = Some config_manager.VNone \/ m !! k = None ->
         config_manager.remove_none_items m !! k = None)
  /\ (forall (m : gmap string config_manager.value) k v,
         m !! k = Some v -> v <> config_manager.VNone ->
         config_manager.remove_none_items m !! k
         = Some (config_manager._remove_none_values v))
  /\ (forall (m : gmap string config_manager.value) k,
         config_manager.remove_none_items m !! k
         <> Some config_manager.VNone)
  /\ (forall v, config_manager.is_dict v = false ->
                config_manager._remove_none_values v = v)
  /\ config_manager._remove_none_values
       (config_manager.VList [config_manager.VNone])
     = config_manager.VList [config_manager.VNone].
Proof.
  split; [reflexivity|]. split; [|split; [|split; [|split]]].
  - intros m k [H|H]; rewrite remove_none_lookup, H; reflexivity.
  - intros m k v H Hv. rewrite remove_none_lookup, H.
    destruct v; try reflexivity. congruence.
  - intros m k. rewrite remove_none_lookup.
    destruct (m !! k) as [v|]; [|discriminate].
    destruct (config_manager.is_none v) eqn:E; [discriminate|].
    intros [= H]. apply remove_none_keeps_kind in E. rewrite H in E.
    discriminate.
  - intros v Hv. destruct v; try reflexivity. discriminate.
  - reflexivity.
Qed.

Lemma deep_merge_empty (base : gmap string config_manager.value) :
  config_manager._deep_merge base ∅ = base.
Proof.
  apply map_eq. intros k. rewrite deep_merge_lookup, lookup_empty.
  reflexivity.
Qed.

Lemma load_secrets_merge (E : config_manager.Environment)
    (self : config_manager.ConfigManager) :
  config_manager._load_secrets self
  = config_manager._deep_merge
      (config_manager.remove_none_items config_manager.env_secrets)
      (config_manager.file_secrets self).
Proof.
  unfold config_manager._load_secrets, config_manager.file_secrets.
  destruct (config_manager.yaml_file _) as [[loaded|e]|];
    rewrite ?deep_merge_empty; reflexivity.
Qed.

Lemma env_secrets_lookup (E : config_manager.Environment) :
  config_manager.remove_none_items config_manager.env_secrets !! "aws_region"
  = config_manager.VStr <$> config_manager.getenv "AWS_REGION"
  /\ config_manager.remove_none_items config_manager.env_secrets !! "mlflow"
     = Some (config_manager.VDict
               (config_manager.remove_none_items
                  {[ "tracking_uri" :=
                       config_manager.env_value "MLFLOW_TRACKING_URI";
                     "registry_uri" :=
                       config_manager.env_value "MLFLOW_REGISTRY_URI" ]}))
  /\ forall k, k <> "mlflow" -> k <> "data" -> k <> "aws_region" ->
       config_manager.remove_none_items config_manager.env_secrets !! k = None.
Proof.
  unfold config_manager.env_secrets. split; [|split].
  - rewrite remove_none_lookup.
    rewrite lookup_insert_ne by discriminate.
    rewrite lookup_insert_ne by discriminate.
    rewrite lookup_singleton_eq. unfold config_manager.env_value.
    destruct (config_manager.getenv "AWS_REGION"); reflexivity.
  - rewrite remove_none_lookup, lookup_insert_eq. reflexivity.
  - intros k H1 H2 H3. rewrite remove_none_lookup.
    rewrite !lookup_insert_ne by congruence.
    rewrite lookup_singleton_ne by congruence. reflexivity.
Qed.

Lemma merged_at_scalar (b : option config_manager.value)
    (v : config_manager.value) :
  config_manager.is_dict v = false -> config_manager.merged_at b v = v.
Proof.
  intros Hv. destruct v; try discriminate; destruct b as [[]|]; reflexivity.
Qed.

Lemma secrets_lookup (E : config_manager.Environment)
    (self : config_manager.ConfigManager) (k : string) :
  config_manager._load_secrets self !! k =
  match config_manager.file_secrets self !! k with
  | Some v =>
      Some (config_manager.merged_at
              (config_manager.remove_none_items config_manager.env_secrets
               !! k) v)
  | None =>
      config_manager.remove_none_items config_manager.env_secrets !! k
  end.
Proof. rewrite load_secrets_merge. apply deep_merge_lookup. Qed.

Lemma merged_config_merge (E : config_manager.Environment)
    (self : config_manager.ConfigManager) (config_name : string) :
  config_manager.merged_config self config_name
  = config_manager._deep_merge
      (config_manager._deep_merge
         (config_manager._load_config_file self (config_name +:+ ".yaml"))
         (config_manager._load_config_file self
            (config_name +:+ "." +:+ config_manager.cm_environment self
               +:+ ".yaml")))
      (config_manager._load_secrets self).
Proof.
  unfold config_manager.merged_config.
  set (env_name := config_name +:+ "."
                     +:+ config_manager.cm_environment self +:+ ".yaml").
  assert (Henv : match config_manager.yaml_file
                         (config_manager.path_of self env_name) with
                 | Some _ => config_manager._load_config_file self env_name
                 | None => ∅
                 end
                 = config_manager._load_config_file self env_name).
  { unfold config_manager._load_config_file.
    destruct (config_manager.yaml_file _); reflexivity. }
  rewrite Henv. generalize (config_manager._load_secrets self).
  intros secrets. case_bool_decide as Hempty; [|reflexivity].
  rewrite Hempty. symmetry. apply deep_merge_empty.
Qed.

(** X17.  Precedence in the merged configuration that [load_config] builds:
    the secrets file beats the process environment, which beats the
    environment-specific file, which beats the base file.  For [aws_region]:
    a value from the secrets file wins; else [AWS_REGION] wins over both
    configuration files; else the files decide.  [MLFLOW_TRACKING_URI], when
    set and the secrets file has no [mlflow] entry, ends up under
    [mlflow.tracking_uri] whatever the files hold there, and [mlflow] is then
    a dict even if a file gave it a scalar.  Keys that the secrets do not
    touch come from the files. *)
Theorem secrets_take_precedence (E : config_manager.Environment)
    (self : config_manager.ConfigManager) (config_name : string) :
  let merged := config_manager.merged_config self config_name in
  let files :=
    config_manager._deep_merge
      (config_manager._load_config_file self (config_name +:+ ".yaml"))
      (config_manager._load_config_file self
         (config_name +:+ "." +:+ config_manager.cm_environment self
            +:+ ".yaml")) in
  let secret := config_manager.file_secrets self in
  (forall v, secret !! "aws_region" = Some v ->
             config_manager.is_dict v = false ->
             merged !! "aws_region" = Some v)
  /\ (forall r, secret !! "aws_region" = None ->
                config_manager.getenv "AWS_REGION" = Some r ->
                merged !! "aws_region" = Some (config_manager.VStr r))
  /\ (secret !! "aws_region" = None ->
      config_manager.getenv "AWS_REGION" = None ->
      merged !! "aws_region" = files !! "aws_region")
  /\ (forall u, secret !! "mlflow" = None ->
                config_manager.getenv "MLFLOW_TRACKING_URI" = Some u ->
                exists d, merged !! "mlflow" = Some (config_manager.VDict d)
                          /\ d !! "tracking_uri"
                             = Some (config_manager.VStr u))
  /\ (forall k, k <> "mlflow" -> k <> "data" -> k <> "aws_region" ->
                secret !! k = None -> merged !! k = files !! k).
Proof.
  cbn zeta.
  destruct (env_secrets_lookup E) as (Hregion & Hmlflow & Hother).
  rewrite merged_config_merge.
  generalize (config_manager._deep_merge
                (config_manager._load_config_file self
                   (config_name +:+ ".yaml"))
                (config_manager._load_config_file self
                   (config_name +:+ "."
                      +:+ config_manager.cm_environment self +:+ ".yaml"))).
  intros files.
  split; [|split; [|split; [|split]]].
  - intros v Hv Hd. rewrite deep_merge_lookup, secrets_lookup, Hv.
    rewrite (merged_at_scalar _ v Hd), (merged_at_scalar _ v Hd).
    reflexivity.
  - intros r Hs Hr. rewrite deep_merge_lookup, secrets_lookup, Hs.
    rewrite Hregion, Hr. cbn [fmap option_fmap option_map].
    rewrite merged_at_scalar by reflexivity. reflexivity.
  - intros Hs Hr. rewrite deep_merge_lookup, secrets_lookup, Hs.
    rewrite Hregion, Hr. reflexivity.
  - intros u Hs Hu.
    assert (Huri : config_manager.remove_none_items
                     {[ "tracking_uri" :=
                          config_manager.env_value "MLFLOW_TRACKING_URI";
                        "registry_uri" :=
                          config_manager.env_value "MLFLOW_REGISTRY_URI" ]}
                   !! "tracking_uri" = Some (config_manager.VStr u)).
    { rewrite remove_none_lookup, lookup_insert_eq.
      unfold config_manager.env_value. rewrite Hu. reflexivity. }
    rewrite deep_merge_lookup, secrets_lookup, Hs, Hmlflow.
    revert Huri.
    generalize (config_manager.remove_none_items
                  {[ "tracking_uri" :=
                       config_manager.env_value "MLFLOW_TRACKING_URI";
                     "registry_uri" :=
                       config_manager.env_value "MLFLOW_REGISTRY_URI" ]}).
    intros d0 Huri.
    destruct (files !! "mlflow") as [[| | | | | |rb]|];
      cbn [config_manager.merged_at];
      try (exists d0; split; [reflexivity|exact Huri]).
    exists (config_manager._deep_merge rb d0). split; [reflexivity|].
    rewrite deep_merge_lookup, Huri.
    rewrite merged_at_scalar by reflexivity. reflexivity.
  - intros k H1 H2 H3 Hs. rewrite deep_merge_lookup, secrets_lookup, Hs.
    rewrite (Hother k H1 H2 H3). reflexivity.
Qed.

Lemma secrets_take_precedence_witness :
  @config_manager.merged_config config_manager.demo_environment
    (@config_manager.__init__ config_manager.demo_environment "config" None)
    "config" !! "aws_region"
  = Some (config_manager.VStr "eu-central-1").
Proof.
  apply (proj1 (proj2
           (secrets_take_precedence config_manager.demo_environment
              (@config_manager.__init__ config_manager.demo_environment
                 "config" None) "config")) "eu-central-1");
    vm_compute; reflexivity.
Defined.

(** ** Predictions and the counters *)

(** One call of [predict] moves the counters as its event does, and touches
    nothing else of the pipeline. *)
Lemma predict_step (R : inference_pipeline.Runtime)
    (self : inference_pipeline.InferencePipeline) data flag threshold elapsed :
  let out := inference_pipeline.predict self data flag threshold elapsed in
  inference_pipeline.stats (snd out)
  = inference_pipeline.step (inference_pipeline.stats self)
      (inference_pipeline.event_of self (fst out))
  /\ inference_pipeline.model (snd out) = inference_pipeline.model self
  /\ inference_pipeline.feature_engineer (snd out)
     = inference_pipeline.feature_engineer self
  /\ inference_pipeline.model_metadata (snd out)
     = inference_pipeline.model_metadata self
  /\ match fst out with
     | py.Return result =>
         inference_pipeline.num_samples result
         = length (inference_pipeline.predictions result)
         /\ inference_pipeline.inference_time result = elapsed
         /\ inference_pipeline.result_metadata result
            = inference_pipeline.model_metadata self
     | py.Raise _ => True
     end.
Proof.
  cbn zeta. unfold inference_pipeline.predict, inference_pipeline.event_of.
  destruct (inference_pipeline.model self) as [m|] eqn:Hm; cbn [fst snd].
  - destruct (inference_pipeline.predict_body self m data flag threshold
                elapsed) as [result|e] eqn:Hbody; cbn [fst snd].
    + assert (Hres : inference_pipeline.num_samples result
                     = length (inference_pipeline.predictions result)
                     /\ inference_pipeline.inference_time result = elapsed
                     /\ inference_pipeline.result_metadata result
                        = inference_pipeline.model_metadata self).
      { revert Hbody. unfold inference_pipeline.predict_body.
        destruct (inference_pipeline.preprocess_data self data) as [X|];
          cbn; [|discriminate].
        destruct (inference_pipeline.m_predict m X) as [ps|]; cbn;
          [|discriminate].
        match goal with
        | |- context [mbind _ ?b] => destruct b as [prob|]
        end; cbn; [|discriminate].
        intros [= <-]. cbn. auto. }
      destruct Hres as (Hn & Ht & Hmeta). cbn. rewrite Hn, Hm.
      repeat split; auto.
    + cbn. rewrite Hm. repeat split; auto.
  - rewrite Hm. repeat split; auto.
Qed.

Lemma serve_calls_invariant (R : inference_pipeline.Runtime)
    (calls : list inference_pipeline.call) :
  forall self events,
    inference_pipeline.stats self = inference_pipeline.after events ->
    let out := fold_left inference_pipeline.serve_call calls (self, events) in
    inference_pipeline.stats out.1 = inference_pipeline.after out.2
    /\ length out.2 = (length events + length calls)%nat
    /\ inference_pipeline.model out.1 = inference_pipeline.model self
    /\ (inference_pipeline.model self = None ->
        inference_pipeline.stats self = inference_pipeline.zero_stats ->
        inference_pipeline.stats out.1 = inference_pipeline.zero_stats).
Proof.
  induction calls as [|c calls IH]; intros self events Hinv; cbn zeta.
  - cbn. repeat split; auto.
  - cbn [fold_left]. destruct c as [data flag threshold elapsed|].
    + destruct (predict_step R self data flag threshold elapsed)
        as (Hstats & Hmodel & _).
      cbn zeta in Hstats, Hmodel.
      destruct (inference_pipeline.predict self data flag threshold elapsed)
        as [out self'] eqn:Hp. cbn [fst snd] in *.
      assert (Hstep : inference_pipeline.serve_call (self, events)
                        (inference_pipeline.Predict data flag threshold
                           elapsed)
                      = (self', events
                                ++ [inference_pipeline.event_of self out])).
      { unfold inference_pipeline.serve_call. rewrite Hp. reflexivity. }
      rewrite Hstep. clear Hstep.
      destruct (IH self' (events ++ [inference_pipeline.event_of self out]))
        as (H1 & H2 & H3 & H4).
      { unfold inference_pipeline.after. rewrite fold_left_app. cbn.
        rewrite Hstats, Hinv. reflexivity. }
      cbn zeta in *. split; [exact H1|]. split.
      { rewrite H2, length_app. cbn. lia. }
      split; [rewrite H3; exact Hmodel|].
      intros Hnone Hzero. apply H4; [rewrite Hmodel; exact Hnone|].
      rewrite Hstats, Hzero. unfold inference_pipeline.event_of.
      rewrite Hnone. reflexivity.
    + change (inference_pipeline.serve_call (self, events)
                inference_pipeline.Reset)
        with (inference_pipeline.reset_stats self,
              events ++ [inference_pipeline.ResetStats]).
      destruct (IH (inference_pipeline.reset_stats self)
                  (events ++ [inference_pipeline.ResetStats]))
        as (H1 & H2 & H3 & H4).
      { unfold inference_pipeline.after. rewrite fold_left_app. reflexivity. }
      cbn zeta in *. split; [exact H1|]. split.
      { rewrite H2, length_app. cbn. lia. }
      split; [exact H3|].
      intros Hnone Hzero. apply H4; [exact Hnone|reflexivity].
Qed.

Lemma after_error_count_nonneg (events : list inference_pipeline.event) :
  (0 <= inference_pipeline.error_count (inference_pipeline.after events))%Z.
Proof.
  unfold inference_pipeline.after.
  assert (H : (0 <= inference_pipeline.error_count
                      inference_pipeline.zero_stats)%Z) by (cbn; lia).
  revert H. generalize inference_pipeline.zero_stats.
  induction events as [|e events IH]; intros stats H; [exact H|].
  cbn [fold_left]. apply IH. destruct e; cbn; lia.
Qed.

(** X18.  The counters of a pipeline that has served any sequence of
    [predict] and [reset_stats] calls are those of the event model: each
    returned prediction adds its number of samples and its time, each
    failure inside the [try] adds one error, a call without a model counts
    nothing.  So the counts are never negative, and a pipeline without a
    model keeps all counters at zero however often it is called. *)
Theorem counters_follow_calls (R : inference_pipeline.Runtime)
    (model0 : option inference_pipeline.Estimator)
    (engineer : option inference_pipeline.FeatureEngineer)
    (metadata : list (string * string))
    (calls : list inference_pipeline.call) :
  let out :=
    fold_left inference_pipeline.serve_call calls
      (inference_pipeline.fresh model0 engineer metadata, []) in
  inference_pipeline.stats out.1 = inference_pipeline.after out.2
  /\ length out.2 = length calls
  /\ inference_pipeline.model out.1 = model0
  /\ (0 <= inference_pipeline.total_predictions
             (inference_pipeline.stats out.1))%Z
  /\ (0 <= inference_pipeline.error_count
             (inference_pipeline.stats out.1))%Z
  /\ (model0 = None ->
      inference_pipeline.stats out.1 = inference_pipeline.zero_stats).
Proof.
  cbn zeta.
  destruct (serve_calls_invariant R calls
              (inference_pipeline.fresh model0 engineer metadata) []
              eq_refl) as (H1 & H2 & H3 & H4).
  cbn zeta in *. split; [exact H1|]. split; [exact H2|].
  split; [exact H3|]. rewrite H1.
  split; [apply after_nonneg|]. split; [apply after_error_count_nonneg|].
  intros Hnone. rewrite <- H1. apply H4; [exact Hnone|reflexivity].
Qed.

Lemma max_rows_length (m : list (list Q)) :
  forall maxima, inference_pipeline.max_rows m = py.Return maxima ->
                 length maxima = length m.
Proof.
  induction m as [|r m IH]; intros maxima; cbn.
  - intros [= <-]. reflexivity.
  - destruct (inference_pipeline.row_max r); cbn; [|discriminate].
    destruct (inference_pipeline.max_rows m) as [rest|]; cbn;
      [|discriminate].
    intros [= <-]. cbn. rewrite (IH rest eq_refl). reflexivity.
Qed.

Lemma mark_uncertain_spec (predictions0 : list Z) :
  forall mask marked,
    inference_pipeline.mark_uncertain predictions0 mask = py.Return marked ->
    length mask = length predictions0
    /\ length marked = length predictions0
    /\ forall (i : nat) (p : Z) (b : bool),
         predictions0 !! i = Some p -> mask !! i = Some b ->
         marked !! i = Some (if b then p else (-1)%Z).
Proof.
  induction predictions0 as [|p0 ps IH]; intros [|b0 mask] marked; cbn;
    try discriminate.
  - intros [= <-]. repeat split. intros i p b H. discriminate H.
  - destruct (inference_pipeline.mark_uncertain ps mask) as [rest|] eqn:E;
      cbn; [|discriminate].
    intros [= <-]. destruct (IH mask rest E) as (H1 & H2 & H3).
    cbn. repeat split; [lia|lia|].
    intros [|i] p b; cbn.
    + intros [= <-] [= <-]. reflexivity.
    + apply H3.
Qed.

Lemma count_true_le (mask : list bool) :
  (inference_pipeline.count_true mask <= length mask)%nat.
Proof.
  unfold inference_pipeline.count_true.
  induction mask as [|[] mask IH]; cbn; lia.
Qed.

Lemma count_true_mono (maxima : list Q) (t1 t2 : Q) :
  (t1 <= t2)%Q ->
  (inference_pipeline.count_true (map (fun p => Qle_bool t2 p) maxima)
   <= inference_pipeline.count_true (map (fun p => Qle_bool t1 p) maxima))%nat.
Proof.
  intros Ht. unfold inference_pipeline.count_true.
  induction maxima as [|p maxima IH]; cbn; [lia|].
  destruct (Qle_bool t2 p) eqn:E2; destruct (Qle_bool t1 p) eqn:E1; cbn;
    try lia.
  apply Qle_bool_iff in E2.
  assert (H : Qle_bool t1 p = true).
  { apply Qle_bool_iff. eapply Qle_trans; eassumption. }
  congruence.
Qed.

(** What a returned [predict] with a threshold computed, step by step. *)
Lemma predict_confident (R : inference_pipeline.Runtime)
    (self : inference_pipeline.InferencePipeline) data threshold elapsed
    result self' part :
  inference_pipeline.predict self data true (Some threshold) elapsed
  = (py.Return result, self') ->
  inference_pipeline.probability result = Some part ->
  exists m X predict_proba marked,
    inference_pipeline.model self = Some m
    /\ inference_pipeline.preprocess_data self data = py.Return X
    /\ inference_pipeline.m_predict m X
       = py.Return (inference_pipeline.predictions result)
    /\ inference_pipeline.m_predict_proba m = Some predict_proba
    /\ predict_proba X = py.Return (inference_pipeline.probabilities part)
    /\ inference_pipeline.max_rows (inference_pipeline.probabilities part)
       = py.Return (inference_pipeline.max_probability part)
    /\ inference_pipeline.mark_uncertain
         (inference_pipeline.predictions result)
         (map (fun p => Qle_bool threshold p)
              (inference_pipeline.max_probability part))
       = py.Return marked
    /\ inference_pipeline.confident part
       = Some {| inference_pipeline.confident_predictions := marked;
                 inference_pipeline.confidence_flags :=
                   map (fun p => Qle_bool threshold p)
                       (inference_pipeline.max_probability part);
                 inference_pipeline.confident_count :=
                   inference_pipeline.count_true
                     (map (fun p => Qle_bool threshold p)
                          (inference_pipeline.max_probability part)) |}
    /\ inference_pipeline.num_samples result
       = length (inference_pipeline.predictions result).
Proof.
  unfold inference_pipeline.predict.
  destruct (inference_pipeline.model self) as [m|]; [|discriminate].
  destruct (inference_pipeline.predict_body self m data true
              (Some threshold) elapsed) as [r|] eqn:Hbody; [|discriminate].
  intros [= <- _]. revert Hbody. unfold inference_pipeline.predict_body.
  destruct (inference_pipeline.preprocess_data self data) as [X|]; cbn;
    [|discriminate].
  destruct (inference_pipeline.m_predict m X) as [ps|] eqn:Hps; cbn;
    [|discriminate].
  destruct (inference_pipeline.m_predict_proba m) as [pp|] eqn:Hpp; cbn.
  2:{ intros [= <-]. discriminate. }
  destruct (pp X) as [probs|] eqn:Hprobs; cbn; [|discriminate].
  destruct (inference_pipeline.max_rows probs) as [maxima|] eqn:Hmax; cbn;
    [|discriminate].
  destruct (inference_pipeline.mark_uncertain ps _) as [marked|] eqn:Hmark;
    cbn; [|discriminate].
  intros [= <-]. cbn. intros [= <-]. cbn.
  exists m, X, pp, marked. repeat split; auto.
Qed.

(** X19.  A prediction with probabilities and a confidence threshold.  The
    flags say, sample by sample, whether the largest class probability
    reaches the threshold; there is one per sample; the confident count is
    the number of raised flags and never exceeds the number of samples; the
    confident predictions repeat the prediction where the flag is raised and
    hold -1 elsewhere; and a higher threshold on the same data never
    yields a larger confident count. *)
Theorem confidence_flags_mark_predictions (R : inference_pipeline.Runtime)
    (self : inference_pipeline.InferencePipeline)
    (data : list inference_pipeline.row) (threshold elapsed : Q)
    (result : inference_pipeline.prediction_result)
    (self' : inference_pipeline.InferencePipeline)
    (part : inference_pipeline.probability_part) :
  inference_pipeline.predict self data true (Some threshold) elapsed
  = (py.Return result, self') ->
  inference_pipeline.probability result = Some part ->
  exists conf,
    inference_pipeline.confident part = Some conf
    /\ inference_pipeline.confidence_flags conf
       = map (fun p => Qle_bool threshold p)
             (inference_pipeline.max_probability part)
    /\ length (inference_pipeline.confidence_flags conf)
       = inference_pipeline.num_samples result
    /\ inference_pipeline.confident_count conf
       = inference_pipeline.count_true
           (inference_pipeline.confidence_flags conf)
    /\ (inference_pipeline.confident_count conf
        <= inference_pipeline.num_samples result)%nat
    /\ (forall (i : nat) (p : Z) (b : bool),
           inference_pipeline.predictions result !! i = Some p ->
           inference_pipeline.confidence_flags conf !! i = Some b ->
           inference_pipeline.confident_predictions conf !! i
           = Some (if b then p else (-1)%Z))
    /\ (forall higher elapsed' result' self'' part' conf',
           (threshold <= higher)%Q ->
           inference_pipeline.predict self data true (Some higher) elapsed'
           = (py.Return result', self'') ->
           inference_pipeline.probability result' = Some part' ->
           inference_pipeline.confident part' = Some conf' ->
           (inference_pipeline.confident_count conf'
            <= inference_pipeline.confident_count conf)%nat).
Proof.
  intros Hp Hpart.
  destruct (predict_confident R self data threshold elapsed result self' part
              Hp Hpart)
    as (m & X & pp & marked & Hm & HX & Hps & Hpp & Hprobs & Hmax & Hmark
        & Hconf & Hn).
  destruct (mark_uncertain_spec _ _ _ Hmark) as (Hlen & _ & Hnth).
  eexists. split; [exact Hconf|]. cbn.
  split; [reflexivity|]. split; [rewrite Hn; exact Hlen|].
  split; [reflexivity|]. split.
  { rewrite Hn, <- Hlen. apply count_true_le. }
  split; [exact Hnth|].
  intros higher elapsed' result' self'' part' conf' Hle Hp' Hpart' Hconf'.
  destruct (predict_confident R self data higher elapsed' result' self''
              part' Hp' Hpart')
    as (m' & X' & pp' & marked' & Hm' & HX' & _ & Hpp' & Hprobs' & Hmax'
        & _ & Hconf'' & _).
  rewrite Hm in Hm'. injection Hm' as <-.
  rewrite HX in HX'. injection HX' as <-.
  rewrite Hpp in Hpp'. injection Hpp' as <-.
  rewrite Hprobs in Hprobs'. injection Hprobs' as Heq.
  rewrite <- Heq, Hmax in Hmax'. injection Hmax' as Hmaxeq.
  rewrite Hconf' in Hconf''. injection Hconf'' as ->. cbn.
  rewrite <- Hmaxeq. apply count_true_mono, Hle.
Qed.

Lemma confidence_flags_mark_predictions_witness :
  exists result part conf,
    fst (@inference_pipeline.predict inference_pipeline.demo_runtime
           inference_pipeline.demo_pipeline [1; -2; 3]%Z true
           (Some (8 # 10)) (1 # 100))
    = py.Return result
    /\ inference_pipeline.probability result = Some part
    /\ inference_pipeline.confident part = Some conf
    /\ inference_pipeline.confidence_flags conf = [true; false; true]
    /\ inference_pipeline.confident_predictions conf = [1; -1; 1]%Z.
Proof.
  destruct (confidence_flags_mark_predictions
              inference_pipeline.demo_runtime
              inference_pipeline.demo_pipeline [1; -2; 3]%Z
              (8 # 10) (1 # 100) _ _ _ eq_refl eq_refl)
    as (conf & Hconf & Hflags & _).
  eexists _, _, conf. split; [reflexivity|]. split; [reflexivity|].
  split; [exact Hconf|]. split; [rewrite Hflags; reflexivity|].
  vm_compute in Hconf. injection Hconf as <-. reflexivity.
Defined.

Lemma batch_loop_counts (R : inference_pipeline.Runtime)
    (data : list inference_pipeline.row) (b : nat) flag threshold elapsed
    (starts : list nat) :
  forall self preds probs time,
    let out := inference_pipeline.batch_loop self data b flag threshold
                 elapsed starts preds probs time in
    inference_pipeline.model (snd out) = inference_pipeline.model self
    /\ match fst out with
       | py.Return (preds', _, time') =>
           (inference_pipeline.total_predictions
              (inference_pipeline.stats (snd out))
            + Z.of_nat (length preds)
            = inference_pipeline.total_predictions
                (inference_pipeline.stats self)
              + Z.of_nat (length preds'))%Z
           /\ inference_pipeline.error_count
                (inference_pipeline.stats (snd out))
              = inference_pipeline.error_count (inference_pipeline.stats self)
           /\ (starts = [] -> preds' = preds /\ snd out = self)
       | py.Raise _ =>
           (inference_pipeline.total_predictions
              (inference_pipeline.stats self)
            <= inference_pipeline.total_predictions
                 (inference_pipeline.stats (snd out)))%Z
           /\ (inference_pipeline.error_count
                 (inference_pipeline.stats (snd out))
               = inference_pipeline.error_count
                   (inference_pipeline.stats self)
               \/ inference_pipeline.error_count
                    (inference_pipeline.stats (snd out))
                  = (inference_pipeline.error_count
                       (inference_pipeline.stats self) + 1)%Z)
       end.
Proof.
  induction starts as [|i starts IH]; intros self preds probs time;
    cbn zeta.
  - cbn. split; [reflexivity|]. split; [reflexivity|].
    split; [reflexivity|]. auto.
  - cbn [inference_pipeline.batch_loop].
    destruct (predict_step R self (take b (drop i data)) flag threshold
                (elapsed i)) as (Hstats & Hmodel & _ & _ & Hres).
    cbn zeta in Hstats, Hmodel, Hres.
    destruct (inference_pipeline.predict self (take b (drop i data)) flag
                threshold (elapsed i)) as [[r|e] self1] eqn:Hp;
      cbn [fst snd] in *.
    + destruct Hres as (Hn & _).
      specialize (IH self1 (preds ++ inference_pipeline.predictions r)
                    (probs ++ default []
                                (inference_pipeline.probabilities
                                   <$> inference_pipeline.probability r))
                    (time + inference_pipeline.inference_time r)%Q).
      cbn zeta in IH. destruct IH as [IHm IH]. split; [congruence|].
      unfold inference_pipeline.event_of in Hstats.
      destruct (inference_pipeline.model self) as [m|] eqn:Hm.
      * destruct (fst _) as [[[preds' probs'] time']|e'].
        -- destruct IH as (H1 & H3 & _). rewrite Hstats, Hn in H1.
           rewrite Hstats in H3.
           cbn [inference_pipeline.step inference_pipeline.total_predictions
                inference_pipeline.total_inference_time
                inference_pipeline.error_count] in H1, H3.
           rewrite length_app in H1.
           split; [lia|]. split; [exact H3|discriminate].
        -- destruct IH as (H1 & H2). rewrite Hstats, Hn in H1.
           rewrite Hstats in H2.
           cbn [inference_pipeline.step inference_pipeline.total_predictions
                inference_pipeline.total_inference_time
                inference_pipeline.error_count] in H1, H2.
           split; [lia|exact H2].
      * exfalso. unfold inference_pipeline.predict in Hp.
        rewrite Hm in Hp. discriminate Hp.
    + split; [exact Hmodel|]. rewrite Hstats.
      unfold inference_pipeline.event_of.
      destruct (inference_pipeline.model self); cbn; split; auto; lia.
Qed.

(** X20.  Batch prediction.  A data path that is neither [.csv] nor
    [.parquet] raises [ValueError] before anything is read, and so does a
    batch size of zero once the data is loaded; an empty data file, or a
    negative batch size, ends in [ZeroDivisionError] with the counters
    untouched.  When a result is returned, it holds at least one prediction,
    the pipeline's prediction counter has grown by exactly the result's
    number of samples, and no error was counted.  When the call raises, at
    most one error was counted and no prediction count was lost. *)
Theorem predict_batch_outcomes (R : inference_pipeline.Runtime)
    (self : inference_pipeline.InferencePipeline)
    (data_path : string) (output_path : option string) (batch_size : Z)
    (flag : bool) (threshold : option Q) (elapsed : nat -> Q) :
  let out := inference_pipeline.predict_batch self data_path output_path
               batch_size flag threshold elapsed in
  let stats0 := inference_pipeline.stats self in
  let stats1 := inference_pipeline.stats (snd out) in
  (py.endswith data_path ".csv" = false ->
   py.endswith data_path ".parquet" = false ->
   out = (py.Raise (py.Error "ValueError"
                      ("Unsupported file format: " +:+ data_path)), self))
  /\ (forall data,
         inference_pipeline.load_batch data_path = py.Return data ->
         batch_size = 0%Z ->
         out = (py.Raise (py.Error "ValueError"
                            "range() arg 3 must not be zero"), self))
  /\ (forall data,
         inference_pipeline.load_batch data_path = py.Return data ->
         data = [] /\ (0 < batch_size)%Z \/ (batch_size < 0)%Z ->
         out = (py.Raise (py.Error "ZeroDivisionError" "division by zero"),
                self))
  /\ match fst out with
     | py.Return r =>
         inference_pipeline.batch_num_samples r
         = length (inference_pipeline.all_predictions r)
         /\ (0 < inference_pipeline.batch_num_samples r)%nat
         /\ inference_pipeline.total_predictions stats1
            = (inference_pipeline.total_predictions stats0
               + Z.of_nat (inference_pipeline.batch_num_samples r))%Z
         /\ inference_pipeline.error_count stats1
            = inference_pipeline.error_count stats0
     | py.Raise _ =>
         (inference_pipeline.total_predictions stats0
          <= inference_pipeline.total_predictions stats1)%Z
         /\ (inference_pipeline.error_count stats1
             = inference_pipeline.error_count stats0
             \/ inference_pipeline.error_count stats1
                = (inference_pipeline.error_count stats0 + 1)%Z)
     end.
Proof.
  cbn zeta. split; [|split; [|split]].
  - intros Hcsv Hpq.
    unfold inference_pipeline.predict_batch, inference_pipeline.load_batch.
    rewrite Hcsv, Hpq. reflexivity.
  - intros data Hload ->. unfold inference_pipeline.predict_batch.
    rewrite Hload. reflexivity.
  - intros data Hload Hcase. unfold inference_pipeline.predict_batch.
    rewrite Hload.
    assert (Hstarts : (if (batch_size <? 0)%Z then []
                       else inference_pipeline.batch_starts (length data)
                              (Z.to_nat batch_size)) = []
                      /\ (batch_size =? 0)%Z = false).
    { destruct Hcase as [[-> Hpos]|Hneg].
      - split; [|apply Z.eqb_neq; lia].
        destruct (batch_size <? 0)%Z; [reflexivity|].
        unfold inference_pipeline.batch_starts. cbn [length].
        rewrite Nat.div_small by lia. reflexivity.
      - split; [|apply Z.eqb_neq; lia].
        apply Z.ltb_lt in Hneg. rewrite Hneg. reflexivity. }
    destruct Hstarts as [-> ->]. reflexivity.
  - unfold inference_pipeline.predict_batch.
    destruct (inference_pipeline.load_batch data_path) as [data|e];
      [|cbn; split; [lia|auto]].
    destruct (batch_size =? 0)%Z; [cbn; split; [lia|auto]|].
    destruct (batch_loop_counts R data (Z.to_nat batch_size) flag threshold
                elapsed
                (if (batch_size <? 0)%Z then []
                 else inference_pipeline.batch_starts (length data)
                        (Z.to_nat batch_size))
                self [] [] 0%Q) as [_ Hloop].
    cbn zeta in Hloop.
    destruct (inference_pipeline.batch_loop _ _ _ _ _ _ _ _ _ _)
      as [[[[preds probs] time]|e] self1]; cbn [fst snd] in *.
    + destruct Hloop as (H1 & H3 & _).
      destruct preds as [|p preds].
      * cbn [fst snd]. cbn in H1. split; [lia|left; exact H3].
      * destruct (inference_pipeline.save_batch _ _ _ _) as [[]|e];
          cbn [fst snd].
        -- cbn [inference_pipeline.batch_num_samples
                inference_pipeline.all_predictions
                inference_pipeline.batch_total_inference_time
                inference_pipeline.avg_inference_time_per_sample].
           split; [reflexivity|]. split; [cbn; lia|].
           split; [cbn [length] in *; lia|]. exact H3.
        -- cbn in H1. split; [lia|left; exact H3].
    + exact Hloop.
Qed.

Lemma predict_batch_outcomes_witness :
  exists r,
    fst (@inference_pipeline.predict_batch inference_pipeline.demo_runtime
           inference_pipeline.demo_pipeline "batch.csv" None 2 false None
           (fun _ => 1 # 100))
    = py.Return r
    /\ inference_pipeline.all_predictions r = [1; 0; 1]%Z
    /\ inference_pipeline.batch_num_samples r = 3%nat.
Proof.
  pose proof (proj2 (proj2 (proj2
    (predict_batch_outcomes inference_pipeline.demo_runtime
       inference_pipeline.demo_pipeline "batch.csv" None 2 false None
       (fun _ => 1 # 100))))) as H.
  cbn zeta in H.
  remember (fst (@inference_pipeline.predict_batch
                   inference_pipeline.demo_runtime
                   inference_pipeline.demo_pipeline "batch.csv" None 2 false
                   None (fun _ => 1 # 100))) as o eqn:E.
  vm_compute in E. subst o.
  destruct H as (Hn & _).
  eexists. split; [reflexivity|]. split; [reflexivity|]. exact Hn.
Defined.

(** ** The controller-health property tests *)

(** Healthy controllers leave both lists of the loop as they are. *)
Lemma check_controllers_healthy (C : gitops_health.Cluster)
    (namespace : string) (expected : list string) u m :
  (forall c, c ∈ expected -> gitops_health.found_healthy namespace c) ->
  gitops_health.check_controllers namespace expected u m = py.Return (u, m).
Proof.
  induction expected as [|c expected IH]; intros H; [reflexivity|].
  destruct (H c ltac:(left)) as (d & Hd & Hh).
  cbn [gitops_health.check_controllers]. unfold gitops_health.get_deployment.
  rewrite Hd. cbn [mbind result_bind py.bind].
  destruct (gitops_health.check_deployment_health (Some d)) as [h reason].
  cbn [fst] in Hh. subst h. apply IH. intros c' Hc'. apply H. right. exact Hc'.
Qed.

(** What the loop returns: both lists have grown, the missing controllers
    by those the API server answered 404 for, and neither has grown only if
    every controller was found healthy. *)
Lemma check_controllers_grow (C : gitops_health.Cluster)
    (namespace : string) (expected : list string) :
  forall u m u' m',
    gitops_health.check_controllers namespace expected u m
    = py.Return (u', m') ->
    (length u <= length u')%nat
    /\ m' = m ++ List.filter
                   (fun c => gitops_health.is_404
                               (gitops_health.read_namespaced_deployment
                                  c namespace)) expected
    /\ (length u' = length u -> length m' = length m ->
        forall c, c ∈ expected -> gitops_health.found_healthy namespace c).
Proof.
  induction expected as [|c expected IH]; intros u m u' m'.
  - cbn. intros [= <- <-]. split; [lia|]. split; [rewrite app_nil_r; reflexivity|].
    intros _ _ c Hc. apply elem_of_nil in Hc as [].
  - cbn [gitops_health.check_controllers List.filter].
    unfold gitops_health.get_deployment.
    destruct (gitops_health.read_namespaced_deployment c namespace)
      as [d|s] eqn:Hread; cbn [gitops_health.is_404].
    + cbn [mbind result_bind py.bind].
      destruct (gitops_health.check_deployment_health (Some d))
        as [h reason] eqn:Hh.
      destruct h.
      * intros Hrun. destruct (IH _ _ _ _ Hrun) as (Hu & Hm & Hall).
        split; [exact Hu|]. split; [exact Hm|].
        intros Hlu Hlm c' Hc'. apply elem_of_cons in Hc' as [->|Hc'].
        -- exists d. split; [exact Hread|]. rewrite Hh. reflexivity.
        -- apply Hall; assumption.
      * destruct (gitops_health.status_ready_replicas d) as [ready|e];
          cbn [mbind result_bind py.bind]; [|discriminate].
        intros Hrun. destruct (IH _ _ _ _ Hrun) as (Hu & Hm & _).
        rewrite length_app in Hu. cbn [length] in Hu.
        split; [lia|]. split; [exact Hm|]. intros Hlu. lia.
    + destruct (s =? 404)%nat; [|discriminate].
      cbn [mbind result_bind py.bind].
      intros Hrun. destruct (IH _ _ _ _ Hrun) as (Hu & Hm & _).
      split; [exact Hu|]. split; [rewrite Hm, <- app_assoc; reflexivity|].
      intros _ Hlm. rewrite Hm, !length_app in Hlm. cbn [length] in Hlm. lia.
Qed.

(** A controller found without a status ends the loop in an
    [AttributeError], when the API server answers for every controller. *)
Lemma check_controllers_no_status (C : gitops_health.Cluster)
    (namespace : string) (c : string) (d : gitops_health.V1Deployment) :
  gitops_health.read_namespaced_deployment c namespace
  = gitops_health.Found d ->
  gitops_health.status d = None ->
  forall expected,
    (forall x, x ∈ expected ->
       gitops_health.is_404
         (gitops_health.read_namespaced_deployment x namespace) = true
       \/ exists dx, gitops_health.read_namespaced_deployment x namespace
                     = gitops_health.Found dx) ->
    c ∈ expected ->
    forall u m,
      gitops_health.check_controllers namespace expected u m =
      py.Raise (py.Error "AttributeError"
                  "'NoneType' object has no attribute 'ready_replicas'").
Proof.
  intros Hc Hnone. induction expected as [|x expected IH];
    intros Hanswer Hin u m.
  - apply elem_of_nil in Hin as [].
  - assert (Hanswer' : forall y, y ∈ expected ->
              gitops_health.is_404
                (gitops_health.read_namespaced_deployment y namespace) = true
              \/ exists dy, gitops_health.read_namespaced_deployment y namespace
                            = gitops_health.Found dy)
      by (intros y Hy; apply Hanswer; right; exact Hy).
    cbn [gitops_health.check_controllers].
    unfold gitops_health.get_deployment.
    destruct (Hanswer x ltac:(left)) as [H404|[dx Hdx]].
    + destruct (gitops_health.read_namespaced_deployment x namespace)
        as [dx|s] eqn:Hx; [discriminate|].
      cbn [gitops_health.is_404] in H404. rewrite H404.
      cbn [mbind result_bind py.bind].
      apply elem_of_cons in Hin as [->|Hin]; [congruence|].
      apply IH; assumption.
    + rewrite Hdx. cbn [mbind result_bind py.bind].
      destruct (gitops_health.check_deployment_health (Some dx))
        as [h reason] eqn:Hh.
      destruct h.
      * apply elem_of_cons in Hin as [->|Hin].
        -- exfalso. rewrite Hc in Hdx. injection Hdx as <-.
           unfold gitops_health.check_deployment_health in Hh.
           rewrite Hnone in Hh. discriminate.
        -- apply IH; assumption.
      * unfold gitops_health.status_ready_replicas.
        destruct (gitops_health.status dx) as [st|] eqn:Hst.
        -- cbn [mbind result_bind py.bind].
           apply elem_of_cons in Hin as [->|Hin]; [congruence|].
           apply IH; assumption.
        -- reflexivity.
Qed.

(** X21.  How [test_gitops_controller_health_property] ends for a drawn
    namespace.  It passes exactly when the client can be configured, the
    namespace is there and every expected controller is found healthy.  With
    no configuration it ends in a [RuntimeError]; a namespace answered with
    404 fails the first assertion; when controllers are reported missing,
    they are those answered with 404, in the expected order, whatever the
    health of the others.  A controller found without a status does not fail
    an assertion: reading its ready replicas raises [AttributeError]. *)
Theorem controller_health_test_outcomes (C : gitops_health.Cluster)
    (namespace : string) :
  let outcome :=
    gitops_health.test_gitops_controller_health_property namespace in
  let expected := gitops_health.expected_controllers_of namespace in
  let configured :=
    gitops_health.load_incluster_config || gitops_health.load_kube_config in
  (outcome = gitops_health.Passed <->
   configured = true
   /\ (exists ns, gitops_health.read_namespace namespace
                  = gitops_health.Found ns)
   /\ forall c, c ∈ expected -> gitops_health.found_healthy namespace c)
  /\ (configured = false -> exists msg,
        outcome = gitops_health.TestError (py.Error "RuntimeError" msg))
  /\ (configured = true ->
      gitops_health.is_404 (gitops_health.read_namespace namespace) = true ->
      outcome = gitops_health.NamespaceMissing namespace)
  /\ (forall ns0 missing,
         outcome = gitops_health.MissingControllers ns0 missing ->
         ns0 = namespace
         /\ missing <> []
         /\ missing =
            List.filter
              (fun c => gitops_health.is_404
                          (gitops_health.read_namespaced_deployment
                             c namespace)) expected)
  /\ (forall c d,
         configured = true ->
         (exists ns, gitops_health.read_namespace namespace
                     = gitops_health.Found ns) ->
         (forall x, x ∈ expected ->
            gitops_health.is_404
              (gitops_health.read_namespaced_deployment x namespace) = true
            \/ exists dx, gitops_health.read_namespaced_deployment x namespace
                          = gitops_health.Found dx) ->
         c ∈ expected ->
         gitops_health.read_namespaced_deployment c namespace
         = gitops_health.Found d ->
         gitops_health.status d = None ->
         outcome =
         gitops_health.TestError
           (py.Error "AttributeError"
              "'NoneType' object has no attribute 'ready_replicas'")).
Proof.
  cbn zeta.
  unfold gitops_health.test_gitops_controller_health_property,
    gitops_health.__init__, gitops_health.check_namespace_exists,
    gitops_health.get_namespace.
  assert (Hconf : (if gitops_health.load_incluster_config then py.Return tt
                   else if gitops_health.load_kube_config then py.Return tt
                   else py.Raise
                          (py.Error "RuntimeError"
                             ("Could not configure Kubernetes client. "
                              +:+ "Ensure you have a valid kubeconfig or are running in-cluster.")))
                  = if gitops_health.load_incluster_config
                       || gitops_health.load_kube_config
                    then py.Return tt
                    else py.Raise
                           (py.Error "RuntimeError"
                              ("Could not configure Kubernetes client. "
                               +:+ "Ensure you have a valid kubeconfig or are running in-cluster."))).
  { destruct gitops_health.load_incluster_config,
      gitops_health.load_kube_config; reflexivity. }
  rewrite Hconf. clear Hconf.
  destruct (gitops_health.load_incluster_config
            || gitops_health.load_kube_config).
  2:{ cbn. split; [|split; [|split; [|split]]].
      - split; [discriminate|]. intros [H _]. discriminate.
      - intros _. eexists. reflexivity.
      - discriminate.
      - discriminate.
      - discriminate. }
  cbn [mbind result_bind py.bind].
  destruct (gitops_health.read_namespace namespace) as [ns|s] eqn:Hns.
  2:{ cbn [gitops_health.is_404].
      destruct (s =? 404)%nat; cbn.
      - split; [|split; [|split; [|split]]].
        + split; [discriminate|]. intros (_ & [ns H] & _). discriminate.
        + discriminate.
        + reflexivity.
        + discriminate.
        + intros c d _ [ns H]. discriminate.
      - split; [|split; [|split; [|split]]].
        + split; [discriminate|]. intros (_ & [ns H] & _). discriminate.
        + discriminate.
        + discriminate.
        + discriminate.
        + intros c d _ [ns H]. discriminate. }
  cbn [mbind result_bind py.bind gitops_health.is_404].
  replace (negb (bool_decide (is_Some (Some ns)))) with false
    by (symmetry; apply negb_false_iff, bool_decide_eq_true; eauto).
  set (expected := gitops_health.expected_controllers_of namespace).
  pose proof (check_controllers_grow C namespace expected [] []) as Hgrow.
  pose proof (check_controllers_healthy C namespace expected [] []) as Hok.
  split; [|split; [|split; [|split]]].
  - split.
    + intros Hpass. split; [reflexivity|]. split; [eauto|].
      destruct (gitops_health.check_controllers namespace expected [] [])
        as [[u' m']|e]; cbn in Hpass; [|discriminate].
      destruct (Hgrow u' m' eq_refl) as (_ & _ & Hall).
      destruct m' as [|x m']; [|discriminate].
      destruct u' as [|y u']; [|discriminate].
      apply Hall; reflexivity.
    + intros (_ & _ & Hall). rewrite (Hok Hall). reflexivity.
  - discriminate.
  - discriminate.
  - intros ns0 missing Hout.
    destruct (gitops_health.check_controllers namespace expected [] [])
      as [[u' m']|e]; cbn in Hout; [|discriminate].
    destruct (Hgrow u' m' eq_refl) as (_ & Hm & _).
    destruct m' as [|x m']; [destruct u'; discriminate|].
    injection Hout as <- <-. split; [reflexivity|]. split; [discriminate|].
    exact Hm.
  - intros c d _ _ Hanswer Hin Hc Hnone.
    rewrite (check_controllers_no_status C namespace c d Hc Hnone expected
               Hanswer Hin [] []).
    reflexivity.
Qed.

(** X21 on the example cluster: the test passes for Flux, and fails for
    Argo CD, whose namespace is missing. *)
Lemma controller_health_test_outcomes_witness :
  @gitops_health.test_gitops_controller_health_property
    gitops_health.demo_cluster gitops_health.FLUX_NAMESPACE
  = gitops_health.Passed
  /\ @gitops_health.test_gitops_controller_health_property
       gitops_health.demo_cluster gitops_health.ARGOCD_NAMESPACE
     = gitops_health.NamespaceMissing gitops_health.ARGOCD_NAMESPACE.
Proof.
  split.
  - apply (proj1 (controller_health_test_outcomes gitops_health.demo_cluster
                    gitops_health.FLUX_NAMESPACE)).
    split; [reflexivity|]. split; [exists tt; reflexivity|].
    intros c Hc. exists gitops_health.one_replica.
    split; [|reflexivity].
    change (gitops_health.expected_controllers_of gitops_health.FLUX_NAMESPACE)
      with gitops_health.FLUX_CONTROLLERS in Hc.
    cbn. rewrite bool_decide_eq_true_2 by exact Hc. reflexivity.
  - apply (proj1 (proj2 (proj2 (controller_health_test_outcomes
                    gitops_health.demo_cluster
                    gitops_health.ARGOCD_NAMESPACE)))); reflexivity.
Defined.

(** The loop of the replica test passes exactly when every deployment
    reports a status, as many ready replicas as desired, and the minimum
    when one above 1 is asked for. *)
Lemma check_replicas_passed
    (deployments : list (string * gitops_health.V1Deployment))
    (min_replicas : Z) :
  gitops_health.check_replicas deployments min_replicas
  = py.Return gitops_health.Passed <->
  forall name d, (name, d) ∈ deployments ->
    exists st, gitops_health.status d = Some st
      /\ gitops_health.or_int (gitops_health.ready_replicas st) 0
         = gitops_health.or_int
             (gitops_health.replicas (gitops_health.spec d)) 1
      /\ ((1 < min_replicas)%Z ->
          (min_replicas
           <= gitops_health.or_int (gitops_health.ready_replicas st) 0)%Z).
Proof.
  induction deployments as [|[name d] deployments IH].
  - split; [|reflexivity]. intros _ name d H. apply elem_of_nil in H as [].
  - cbn [gitops_health.check_replicas].
    unfold gitops_health.status_ready_replicas.
    destruct (gitops_health.status d) as [st|] eqn:Hst.
    + cbn [mbind result_bind py.bind]. cbn zeta.
      destruct (gitops_health.or_int (gitops_health.ready_replicas st) 0
                =? gitops_health.or_int
                     (gitops_health.replicas (gitops_health.spec d)) 1)%Z
        eqn:Heq; cbn [negb].
      * apply Z.eqb_eq in Heq.
        destruct ((1 <? min_replicas)%Z
                  && negb (min_replicas
                           <=? gitops_health.or_int
                                 (gitops_health.ready_replicas st) 0)%Z)
          eqn:Hmin.
        -- split; [discriminate|]. intros H.
           destruct (H name d ltac:(left)) as (st' & Hst' & _ & Hge).
           rewrite Hst in Hst'. injection Hst' as <-.
           apply andb_prop in Hmin as [H1 H2].
           apply Z.ltb_lt in H1. apply negb_true_iff, Z.leb_gt in H2.
           specialize (Hge H1). lia.
        -- rewrite IH. split.
           ++ intros H name' d' Hin.
              apply elem_of_cons in Hin as [[= -> ->]|Hin]; [|eauto].
              exists st. split; [exact Hst|]. split; [exact Heq|].
              intros H1. apply andb_false_iff in Hmin as [H2|H2].
              ** apply Z.ltb_ge in H2. lia.
              ** apply negb_false_iff, Z.leb_le in H2. exact H2.
           ++ intros H name' d' Hin. apply (H name' d'). right. exact Hin.
      * apply Z.eqb_neq in Heq. split; [discriminate|]. intros H.
        destruct (H name d ltac:(left)) as (st' & Hst' & Heq' & _).
        rewrite Hst in Hst'. injection Hst' as <-. contradiction.
    + split; [discriminate|]. intros H.
      destruct (H name d ltac:(left)) as (st' & Hst' & _). congruence.
Qed.

(** X22.  [test_controller_replica_consistency] for a drawn namespace and
    minimum.  It passes exactly when the client can be configured, the
    namespace lists at least one deployment, and every listed deployment
    reports a status with as many ready replicas as desired (1 standing for
    an unset or zero desire, 0 for unset ready replicas), at least the
    minimum when that is above 1.  So it passes for every minimum that is
    drawn only where every deployment runs three replicas or more; and a
    namespace answered with 404 fails as one without deployments. *)
Theorem replica_consistency_test_outcomes (C : gitops_health.Cluster)
    (namespace : string) :
  let configured :=
    gitops_health.load_incluster_config || gitops_health.load_kube_config in
  let consistent (min_replicas : Z) :=
    configured = true
    /\ exists deployments,
         gitops_health.list_namespaced_deployment namespace
         = gitops_health.Found deployments
         /\ deployments <> []
         /\ forall name d, (name, d) ∈ deployments ->
              exists st, gitops_health.status d = Some st
                /\ gitops_health.or_int (gitops_health.ready_replicas st) 0
                   = gitops_health.or_int
                       (gitops_health.replicas (gitops_health.spec d)) 1
                /\ ((1 < min_replicas)%Z ->
                    (min_replicas
                     <= gitops_health.or_int
                          (gitops_health.ready_replicas st) 0)%Z) in
  (forall min_replicas,
      gitops_health.test_controller_replica_consistency namespace min_replicas
      = gitops_health.Passed <-> consistent min_replicas)
  /\ ((forall min_replicas, min_replicas ∈ gitops_health.drawn_min_replicas ->
         gitops_health.test_controller_replica_consistency namespace
           min_replicas = gitops_health.Passed)
      <-> consistent 3%Z)
  /\ (configured = true ->
      gitops_health.is_404
        (gitops_health.list_namespaced_deployment namespace) = true ->
      forall min_replicas,
        gitops_health.test_controller_replica_consistency namespace
          min_replicas = gitops_health.NoDeployments namespace).
Proof.
  cbn zeta.
  assert (Hone : forall min_replicas,
    gitops_health.test_controller_replica_consistency namespace min_replicas
    = gitops_health.Passed <->
    gitops_health.load_incluster_config || gitops_health.load_kube_config
    = true
    /\ exists deployments,
         gitops_health.list_namespaced_deployment namespace
         = gitops_health.Found deployments
         /\ deployments <> []
         /\ forall name d, (name, d) ∈ deployments ->
              exists st, gitops_health.status d = Some st
                /\ gitops_health.or_int (gitops_health.ready_replicas st) 0
                   = gitops_health.or_int
                       (gitops_health.replicas (gitops_health.spec d)) 1
                /\ ((1 < min_replicas)%Z ->
                    (min_replicas
                     <= gitops_health.or_int
                          (gitops_health.ready_replicas st) 0)%Z)).
  { intros min_replicas.
    unfold gitops_health.test_controller_replica_consistency,
      gitops_health.__init__, gitops_health.list_deployments.
    destruct gitops_health.load_incluster_config eqn:Hin;
      [|destruct gitops_health.load_kube_config eqn:Hkube].
    3:{ cbn. split; [discriminate|]. intros [H _]. discriminate. }
    all: cbn [mbind result_bind py.bind orb].
    all: destruct (gitops_health.list_namespaced_deployment namespace)
           as [items|s] eqn:Hlist.
    all: try (destruct (s =? 404)%nat; cbn;
              (split; [discriminate|]);
              intros (_ & items & H & _); discriminate).
    all: cbn [mbind result_bind py.bind].
    all: destruct items as [|item items];
      [cbn; split; [discriminate|];
       intros (_ & items' & [= <-] & Hne & _); congruence|].
    all: split.
    all: try (intros Hpass; split; [reflexivity|];
              exists (item :: items); split; [reflexivity|];
              split; [discriminate|];
              apply check_replicas_passed;
              destruct (gitops_health.check_replicas (item :: items)
                          min_replicas) as [[]|e]; cbn in Hpass;
              try discriminate; reflexivity).
    all: intros (_ & items' & [= <-] & _ & Hall);
      apply check_replicas_passed in Hall; rewrite Hall; reflexivity. }
  split; [exact Hone|]. split.
  - split.
    + intros H. apply Hone, H. unfold gitops_health.drawn_min_replicas.
      decide_elem.
    + intros (Hc & items & Hl & Hne & Hall) min_replicas Hdrawn.
      apply Hone. split; [exact Hc|]. exists items.
      split; [exact Hl|]. split; [exact Hne|].
      intros name d Hin. destruct (Hall name d Hin) as (st & Hst & Heq & Hge).
      exists st. split; [exact Hst|]. split; [exact Heq|].
      intros H1. specialize (Hge ltac:(lia)).
      unfold gitops_health.drawn_min_replicas in Hdrawn.
      rewrite !elem_of_cons, elem_of_nil in Hdrawn.
      destruct Hdrawn as [->|[->|[->|[]]]]; lia.
  - intros Hc H404 min_replicas.
    unfold gitops_health.test_controller_replica_consistency,
      gitops_health.__init__, gitops_health.list_deployments.
    destruct (gitops_health.list_namespaced_deployment namespace)
      as [items|s]; [discriminate|].
    cbn [gitops_health.is_404] in H404. rewrite H404.
    destruct gitops_health.load_incluster_config;
      [reflexivity|].
    cbn [orb] in Hc. rewrite Hc. reflexivity.
Qed.

(** X22 on the example cluster, whose Flux controllers run one replica each:
    the test passes for a minimum of 1 and fails for a minimum of 2. *)
Lemma replica_consistency_test_outcomes_witness :
  @gitops_health.test_controller_replica_consistency
    gitops_health.demo_cluster gitops_health.FLUX_NAMESPACE 1
  = gitops_health.Passed
  /\ @gitops_health.test_controller_replica_consistency
       gitops_health.demo_cluster gitops_health.FLUX_NAMESPACE 2
     <> gitops_health.Passed.
Proof.
  split.
  - apply (proj1 (replica_consistency_test_outcomes
                    gitops_health.demo_cluster gitops_health.FLUX_NAMESPACE)).
    split; [reflexivity|]. eexists. split; [reflexivity|].
    split; [discriminate|]. intros name d Hin.
    exists {| gitops_health.ready_replicas := Some 1%Z;
              gitops_health.available_replicas := Some 1%Z;
              gitops_health.conditions := None |}.
    apply list_elem_of_fmap in Hin as (c & [= -> ->] & _).
    split; [reflexivity|]. split; [reflexivity|]. lia.
  - vm_compute. discriminate.
Defined.
